(** * WealthFlow: the two-layer ledger, its allocator and posting services

    A shallow embedding of the Go backend (packages [domain], [allocator],
    [inflow], [expense], [investment], [dashboard], [task_generator] and the
    PostgreSQL balance trigger), and the properties of the specification
    proved or refuted over it. *)

From Stdlib Require Import ZArith QArith Qpower Qabs Lia Lqa.
From stdpp Require Import base decidable option list gmap fin_maps strings sorting.

Local Open Scope Z_scope.

(** ** Decimal arithmetic (github.com/shopspring/decimal)

    A [Decimal] is [value * 10 ^ exp] with an arbitrary-precision
    coefficient, exactly as the library stores it.  The exponent is an
    [int32] in Go; its range is not modelled (the library panics outside of
    it). *)

Module decimal.

Record Decimal : Type := New { value : Z; exp : Z }.

#[global] Instance Decimal_eq_dec : EqDecision Decimal.
Proof. solve_decision. Defined.

(** [decimal.Zero] is [New(0, 1)]. *)
Definition Zero : Decimal := New 0 1.

(** The zero value [Decimal{}], whose nil coefficient reads as 0: what an
    uninitialised variable and a missing map key hold. *)
Definition zeroValue : Decimal := New 0 0.

Definition NewFromInt (n : Z) : Decimal := New n 0.

(** [DivisionPrecision], the number of fractional digits [Div] keeps. *)
Definition DivisionPrecision : Z := 16.

(** [d.rescale(e)] for [e <= d.exp]: the coefficient is multiplied out. *)
Definition rescale (d : Decimal) (e : Z) : Z := value d * 10 ^ (exp d - e).

(** [RescalePair] brings both operands to the smaller exponent. *)
Definition Add (d d2 : Decimal) : Decimal :=
  let e := Z.min (exp d) (exp d2) in
  New (rescale d e + rescale d2 e) e.

Definition Sub (d d2 : Decimal) : Decimal :=
  let e := Z.min (exp d) (exp d2) in
  New (rescale d e - rescale d2 e) e.

Definition Abs (d : Decimal) : Decimal := New (Z.abs (value d)) (exp d).

Definition Mul (d d2 : Decimal) : Decimal :=
  New (value d * value d2) (exp d + exp d2).

Definition Cmp (d d2 : Decimal) : comparison :=
  let e := Z.min (exp d) (exp d2) in
  rescale d e ?= rescale d2 e.

Definition Equal (d d2 : Decimal) : bool :=
  match Cmp d d2 with Eq => true | _ => false end.
Definition GreaterThan (d d2 : Decimal) : bool :=
  match Cmp d d2 with Gt => true | _ => false end.
Definition LessThan (d d2 : Decimal) : bool :=
  match Cmp d d2 with Lt => true | _ => false end.
Definition LessThanOrEqual (d d2 : Decimal) : bool :=
  match Cmp d d2 with Gt => false | _ => true end.

Definition Min (d d2 : Decimal) : Decimal :=
  if LessThan d2 d then d2 else d.

(** [d.QuoRem(d2, precision)]: truncated quotient with [precision]
    fractional digits, and the remainder.  Division by zero panics in Go;
    it is [None] here. *)
Definition QuoRem (d d2 : Decimal) (precision : Z)
  : option (Decimal * Decimal) :=
  if value d2 =? 0 then None
  else
    let scale := - precision in
    let e := exp d - exp d2 - scale in
    let '(aa, bb, scalerest) :=
      if e <? 0
      then (value d, value d2 * 10 ^ (- e), exp d)
      else (value d * 10 ^ e, value d2, scale + exp d2) in
    Some (New (Z.quot aa bb) scale, New (Z.rem aa bb) scalerest).

(** [d.DivRound(d2, precision)]: the quotient rounded half away from zero. *)
Definition DivRound (d d2 : Decimal) (precision : Z) : option Decimal :=
  match QuoRem d d2 precision with
  | None => None
  | Some (q, r) =>
      let r2 := New (Z.abs (value r) * 2) (exp r + precision) in
      match Cmp r2 (Abs d2) with
      | Lt => Some q
      | _ =>
          if Z.sgn (value d) * Z.sgn (value d2) <? 0
          then Some (Sub q (New 1 (- precision)))
          else Some (Add q (New 1 (- precision)))
      end
  end.

Definition Div (d d2 : Decimal) : option Decimal :=
  DivRound d d2 DivisionPrecision.

(** Division by the non-zero constant [decimal.NewFromInt(100)] never
    panics; [Div100] is [d.Div(decimal.NewFromInt(100))]. *)
Definition Div100 (d : Decimal) : Decimal :=
  default Zero (Div d (NewFromInt 100)).

(** The rational number a decimal denotes. *)
Definition toQ (d : Decimal) : Q := (inject_Z (value d) * (10 # 1) ^ exp d)%Q.

End decimal.

Import decimal.

(** ** Results of fallible calls

    A Go function returning [(T, error)] returns a [result T]; the error
    carries the message given to [errors.New]. *)

Inductive result (A : Type) : Type :=
| Ok (a : A)
| Err (msg : string).
Arguments Ok {A} a.
Arguments Err {A} msg.

Definition rbind {A B : Type} (r : result A) (k : A -> result B) : result B :=
  match r with
  | Ok a => k a
  | Err msg => Err msg
  end.

Notation "x <- r ;; k" := (rbind r (fun x => k))
  (at level 100, r at next level, right associativity).

(** [uuid.UUID] values are 128-bit numbers. *)
Abbreviation UUID := N.

(** [time.Time], as nanoseconds since the epoch. *)
Abbreviation Time := Z.

(** A [range] over a Go map yields every key once, in an order the
    language leaves open and that may change from one loop to the next.
    [enumerate] is one way of ranging over maps: for each map, some
    ordering of its pairs. *)
Definition rangeOrder {A : Type} (enumerate : gmap N A -> list (N * A)) : Prop :=
  forall m, enumerate m ≡ₚ map_to_list m.

(** ** Package [domain] *)

Module domain.

(** [BucketType], [EntryType], [Layer] and [SplitRuleItemType] are Go
    string types: any string inhabits them, the constants name the
    values the code compares against. *)
Definition BucketTypePhysical : string := "PHYSICAL".
Definition BucketTypeVirtual : string := "VIRTUAL".
Definition BucketTypeIncome : string := "INCOME".
Definition BucketTypeExpense : string := "EXPENSE".
Definition BucketTypeEquity : string := "EQUITY".
Definition BucketTypeSystem : string := "SYSTEM".

Definition EntryTypeDebit : string := "DEBIT".
Definition EntryTypeCredit : string := "CREDIT".

Definition LayerPhysical : string := "PHYSICAL".
Definition LayerVirtual : string := "VIRTUAL".

Definition SplitRuleItemTypeFixed : string := "FIXED".
Definition SplitRuleItemTypePercent : string := "PERCENT".
Definition SplitRuleItemTypeRemainder : string := "REMAINDER".

Module Bucket.
Record t : Type := Make {
  ID : UUID;
  Name : string;
  BucketType : string;
  ParentPhysicalBucketID : option UUID;
  CurrentBalance : Decimal
}.
End Bucket.

Module TransactionEntry.
Record t : Type := Make {
  ID : UUID;
  TransactionID : UUID;
  BucketID : UUID;
  Amount : Decimal;
  Type_ : string;
  Layer : string
}.
End TransactionEntry.

Module Transaction.
Record t : Type := Make {
  ID : UUID;
  Description : string;
  Date : Time;
  IsInternalTransfer : bool;
  IsExternalInflow : bool;
  Entries : list TransactionEntry.t
}.
End Transaction.

Module SplitRuleItem.
Record t : Type := Make {
  ID : UUID;
  SplitRuleID : UUID;
  TargetBucketID : UUID;
  Type_ : string;
  Value : Decimal;
  Priority : Z
}.
End SplitRuleItem.

Module SplitRule.
Record t : Type := Make {
  ID : UUID;
  Name : string;
  SourceBucketID : UUID;
  Items : list SplitRuleItem.t
}.
End SplitRule.

Module MarketValueHistory.
Record t : Type := Make {
  ID : UUID;
  BucketID : UUID;
  Date : Time;
  MarketValue : Decimal
}.
End MarketValueHistory.

Module TransferTask.
Record t : Type := Make {
  ID : UUID;
  RelatedTransactionID : UUID;
  CompletedTransactionID : option UUID;
  FromPhysicalBucketID : UUID;
  ToPhysicalBucketID : UUID;
  Amount : Decimal;
  IsCompleted : bool
}.
End TransferTask.

(** *** [Transaction.Validate] *)

Definition ErrNoEntries : string := "transaction must have at least one entry".
Definition ErrEntryLayer : string := "entry layer must be PHYSICAL or VIRTUAL".
Definition ErrEntryAmount : string :=
  "entry amount must be positive (absolute value)".
Definition ErrEntryType : string := "entry type must be DEBIT or CREDIT".
Definition ErrLayerBalance (layer : string) : string :=
  "sum of debits must equal sum of credits for " +:+ layer +:+ " layer".

(** The loop of [Validate]: each entry is appended to the slice of its
    layer, then its amount and type are checked. *)
Fixpoint separateEntries (entries physicalEntries virtualEntries
                            : list TransactionEntry.t)
  : result (list TransactionEntry.t * list TransactionEntry.t) :=
  match entries with
  | [] => Ok (physicalEntries, virtualEntries)
  | entry :: rest =>
      pv <-
        (if String.eqb (TransactionEntry.Layer entry) LayerPhysical
         then Ok (physicalEntries ++ [entry], virtualEntries)
         else if String.eqb (TransactionEntry.Layer entry) LayerVirtual
         then Ok (physicalEntries, virtualEntries ++ [entry])
         else Err ErrEntryLayer) ;;
      if LessThanOrEqual (TransactionEntry.Amount entry) Zero
      then Err ErrEntryAmount
      else if negb (String.eqb (TransactionEntry.Type_ entry) EntryTypeDebit)
              && negb (String.eqb (TransactionEntry.Type_ entry) EntryTypeCredit)
      then Err ErrEntryType
      else separateEntries rest (fst pv) (snd pv)
  end.

(** The accumulation loop of [validateLayerBalance]; the pair is
    [(totalDebits, totalCredits)]. *)
Definition layerTotals (entries : list TransactionEntry.t)
  : Decimal * Decimal :=
  foldl (fun acc entry =>
           if String.eqb (TransactionEntry.Type_ entry) EntryTypeDebit
           then (Add (fst acc) (TransactionEntry.Amount entry), snd acc)
           else (fst acc, Add (snd acc) (TransactionEntry.Amount entry)))
        (zeroValue, zeroValue) entries.

Definition validateLayerBalance (entries : list TransactionEntry.t)
                                (layer : string) : result unit :=
  match entries with
  | [] => Ok tt
  | _ =>
      let '(totalDebits, totalCredits) := layerTotals entries in
      if negb (Equal totalDebits totalCredits)
      then Err (ErrLayerBalance layer)
      else Ok tt
  end.

Definition Validate (t : Transaction.t) : result unit :=
  match Transaction.Entries t with
  | [] => Err ErrNoEntries
  | _ =>
      layers <- separateEntries (Transaction.Entries t) [] [] ;;
      let '(physicalEntries, virtualEntries) := layers in
      _ <- validateLayerBalance physicalEntries LayerPhysical ;;
      _ <- validateLayerBalance virtualEntries LayerVirtual ;;
      Ok tt
  end.

(** *** [Bucket.Validate] *)

Definition ErrBucketName : string := "bucket name cannot be empty".
Definition ErrVirtualParent : string :=
  "virtual bucket must have a parent physical bucket ID".

Definition Bucket_Validate (b : Bucket.t) : result unit :=
  if String.eqb (Bucket.Name b) "" then Err ErrBucketName
  else if String.eqb (Bucket.BucketType b) BucketTypeVirtual
  then match Bucket.ParentPhysicalBucketID b with
       | None => Err ErrVirtualParent
       | Some _ => Ok tt
       end
  else Ok tt.

(** *** [SplitRule.Validate] *)

Definition ErrRuleNoItems : string := "split rule must have at least one item".
Definition ErrItemType : string :=
  "split rule item type must be FIXED, PERCENT, or REMAINDER".
Definition ErrFixedValue : string :=
  "FIXED split rule item value must be positive".
Definition ErrPercentValue : string :=
  "PERCENT split rule item value must be between 0 and 100".
Definition ErrRemainderCount : string :=
  "split rule must have exactly one REMAINDER item".

(** The loop of [SplitRule.Validate]; it returns [remainderCount]. *)
Fixpoint validateItems (items : list SplitRuleItem.t) (remainderCount : nat)
  : result nat :=
  match items with
  | [] => Ok remainderCount
  | item :: rest =>
      let remainderCount :=
        if String.eqb (SplitRuleItem.Type_ item) SplitRuleItemTypeRemainder
        then S remainderCount else remainderCount in
      if negb (String.eqb (SplitRuleItem.Type_ item) SplitRuleItemTypeFixed)
         && negb (String.eqb (SplitRuleItem.Type_ item) SplitRuleItemTypePercent)
         && negb (String.eqb (SplitRuleItem.Type_ item) SplitRuleItemTypeRemainder)
      then Err ErrItemType
      else if String.eqb (SplitRuleItem.Type_ item) SplitRuleItemTypeFixed
              && LessThanOrEqual (SplitRuleItem.Value item) Zero
      then Err ErrFixedValue
      else if String.eqb (SplitRuleItem.Type_ item) SplitRuleItemTypePercent
              && (LessThan (SplitRuleItem.Value item) Zero
                  || GreaterThan (SplitRuleItem.Value item) (NewFromInt 100))
      then Err ErrPercentValue
      else validateItems rest remainderCount
  end.

Definition SplitRule_Validate (sr : SplitRule.t) : result unit :=
  match SplitRule.Items sr with
  | [] => Err ErrRuleNoItems
  | items =>
      remainderCount <- validateItems items 0 ;;
      if negb (Nat.eqb remainderCount 1) then Err ErrRemainderCount
      else Ok tt
  end.

End domain.

Import domain.

(** ** Package [allocator] *)

Module allocator.

Definition ErrTotalNotPositive : string := "total amount must be positive".
Definition ErrEmptyItems : string := "items list cannot be empty".
Definition ErrFixedExceeds : string := "FIXED amount exceeds remaining balance".
Definition ErrNoRemainder : string := "no REMAINDER item found".
Definition ErrImbalance : string :=
  "total allocation does not equal total amount".

(** [sort.Slice(sortedItems, less)] with
    [less(i, j) = sortedItems[i].Priority < sortedItems[j].Priority].
    [sortSlice] is the insertion sort the Go runtime runs on slices of at
    most 12 items: each item moves left while it is strictly less than
    its predecessor, which keeps items of equal priority in input order.
    On longer slices [sort.Slice] is not stable, and items of equal
    priority may come out in another order than [sortSlice] gives them:
    [sortSliceOutcome] below is what [sort.Slice] guarantees on every
    slice, and [CalculateAllocationWith] is the function for a given
    outcome of the sort. *)
Fixpoint insertByPriority (x : SplitRuleItem.t) (sorted : list SplitRuleItem.t)
  : list SplitRuleItem.t :=
  match sorted with
  | [] => [x]
  | y :: rest =>
      if SplitRuleItem.Priority x <? SplitRuleItem.Priority y
      then x :: y :: rest
      else y :: insertByPriority x rest
  end.

Definition sortSlice (items : list SplitRuleItem.t) : list SplitRuleItem.t :=
  foldl (fun sorted x => insertByPriority x sorted) [] items.

(** Step 1: the loop over FIXED items. *)
Fixpoint deductFixed (sortedItems : list SplitRuleItem.t)
                     (allocation : gmap N Decimal) (remaining : Decimal)
  : result (gmap N Decimal * Decimal) :=
  match sortedItems with
  | [] => Ok (allocation, remaining)
  | item :: rest =>
      if String.eqb (SplitRuleItem.Type_ item) SplitRuleItemTypeFixed
      then
        if GreaterThan (SplitRuleItem.Value item) remaining
        then Err ErrFixedExceeds
        else deductFixed rest
               (<[SplitRuleItem.TargetBucketID item := SplitRuleItem.Value item]>
                  allocation)
               (Sub remaining (SplitRuleItem.Value item))
      else deductFixed rest allocation remaining
  end.

(** Step 2: the loop over PERCENT items; [remaining] is not updated. *)
Definition percentAmount (remaining : Decimal) (item : SplitRuleItem.t)
  : Decimal :=
  Div100 (Mul remaining (SplitRuleItem.Value item)).

Fixpoint assignPercent (sortedItems : list SplitRuleItem.t)
                       (allocation : gmap N Decimal) (remaining : Decimal)
                       (percentTotal : Decimal)
  : gmap N Decimal * Decimal :=
  match sortedItems with
  | [] => (allocation, percentTotal)
  | item :: rest =>
      if String.eqb (SplitRuleItem.Type_ item) SplitRuleItemTypePercent
      then
        assignPercent rest
          (<[SplitRuleItem.TargetBucketID item := percentAmount remaining item]>
             allocation)
          remaining
          (Add percentTotal (percentAmount remaining item))
      else assignPercent rest allocation remaining percentTotal
  end.

Fixpoint findRemainderItem (items : list SplitRuleItem.t)
  : option SplitRuleItem.t :=
  match items with
  | [] => None
  | item :: rest =>
      if String.eqb (SplitRuleItem.Type_ item) SplitRuleItemTypeRemainder
      then Some item
      else findRemainderItem rest
  end.

(** [for _, amount := range allocation { acc = acc.Add(amount) }] over one
    enumeration of the map.  Go enumerates a map in an unspecified order;
    the model enumerates in [map_to_list] order, and the sum is the same
    decimal for every order ([sumAmounts_perm] below). *)
Definition sumAmounts (pairs : list (N * Decimal)) : Decimal :=
  foldl (fun acc kv => Add acc (snd kv)) Zero pairs.

Definition sumAllocation (allocation : gmap N Decimal) : Decimal :=
  sumAmounts (map_to_list allocation).

(** The body of [CalculateAllocation] after the sort. *)
Definition allocateSorted (totalAmount : Decimal)
                          (sortedItems : list SplitRuleItem.t)
  : result (gmap N Decimal) :=
  fixed <- deductFixed sortedItems ∅ totalAmount ;;
  let '(allocation, remaining) := fixed in
  let '(allocation, percentTotal) :=
    assignPercent sortedItems allocation remaining Zero in
  match findRemainderItem sortedItems with
  | None => Err ErrNoRemainder
  | Some remainderItem =>
      let allocatedSoFar := sumAllocation allocation in
      let remainderAmount := Sub totalAmount allocatedSoFar in
      let allocation :=
        <[SplitRuleItem.TargetBucketID remainderItem := remainderAmount]>
          allocation in
      let totalAllocated := sumAllocation allocation in
      if negb (Equal totalAllocated totalAmount)
      then Err ErrImbalance
      else Ok allocation
  end.

Definition CalculateAllocation (totalAmount : Decimal)
                               (items : list SplitRuleItem.t)
  : result (gmap N Decimal) :=
  if LessThanOrEqual totalAmount Zero then Err ErrTotalNotPositive
  else match items with
       | [] => Err ErrEmptyItems
       | _ => allocateSorted totalAmount (sortSlice items)
       end.

(** What [sort.Slice] guarantees of the slice it leaves: the same items,
    in ascending priority.  Items of equal priority come in any order. *)
Definition sortSliceOutcome (items sortedItems : list SplitRuleItem.t) : Prop :=
  sortedItems ≡ₚ items
  /\ Sorted (fun x y => SplitRuleItem.Priority x <= SplitRuleItem.Priority y)
            sortedItems.

(** [CalculateAllocation] when [sort.Slice] leaves [sortedItems]. *)
Definition CalculateAllocationWith (sortedItems : list SplitRuleItem.t)
                                   (totalAmount : Decimal)
                                   (items : list SplitRuleItem.t)
  : result (gmap N Decimal) :=
  if LessThanOrEqual totalAmount Zero then Err ErrTotalNotPositive
  else match items with
       | [] => Err ErrEmptyItems
       | _ => allocateSorted totalAmount sortedItems
       end.

End allocator.

Import allocator.

(** ** The storage layer (package [postgres] and the SQL schema)

    The tables the services touch.  A bucket row is keyed by its primary
    key [id]; [market_value_history] and [transactions] keep insertion
    order.  Connection failures of the driver are not modelled: a
    repository call fails only for the reasons the queries can give
    (no row found, a foreign key with no target). *)

Module postgres.

Record BucketRow : Type := MakeBucketRow {
  name : string;
  bucket_type : string;
  parent_physical_bucket_id : option UUID;
  current_balance : Decimal
}.

Record DB : Type := MakeDB {
  buckets : gmap N BucketRow;
  split_rules : list SplitRule.t;
  transactions : list Transaction.t;
  market_value_history : list MarketValueHistory.t
}.

Definition ErrBucketNotFound : string :=
  "bucket not found: sql: no rows in result set".
Definition ErrSplitRuleNotFound : string :=
  "split rule not found for source bucket ID: sql: no rows in result set".
Definition ErrSplitRuleNoItems : string := "split rule has no items".
Definition ErrNoMarketValue : string :=
  "no market value history found for bucket: sql: no rows in result set".
Definition ErrInsertEntry : string :=
  "failed to insert transaction entry: violates foreign key constraint".
Definition ErrInsertMarketValue : string :=
  "failed to insert market value history entry: violates foreign key constraint".

Definition toBucket (id : UUID) (row : BucketRow) : Bucket.t :=
  Bucket.Make id (name row) (bucket_type row)
              (parent_physical_bucket_id row) (current_balance row).

(** [bucketRepository.GetByID] *)
Definition BucketRepo_GetByID (db : DB) (id : UUID) : result Bucket.t :=
  match buckets db !! id with
  | Some row => Ok (toBucket id row)
  | None => Err ErrBucketNotFound
  end.

(** Modelled from the spec: [bucketRepository.List], whose body is not
    part of the sources.  The interface documents it as "retrieves a list
    of buckets, optionally filtered by type; if typeFilter is empty,
    returns all buckets"; the spec's [listBuckets] says the same. *)
Definition BucketRepo_List (db : DB) (typeFilter : string) : list Bucket.t :=
  List.filter
    (fun b => String.eqb typeFilter "" || String.eqb (Bucket.BucketType b) typeFilter)
    (List.map (fun kv => toBucket (fst kv) (snd kv)) (map_to_list (buckets db))).

Definition ErrCreateBucket : string :=
  "failed to create bucket: violates a key constraint".

(** [bucketRepository.Create]: [INSERT INTO buckets].  The row needs a
    fresh primary key, and a parent, when given, that is a bucket (the
    row itself counts). *)
Definition BucketRepo_Create (db : DB) (bucket : Bucket.t) : result unit * DB :=
  let row :=
    MakeBucketRow (Bucket.Name bucket) (Bucket.BucketType bucket)
                  (Bucket.ParentPhysicalBucketID bucket)
                  (Bucket.CurrentBalance bucket) in
  let inserted :=
    MakeDB (<[Bucket.ID bucket := row]> (buckets db)) (split_rules db)
           (transactions db) (market_value_history db) in
  match buckets db !! Bucket.ID bucket with
  | Some _ => (Err ErrCreateBucket, db)
  | None =>
      match Bucket.ParentPhysicalBucketID bucket with
      | None => (Ok tt, inserted)
      | Some parent =>
          if N.eqb parent (Bucket.ID bucket) then (Ok tt, inserted)
          else match buckets db !! parent with
               | None => (Err ErrCreateBucket, db)
               | Some _ => (Ok tt, inserted)
               end
      end
  end.

(** [splitRuleRepository.GetBySourceBucketID]: the first rule of the
    source bucket, its items ordered by priority. *)
Definition SplitRuleRepo_GetBySourceBucketID (db : DB) (bucketID : UUID)
  : result SplitRule.t :=
  match List.find (fun r => N.eqb (SplitRule.SourceBucketID r) bucketID)
                  (split_rules db) with
  | None => Err ErrSplitRuleNotFound
  | Some rule =>
      match SplitRule.Items rule with
      | [] => Err ErrSplitRuleNoItems
      | items =>
          Ok (SplitRule.Make (SplitRule.ID rule) (SplitRule.Name rule)
                             (SplitRule.SourceBucketID rule) (sortSlice items))
      end
  end.

(** The trigger [update_bucket_balance], fired for each inserted row of
    [transaction_entries]. *)
Definition setBalance (f : Decimal -> Decimal) (row : BucketRow) : BucketRow :=
  MakeBucketRow (name row) (bucket_type row) (parent_physical_bucket_id row)
                (f (current_balance row)).

Definition update_bucket_balance (bs : gmap N BucketRow)
                                 (entry : TransactionEntry.t)
  : gmap N BucketRow :=
  if String.eqb (TransactionEntry.Type_ entry) "DEBIT"
  then alter (setBalance (fun b => Add b (TransactionEntry.Amount entry)))
             (TransactionEntry.BucketID entry) bs
  else if String.eqb (TransactionEntry.Type_ entry) "CREDIT"
  then alter (setBalance (fun b => Sub b (TransactionEntry.Amount entry)))
             (TransactionEntry.BucketID entry) bs
  else bs.

(** [INSERT INTO transaction_entries]: the row needs an existing bucket
    ([bucket_id REFERENCES buckets(id)]); the trigger then runs. *)
Definition insertEntry (bs : gmap N BucketRow) (entry : TransactionEntry.t)
  : result (gmap N BucketRow) :=
  match bs !! TransactionEntry.BucketID entry with
  | None => Err ErrInsertEntry
  | Some _ => Ok (update_bucket_balance bs entry)
  end.

Fixpoint insertEntries (bs : gmap N BucketRow) (entries : list TransactionEntry.t)
  : result (gmap N BucketRow) :=
  match entries with
  | [] => Ok bs
  | entry :: rest =>
      bs' <- insertEntry bs entry ;;
      insertEntries bs' rest
  end.

(** [transactionRepository.Create]: header, entries and balance updates
    commit together, or the deferred rollback leaves the database as it
    was.  The pair is (outcome, database afterwards). *)
Definition TransactionRepo_Create (db : DB) (tx : Transaction.t)
  : result unit * DB :=
  match insertEntries (buckets db) (Transaction.Entries tx) with
  | Err msg => (Err msg, db)
  | Ok bs =>
      (Ok tt,
       MakeDB bs (split_rules db) (transactions db ++ [tx])
              (market_value_history db))
  end.

(** [marketValueRepository.Add] *)
Definition MarketValueRepo_Add (db : DB) (entry : MarketValueHistory.t)
  : result unit * DB :=
  match buckets db !! MarketValueHistory.BucketID entry with
  | None => (Err ErrInsertMarketValue, db)
  | Some _ =>
      (Ok tt,
       MakeDB (buckets db) (split_rules db) (transactions db)
              (market_value_history db ++ [entry]))
  end.

(** [ORDER BY date DESC LIMIT 1] over the rows of one bucket.  Between
    rows of equal date SQL promises nothing; the model keeps the one
    inserted first. *)
Definition laterOf (best : option MarketValueHistory.t)
                   (row : MarketValueHistory.t) : option MarketValueHistory.t :=
  match best with
  | None => Some row
  | Some b =>
      if MarketValueHistory.Date b <? MarketValueHistory.Date row
      then Some row else Some b
  end.

Definition latestRow (rows : list MarketValueHistory.t)
  : option MarketValueHistory.t :=
  foldl laterOf None rows.

(** [marketValueRepository.GetLatest] *)
Definition MarketValueRepo_GetLatest (db : DB) (bucketID : UUID)
  : result MarketValueHistory.t :=
  match latestRow
          (List.filter (fun r => N.eqb (MarketValueHistory.BucketID r) bucketID)
                       (market_value_history db)) with
  | None => Err ErrNoMarketValue
  | Some row => Ok row
  end.

End postgres.

Import postgres.

(** ** The sources of fresh identifiers and of time

    [uuid.New()] and [time.Now()] are inputs of a call: [newUUID i] is the
    [i]-th identifier the call draws. *)
Record Env : Type := MakeEnv { newUUID : nat -> UUID; now : Time }.

(** ** Package [expense] *)

Module expense.

Record LogExpenseInput : Type := MakeInput {
  Amount : Decimal;
  Description : string;
  VirtualBucketID : UUID;
  CategoryBucketID : UUID;
  PhysicalOverrideID : option UUID
}.

Definition ErrAmount : string := "expense amount must be positive".
Definition ErrVirtualType : string :=
  "virtual bucket ID must reference a virtual bucket".
Definition ErrCategoryType : string :=
  "category bucket ID must reference an expense bucket".
Definition ErrOverrideType : string :=
  "physical override bucket must be a physical bucket".
Definition ErrNoParent : string :=
  "virtual bucket must have a parent physical bucket ID".

(** Step 2 of [LogExpense]: the physical source. *)
Definition sourcePhysicalBucket (db : DB) (input : LogExpenseInput)
                                (virtualBucket : Bucket.t) : result UUID :=
  match PhysicalOverrideID input with
  | Some overrideID =>
      overrideBucket <- BucketRepo_GetByID db overrideID ;;
      if negb (String.eqb (Bucket.BucketType overrideBucket) BucketTypePhysical)
      then Err ErrOverrideType
      else Ok overrideID
  | None =>
      match Bucket.ParentPhysicalBucketID virtualBucket with
      | None => Err ErrNoParent
      | Some parent => Ok parent
      end
  end.

(** Steps 1 to 4 of [LogExpense]: everything before the write. *)
Definition buildExpense (env : Env) (db : DB) (input : LogExpenseInput)
  : result Transaction.t :=
  if LessThanOrEqual (Amount input) Zero then Err ErrAmount else
  virtualBucket <- BucketRepo_GetByID db (VirtualBucketID input) ;;
  if negb (String.eqb (Bucket.BucketType virtualBucket) BucketTypeVirtual)
  then Err ErrVirtualType else
  categoryBucket <- BucketRepo_GetByID db (CategoryBucketID input) ;;
  if negb (String.eqb (Bucket.BucketType categoryBucket) BucketTypeExpense)
  then Err ErrCategoryType else
  sourcePhysicalBucketID <- sourcePhysicalBucket db input virtualBucket ;;
  let txID := newUUID env 0 in
  let physicalCreditEntry :=
    TransactionEntry.Make (newUUID env 1) txID sourcePhysicalBucketID
                          (Amount input) EntryTypeCredit LayerPhysical in
  let physicalDebitEntry :=
    TransactionEntry.Make (newUUID env 2) txID (CategoryBucketID input)
                          (Amount input) EntryTypeDebit LayerPhysical in
  let virtualCreditEntry :=
    TransactionEntry.Make (newUUID env 3) txID (VirtualBucketID input)
                          (Amount input) EntryTypeCredit LayerVirtual in
  let virtualDebitEntry :=
    TransactionEntry.Make (newUUID env 4) txID (CategoryBucketID input)
                          (Amount input) EntryTypeDebit LayerVirtual in
  let tx :=
    Transaction.Make txID (Description input) (now env) false false
      [physicalCreditEntry; physicalDebitEntry;
       virtualCreditEntry; virtualDebitEntry] in
  _ <- Validate tx ;;
  Ok tx.

(** [ExpenseService.LogExpense]; the pair is (outcome, database
    afterwards). *)
Definition LogExpense (env : Env) (db : DB) (input : LogExpenseInput)
  : result Transaction.t * DB :=
  match buildExpense env db input with
  | Err msg => (Err msg, db)
  | Ok tx =>
      match TransactionRepo_Create db tx with
      | (Err msg, db') => (Err msg, db')
      | (Ok _, db') => (Ok tx, db')
      end
  end.

End expense.

(** ** Package [inflow] *)

Module inflow.

Record RecordInflowInput : Type := MakeInput {
  Amount : Decimal;
  Description : string;
  SourceBucketID : UUID;
  IsExternal : bool
}.

Definition ErrAmount : string := "inflow amount must be positive".
Definition ErrSourceType : string := "source bucket must be an income bucket".
Definition ErrNotImplemented : string :=
  "internal transfer inflow not yet implemented".
Definition ErrRuleEmpty : string := "split rule must have at least one item".
Definition ErrFirstTargetType : string :=
  "split rule target buckets must be virtual buckets".
Definition ErrNoParent : string :=
  "virtual bucket must have a parent physical bucket".
Definition ErrTargetType : string :=
  "all split rule target buckets must be virtual buckets".
Definition ErrTargetParent : string :=
  "all split rule target buckets must belong to the same parent physical bucket".

(** The loop that checks every allocated target. *)
Fixpoint checkTargets (db : DB) (parentPhysicalBucketID : UUID)
                      (targets : list (N * Decimal)) : result unit :=
  match targets with
  | [] => Ok tt
  | (bucketID, _) :: rest =>
      targetBucket <- BucketRepo_GetByID db bucketID ;;
      if negb (String.eqb (Bucket.BucketType targetBucket) BucketTypeVirtual)
      then Err ErrTargetType
      else match Bucket.ParentPhysicalBucketID targetBucket with
           | None => Err ErrNoParent
           | Some parent =>
               if negb (N.eqb parent parentPhysicalBucketID)
               then Err ErrTargetParent
               else checkTargets db parentPhysicalBucketID rest
           end
  end.

(** The loop that appends one VIRTUAL DEBIT per allocated target; [i] is
    the number of identifiers drawn so far. *)
Fixpoint virtualDebits (env : Env) (txID : UUID) (i : nat)
                       (targets : list (N * Decimal))
  : list TransactionEntry.t :=
  match targets with
  | [] => []
  | (targetBucketID, allocatedAmount) :: rest =>
      TransactionEntry.Make (newUUID env i) txID targetBucketID
                            allocatedAmount EntryTypeDebit LayerVirtual
      :: virtualDebits env txID (S i) rest
  end.

(** [recordExternalInflow] up to and including [tx.Validate()].  The two
    loops over [allocation] enumerate the map in [map_to_list] order;
    [buildExternalInflowIn] below is the function for any other order. *)
Definition buildExternalInflow (env : Env) (db : DB) (input : RecordInflowInput)
  : result Transaction.t :=
  splitRule <- SplitRuleRepo_GetBySourceBucketID db (SourceBucketID input) ;;
  allocation <- CalculateAllocation (Amount input) (SplitRule.Items splitRule) ;;
  match SplitRule.Items splitRule with
  | [] => Err ErrRuleEmpty
  | firstItem :: _ =>
      firstTargetBucket <-
        BucketRepo_GetByID db (SplitRuleItem.TargetBucketID firstItem) ;;
      if negb (String.eqb (Bucket.BucketType firstTargetBucket) BucketTypeVirtual)
      then Err ErrFirstTargetType
      else
        match Bucket.ParentPhysicalBucketID firstTargetBucket with
        | None => Err ErrNoParent
        | Some parentPhysicalBucketID =>
            _ <- checkTargets db parentPhysicalBucketID (map_to_list allocation) ;;
            let txID := newUUID env 0 in
            let physicalDebitEntry :=
              TransactionEntry.Make (newUUID env 1) txID parentPhysicalBucketID
                                    (Amount input) EntryTypeDebit LayerPhysical in
            let physicalCreditEntry :=
              TransactionEntry.Make (newUUID env 2) txID (SourceBucketID input)
                                    (Amount input) EntryTypeCredit LayerPhysical in
            let debits := virtualDebits env txID 3 (map_to_list allocation) in
            let virtualCreditEntry :=
              TransactionEntry.Make (newUUID env (3 + length debits)) txID
                                    (SourceBucketID input)
                                    (Amount input) EntryTypeCredit LayerVirtual in
            let tx :=
              Transaction.Make txID (Description input) (now env) false true
                ([physicalDebitEntry; physicalCreditEntry] ++ debits
                 ++ [virtualCreditEntry]) in
            _ <- Validate tx ;;
            Ok tx
        end
  end.

(** The orders the Go runtime leaves open in one call of
    [recordExternalInflow]: [sortedAs items] is the slice [sort.Slice]
    leaves inside [CalculateAllocation], [checkedAs] and [appendedAs] are
    the orders in which the loop that checks the targets and the loop
    that appends the VIRTUAL DEBIT entries range over [allocation]. *)
Record Orders : Type := MakeOrders {
  sortedAs : list SplitRuleItem.t -> list SplitRuleItem.t;
  checkedAs : gmap N Decimal -> list (N * Decimal);
  appendedAs : gmap N Decimal -> list (N * Decimal)
}.

(** The orders a run of the program can show. *)
Definition possible (orders : Orders) : Prop :=
  (forall items, sortSliceOutcome items (sortedAs orders items))
  /\ rangeOrder (checkedAs orders)
  /\ rangeOrder (appendedAs orders).

(** The orders of [buildExternalInflow]. *)
Definition modelOrders : Orders := MakeOrders sortSlice map_to_list map_to_list.

(** [recordExternalInflow] up to and including [tx.Validate()], under the
    given orders. *)
Definition buildExternalInflowIn (orders : Orders) (env : Env) (db : DB)
                                 (input : RecordInflowInput)
  : result Transaction.t :=
  splitRule <- SplitRuleRepo_GetBySourceBucketID db (SourceBucketID input) ;;
  allocation <-
    CalculateAllocationWith (sortedAs orders (SplitRule.Items splitRule))
                            (Amount input) (SplitRule.Items splitRule) ;;
  match SplitRule.Items splitRule with
  | [] => Err ErrRuleEmpty
  | firstItem :: _ =>
      firstTargetBucket <-
        BucketRepo_GetByID db (SplitRuleItem.TargetBucketID firstItem) ;;
      if negb (String.eqb (Bucket.BucketType firstTargetBucket) BucketTypeVirtual)
      then Err ErrFirstTargetType
      else
        match Bucket.ParentPhysicalBucketID firstTargetBucket with
        | None => Err ErrNoParent
        | Some parentPhysicalBucketID =>
            _ <- checkTargets db parentPhysicalBucketID
                              (checkedAs orders allocation) ;;
            let txID := newUUID env 0 in
            let physicalDebitEntry :=
              TransactionEntry.Make (newUUID env 1) txID parentPhysicalBucketID
                                    (Amount input) EntryTypeDebit LayerPhysical in
            let physicalCreditEntry :=
              TransactionEntry.Make (newUUID env 2) txID (SourceBucketID input)
                                    (Amount input) EntryTypeCredit LayerPhysical in
            let debits :=
              virtualDebits env txID 3 (appendedAs orders allocation) in
            let virtualCreditEntry :=
              TransactionEntry.Make (newUUID env (3 + length debits)) txID
                                    (SourceBucketID input)
                                    (Amount input) EntryTypeCredit LayerVirtual in
            let tx :=
              Transaction.Make txID (Description input) (now env) false true
                ([physicalDebitEntry; physicalCreditEntry] ++ debits
                 ++ [virtualCreditEntry]) in
            _ <- Validate tx ;;
            Ok tx
        end
  end.

(** [RecordInflow] up to the write. *)
Definition buildInflow (env : Env) (db : DB) (input : RecordInflowInput)
  : result Transaction.t :=
  if LessThanOrEqual (Amount input) Zero then Err ErrAmount else
  sourceBucket <- BucketRepo_GetByID db (SourceBucketID input) ;;
  if negb (String.eqb (Bucket.BucketType sourceBucket) BucketTypeIncome)
  then Err ErrSourceType
  else if IsExternal input then buildExternalInflow env db input
  else Err ErrNotImplemented.

(** [InflowService.RecordInflow]; the pair is (outcome, database
    afterwards). *)
Definition RecordInflow (env : Env) (db : DB) (input : RecordInflowInput)
  : result Transaction.t * DB :=
  match buildInflow env db input with
  | Err msg => (Err msg, db)
  | Ok tx =>
      match TransactionRepo_Create db tx with
      | (Err msg, db') => (Err msg, db')
      | (Ok _, db') => (Ok tx, db')
      end
  end.

(** [RecordInflow] under the given orders. *)
Definition buildInflowIn (orders : Orders) (env : Env) (db : DB)
                         (input : RecordInflowInput)
  : result Transaction.t :=
  if LessThanOrEqual (Amount input) Zero then Err ErrAmount else
  sourceBucket <- BucketRepo_GetByID db (SourceBucketID input) ;;
  if negb (String.eqb (Bucket.BucketType sourceBucket) BucketTypeIncome)
  then Err ErrSourceType
  else if IsExternal input then buildExternalInflowIn orders env db input
  else Err ErrNotImplemented.

Definition RecordInflowIn (orders : Orders) (env : Env) (db : DB)
                          (input : RecordInflowInput)
  : result Transaction.t * DB :=
  match buildInflowIn orders env db input with
  | Err msg => (Err msg, db)
  | Ok tx =>
      match TransactionRepo_Create db tx with
      | (Err msg, db') => (Err msg, db')
      | (Ok _, db') => (Ok tx, db')
      end
  end.

End inflow.

(** ** Package [investment] *)

Module investment.

Definition ErrAmount : string := "market value must be positive".

(** [InvestmentService.UpdateMarketValue]; the pair is (outcome, database
    afterwards). *)
Definition UpdateMarketValue (env : Env) (db : DB) (bucketID : UUID)
                             (amount : Decimal)
  : result MarketValueHistory.t * DB :=
  if LessThanOrEqual amount Zero then (Err ErrAmount, db) else
  match BucketRepo_GetByID db bucketID with
  | Err msg => (Err msg, db)
  | Ok _ =>
      let entry :=
        MarketValueHistory.Make (newUUID env 0) bucketID (now env) amount in
      match MarketValueRepo_Add db entry with
      | (Err msg, db') => (Err msg, db')
      | (Ok _, db') => (Ok entry, db')
      end
  end.

(** [InvestmentService.CalculateProfit] *)
Definition CalculateProfit (db : DB) (bucketID : UUID) : result Decimal :=
  bucket <- BucketRepo_GetByID db bucketID ;;
  let bookValue := Bucket.CurrentBalance bucket in
  match MarketValueRepo_GetLatest db bucketID with
  | Err _ => Ok Zero
  | Ok marketValueEntry =>
      Ok (Sub (MarketValueHistory.MarketValue marketValueEntry) bookValue)
  end.

End investment.

(** ** Package [dashboard] *)

Module dashboard.

Record NetWorthResult : Type := MakeNetWorth {
  Total : Decimal;
  Liquidity : Decimal;
  Equity : Decimal
}.

(** The loop over the PHYSICAL buckets. *)
Definition sumBalances (physicalBuckets : list Bucket.t) : Decimal :=
  foldl (fun liquidity bucket => Add liquidity (Bucket.CurrentBalance bucket))
        Zero physicalBuckets.

(** The loop over the EQUITY buckets: a bucket whose [GetLatest] fails is
    skipped by [continue]. *)
Definition sumMarketValues (db : DB) (equityBuckets : list Bucket.t) : Decimal :=
  foldl (fun equity bucket =>
           match MarketValueRepo_GetLatest db (Bucket.ID bucket) with
           | Err _ => equity
           | Ok marketValueEntry =>
               Add equity (MarketValueHistory.MarketValue marketValueEntry)
           end)
        Zero equityBuckets.

(** [DashboardService.GetNetWorth].  [BucketRepo.List] cannot fail in the
    model, so neither can this. *)
Definition GetNetWorth (db : DB) : result NetWorthResult :=
  let physicalBuckets := BucketRepo_List db BucketTypePhysical in
  let liquidity := sumBalances physicalBuckets in
  let equityBuckets := BucketRepo_List db BucketTypeEquity in
  let equity := sumMarketValues db equityBuckets in
  let total := Add liquidity equity in
  Ok (MakeNetWorth total liquidity equity).

End dashboard.

(** ** Package [task_generator] *)

Module task_generator.

Definition ErrNoParent : string :=
  "virtual bucket must have a parent physical bucket".

(** The [switch] on the bucket type: the physical bucket an entry's
    bucket is anchored to, [None] for the types the loop skips. *)
Definition physicalParent (bucket : Bucket.t) : result (option UUID) :=
  if String.eqb (Bucket.BucketType bucket) BucketTypePhysical
  then Ok (Some (Bucket.ID bucket))
  else if String.eqb (Bucket.BucketType bucket) BucketTypeVirtual
  then match Bucket.ParentPhysicalBucketID bucket with
       | None => Err ErrNoParent
       | Some parent => Ok (Some parent)
       end
  else Ok None.

(** [physicalBucketFlows[id]]: a missing key reads as the zero value. *)
Definition flowOf (flows : gmap N Decimal) (id : UUID) : Decimal :=
  default zeroValue (flows !! id).

(** One iteration of the loop over the virtual entries. *)
Definition addFlow (flows : gmap N Decimal) (physicalBucketID : UUID)
                   (entry : TransactionEntry.t) : gmap N Decimal :=
  let currentFlow := flowOf flows physicalBucketID in
  if String.eqb (TransactionEntry.Type_ entry) EntryTypeDebit
  then <[physicalBucketID := Add currentFlow (TransactionEntry.Amount entry)]> flows
  else if String.eqb (TransactionEntry.Type_ entry) EntryTypeCredit
  then <[physicalBucketID := Sub currentFlow (TransactionEntry.Amount entry)]> flows
  else flows.

Fixpoint netFlows (db : DB) (virtualEntries : list TransactionEntry.t)
                  (physicalBucketFlows : gmap N Decimal)
  : result (gmap N Decimal) :=
  match virtualEntries with
  | [] => Ok physicalBucketFlows
  | entry :: rest =>
      bucket <- BucketRepo_GetByID db (TransactionEntry.BucketID entry) ;;
      anchor <- physicalParent bucket ;;
      match anchor with
      | None => netFlows db rest physicalBucketFlows
      | Some physicalBucketID =>
          netFlows db rest (addFlow physicalBucketFlows physicalBucketID entry)
      end
  end.

(** The loop that sorts the anchors into receivers and senders; the pair
    is [(receivingBuckets, sendingBuckets)]. *)
Definition classify (flows : list (N * Decimal)) : list UUID * list UUID :=
  foldl (fun acc kv =>
           if GreaterThan (snd kv) Zero then (fst acc ++ [fst kv], snd acc)
           else if LessThan (snd kv) Zero then (fst acc, snd acc ++ [fst kv])
           else acc)
        ([], []) flows.

Definition newTask (env : Env) (i : nat) (txID fromBucketID toBucketID : UUID)
                   (transferAmount : Decimal) : TransferTask.t :=
  TransferTask.Make (newUUID env i) txID None fromBucketID toBucketID
                    transferAmount false.

(** The inner loop, for one sender: it updates the receivers' flows and
    appends to [tasks]. *)
Fixpoint matchReceivers (env : Env) (txID fromBucketID : UUID)
                        (fromAmount : Decimal) (receivingBuckets : list UUID)
                        (flows : gmap N Decimal) (tasks : list TransferTask.t)
  : gmap N Decimal * list TransferTask.t :=
  match receivingBuckets with
  | [] => (flows, tasks)
  | toBucketID :: rest =>
      let toAmount := flowOf flows toBucketID in
      let transferAmount := Min fromAmount toAmount in
      if GreaterThan transferAmount Zero
      then
        let task := newTask env (length tasks) txID fromBucketID toBucketID
                            transferAmount in
        let tasks := tasks ++ [task] in
        let fromAmount := Sub fromAmount transferAmount in
        let toAmount := Sub toAmount transferAmount in
        let flows := <[toBucketID := toAmount]> flows in
        if LessThanOrEqual fromAmount Zero
        then (flows, tasks)
        else matchReceivers env txID fromBucketID fromAmount rest flows tasks
      else matchReceivers env txID fromBucketID fromAmount rest flows tasks
  end.

(** The outer loop over the senders. *)
Fixpoint matchSenders (env : Env) (txID : UUID)
                      (sendingBuckets receivingBuckets : list UUID)
                      (flows : gmap N Decimal) (tasks : list TransferTask.t)
  : list TransferTask.t :=
  match sendingBuckets with
  | [] => tasks
  | fromBucketID :: rest =>
      let fromAmount := Abs (flowOf flows fromBucketID) in
      let '(flows, tasks) :=
        matchReceivers env txID fromBucketID fromAmount receivingBuckets
                       flows tasks in
      matchSenders env txID rest receivingBuckets flows tasks
  end.

Definition virtualEntriesOf (tx : Transaction.t) : list TransactionEntry.t :=
  List.filter (fun entry => String.eqb (TransactionEntry.Layer entry) LayerVirtual)
              (Transaction.Entries tx).

(** [GenerateTasks].  The loop over [physicalBucketFlows] enumerates the
    map in [map_to_list] order; [GenerateTasksIn] below is the function
    for any other order. *)
Definition GenerateTasks (env : Env) (db : DB) (tx : Transaction.t)
  : result (list TransferTask.t) :=
  let virtualEntries := virtualEntriesOf tx in
  match virtualEntries with
  | [] => Ok []
  | _ =>
      physicalBucketFlows <- netFlows db virtualEntries ∅ ;;
      let '(receivingBuckets, sendingBuckets) :=
        classify (map_to_list physicalBucketFlows) in
      Ok (matchSenders env (Transaction.ID tx) sendingBuckets receivingBuckets
                       physicalBucketFlows [])
  end.

(** [GenerateTasks] when the loop over [physicalBucketFlows] ranges over
    the map as [enumerate] does.  The order decides which sender is
    matched with which receiver, so that one transaction can give
    different task lists from one run to the next. *)
Definition GenerateTasksIn (enumerate : gmap N Decimal -> list (N * Decimal))
                           (env : Env) (db : DB) (tx : Transaction.t)
  : result (list TransferTask.t) :=
  let virtualEntries := virtualEntriesOf tx in
  match virtualEntries with
  | [] => Ok []
  | _ =>
      physicalBucketFlows <- netFlows db virtualEntries ∅ ;;
      let '(receivingBuckets, sendingBuckets) :=
        classify (enumerate physicalBucketFlows) in
      Ok (matchSenders env (Transaction.ID tx) sendingBuckets receivingBuckets
                       physicalBucketFlows [])
  end.

End task_generator.

(** ** Package [seeder] *)

Module seeder.

(** The reserved identifiers [00000000-0000-0000-0000-00000000000n]. *)
Definition SYS_VIRTUAL_CLEARING : UUID := 1%N.
Definition SYS_LOST_MISC : UUID := 2%N.
Definition SYS_EXTRA_INCOME : UUID := 3%N.

Record SystemBucket : Type := MakeSystemBucket {
  ID : UUID;
  Name : string;
  BucketType : string
}.

Definition systemBuckets : list SystemBucket :=
  [ MakeSystemBucket SYS_VIRTUAL_CLEARING "System Virtual Clearing"
                     BucketTypeSystem;
    MakeSystemBucket SYS_LOST_MISC "System Lost/Misc" BucketTypeSystem;
    MakeSystemBucket SYS_EXTRA_INCOME "System Extra Income" BucketTypeSystem ].

(** The loop of [Seed]; it stops at the first error, keeping what it has
    created. *)
Fixpoint seedBuckets (db : DB) (todo : list SystemBucket) : result unit * DB :=
  match todo with
  | [] => (Ok tt, db)
  | sysBucket :: rest =>
      match BucketRepo_GetByID db (ID sysBucket) with
      | Ok _ => seedBuckets db rest
      | Err _ =>
          let bucket :=
            Bucket.Make (ID sysBucket) (Name sysBucket) (BucketType sysBucket)
                        None Zero in
          match Bucket_Validate bucket with
          | Err msg => (Err msg, db)
          | Ok _ =>
              match BucketRepo_Create db bucket with
              | (Err msg, db') => (Err msg, db')
              | (Ok _, db') => seedBuckets db' rest
              end
          end
      end
  end.

(** [SystemSeeder.Seed] *)
Definition Seed (db : DB) : result unit * DB := seedBuckets db systemBuckets.

End seeder.

(** ** Package [grpc] (the adapter) *)

Module grpc.

(** The enum [wealthflowv1.BucketType] of the generated code, which is
    not among the sources: the six values the adapter names in its two
    switches and in [ListBuckets] and, the enum being an [int32] in Go,
    [BUCKET_TYPE_unnamed n] for a number [n] that none of the six
    denotes. *)
Inductive ProtoBucketType : Type :=
| BUCKET_TYPE_UNSPECIFIED
| BUCKET_TYPE_PHYSICAL
| BUCKET_TYPE_VIRTUAL
| BUCKET_TYPE_INCOME
| BUCKET_TYPE_EXPENSE
| BUCKET_TYPE_EQUITY
| BUCKET_TYPE_unnamed (n : Z).

Definition domainBucketTypeToProto (domainType : string) : ProtoBucketType :=
  if String.eqb domainType BucketTypePhysical then BUCKET_TYPE_PHYSICAL
  else if String.eqb domainType BucketTypeVirtual then BUCKET_TYPE_VIRTUAL
  else if String.eqb domainType BucketTypeIncome then BUCKET_TYPE_INCOME
  else if String.eqb domainType BucketTypeExpense then BUCKET_TYPE_EXPENSE
  else if String.eqb domainType BucketTypeEquity then BUCKET_TYPE_EQUITY
  else BUCKET_TYPE_UNSPECIFIED.

Definition protoBucketTypeToDomain (protoType : ProtoBucketType) : string :=
  match protoType with
  | BUCKET_TYPE_PHYSICAL => BucketTypePhysical
  | BUCKET_TYPE_VIRTUAL => BucketTypeVirtual
  | BUCKET_TYPE_INCOME => BucketTypeIncome
  | BUCKET_TYPE_EXPENSE => BucketTypeExpense
  | BUCKET_TYPE_EQUITY => BucketTypeEquity
  | _ => ""
  end.

(** The status codes [mapError] produces. *)
Inductive Code : Type := InvalidArgument | NotFound | Internal.

(** [strings.Contains(s, substr)] *)
Fixpoint Contains (s substr : string) : bool :=
  String.prefix substr s
  || match s with
     | EmptyString => false
     | String _ rest => Contains rest substr
     end.

(** [mapError] on a non-nil error with message [errorMsg]: the status
    code, the message being kept as it is. *)
Definition mapError (errorMsg : string) : Code :=
  if Contains errorMsg "must be positive"
     || Contains errorMsg "invalid"
     || Contains errorMsg "must reference"
     || Contains errorMsg "must have"
  then InvalidArgument
  else if Contains errorMsg "not found" then NotFound
  else Internal.

(** The loop of the [ListTransactions] handler that computes the amount
    shown for a transaction: the PHYSICAL-layer CREDIT amounts, added to
    an uninitialised [Decimal]. *)
Definition shownAmount (tx : Transaction.t) : Decimal :=
  foldl (fun amount entry =>
           if String.eqb (TransactionEntry.Layer entry) LayerPhysical
              && String.eqb (TransactionEntry.Type_ entry) EntryTypeCredit
           then Add amount (TransactionEntry.Amount entry)
           else amount)
        zeroValue (Transaction.Entries tx).

(** [isInternalTransfer := !tx.IsExternalInflow] of the same handler. *)
Definition shownInternalTransfer (tx : Transaction.t) : bool :=
  negb (Transaction.IsExternalInflow tx).

(** The loop of the [LogExpense] handler that looks for the bucket that
    was credited in the PHYSICAL layer; [None] is the empty string the
    handler answers when there is none. *)
Fixpoint creditedPhysicalBucket (entries : list TransactionEntry.t)
  : option UUID :=
  match entries with
  | [] => None
  | entry :: rest =>
      if String.eqb (TransactionEntry.Layer entry) LayerPhysical
         && String.eqb (TransactionEntry.Type_ entry) EntryTypeCredit
      then Some (TransactionEntry.BucketID entry)
      else creditedPhysicalBucket rest
  end.

End grpc.

(** ** The statements of the specification, as definitions

    The notions the specification speaks of (passes of the allocation,
    layer sums, anchors and net flows, latest points), written from its
    words, not from the code, so that the theorems below can compare them
    with the embedding above; and the data of its scenarios. *)

Module spec.

(** *** Allocation (spec section 4.1) *)

Definition isKind (kind : string) (item : SplitRuleItem.t) : bool :=
  String.eqb (SplitRuleItem.Type_ item) kind.

Definition fixedOf (items : list SplitRuleItem.t) : list SplitRuleItem.t :=
  List.filter (isKind SplitRuleItemTypeFixed) items.

Definition percentOf (items : list SplitRuleItem.t) : list SplitRuleItem.t :=
  List.filter (isKind SplitRuleItemTypePercent) items.

Definition ascendingPriority : relation SplitRuleItem.t :=
  fun x y => SplitRuleItem.Priority x <= SplitRuleItem.Priority y.

(** "if value > remaining fail, else subtract from remaining", over the
    FIXED items in order. *)
Fixpoint fixedFit (remaining : Decimal) (fixed : list SplitRuleItem.t) : bool :=
  match fixed with
  | [] => true
  | f :: rest =>
      negb (GreaterThan (SplitRuleItem.Value f) remaining)
      && fixedFit (Sub remaining (SplitRuleItem.Value f)) rest
  end.

(** [baseForPercent]: the total minus the FIXED values. *)
Definition baseForPercent (total : Decimal) (fixed : list SplitRuleItem.t)
  : Decimal :=
  foldl (fun remaining f => Sub remaining (SplitRuleItem.Value f)) total fixed.

Definition fixedShare (f : SplitRuleItem.t) : N * Decimal :=
  (SplitRuleItem.TargetBucketID f, SplitRuleItem.Value f).

(** [baseForPercent * value / 100]. *)
Definition percentShare (base : Decimal) (p : SplitRuleItem.t) : N * Decimal :=
  (SplitRuleItem.TargetBucketID p,
   Div100 (Mul base (SplitRuleItem.Value p))).

(** Assigning shares to their targets, in order. *)
Definition assign (allocation : gmap N Decimal) (shares : list (N * Decimal))
  : gmap N Decimal :=
  foldl (fun m kv => <[fst kv := snd kv]> m) allocation shares.

(** What the FIXED and PERCENT items have been assigned. *)
Definition assignedSoFar (total : Decimal) (sorted : list SplitRuleItem.t)
  : gmap N Decimal :=
  let base := baseForPercent total (fixedOf sorted) in
  assign (assign ∅ (List.map fixedShare (fixedOf sorted)))
         (List.map (percentShare base) (percentOf sorted)).

(** The REMAINDER share: the total minus everything assigned so far. *)
Definition remainderShare (total : Decimal) (sorted : list SplitRuleItem.t)
  : Decimal :=
  Sub total (sumAllocation (assignedSoFar total sorted)).

Definition withRemainder (total : Decimal) (sorted : list SplitRuleItem.t)
                         (r : SplitRuleItem.t) : gmap N Decimal :=
  <[SplitRuleItem.TargetBucketID r := remainderShare total sorted]>
    (assignedSoFar total sorted).

(** The sum of a list of rationals. *)
Definition Qsum (qs : list Q) : Q := foldr Qplus 0%Q qs.

(** The Church/Football rule of the specification's first scenario, with
    Coffee = 11, Missions = 12 and Catch-All = 13. *)
Definition churchFootball : list SplitRuleItem.t :=
  [ SplitRuleItem.Make 101 100 11 SplitRuleItemTypeFixed (NewFromInt 50) 1;
    SplitRuleItem.Make 102 100 12 SplitRuleItemTypePercent (NewFromInt 10) 2;
    SplitRuleItem.Make 103 100 13 SplitRuleItemTypeRemainder Zero 3 ].

(** A rule whose PERCENT items add up to more than 100. *)
Definition twoEighties : list SplitRuleItem.t :=
  [ SplitRuleItem.Make 201 200 21 SplitRuleItemTypePercent (NewFromInt 80) 1;
    SplitRuleItem.Make 202 200 22 SplitRuleItemTypePercent (NewFromInt 80) 2;
    SplitRuleItem.Make 203 200 23 SplitRuleItemTypeRemainder Zero 3 ].

(** A rule in which two PERCENT items name the same target. *)
Definition sharedTarget : list SplitRuleItem.t :=
  [ SplitRuleItem.Make 301 300 31 SplitRuleItemTypePercent (NewFromInt 10) 1;
    SplitRuleItem.Make 302 300 31 SplitRuleItemTypePercent (NewFromInt 20) 2;
    SplitRuleItem.Make 303 300 33 SplitRuleItemTypeRemainder Zero 3 ].

(** *** Transaction self-validation (spec section 3) *)

Definition inLayer (layer : string) (e : TransactionEntry.t) : bool :=
  String.eqb (TransactionEntry.Layer e) layer.

Definition hasType (type : string) (e : TransactionEntry.t) : bool :=
  String.eqb (TransactionEntry.Type_ e) type.

(** The sum of a list of decimals. *)
Definition sumOf (amounts : list Decimal) : Decimal :=
  foldl Add (NewFromInt 0) amounts.

(** The sum of the amounts of direction [type] in layer [layer]. *)
Definition layerSum (layer type : string) (entries : list TransactionEntry.t)
  : Decimal :=
  sumOf (List.map TransactionEntry.Amount
           (List.filter (fun e => inLayer layer e && hasType type e) entries)).

Definition layerPresent (layer : string) (entries : list TransactionEntry.t)
  : Prop :=
  exists e, In e entries /\ TransactionEntry.Layer e = layer.

Definition layerBalanced (layer : string) (entries : list TransactionEntry.t)
  : Prop :=
  Equal (layerSum layer EntryTypeDebit entries)
        (layerSum layer EntryTypeCredit entries) = true.

Definition entryWellFormed (e : TransactionEntry.t) : Prop :=
  GreaterThan (TransactionEntry.Amount e) Zero = true
  /\ (TransactionEntry.Type_ e = EntryTypeDebit
      \/ TransactionEntry.Type_ e = EntryTypeCredit)
  /\ (TransactionEntry.Layer e = LayerPhysical
      \/ TransactionEntry.Layer e = LayerVirtual).

(** A transaction with a balanced PHYSICAL layer and no VIRTUAL entry. *)
Definition physicalOnly : Transaction.t :=
  Transaction.Make 900 "Physical Transfer" 0 false false
    [ TransactionEntry.Make 901 900 1 (NewFromInt 100) EntryTypeCredit LayerPhysical;
      TransactionEntry.Make 902 900 2 (NewFromInt 100) EntryTypeDebit LayerPhysical ].

(** *** Posting (spec sections 4.3 and 4.5) *)

(** A bucket's running balance, if the bucket exists. *)
Definition balanceOf (db : DB) (id : UUID) : option Decimal :=
  current_balance <$> buckets db !! id.

Definition typeOf (db : DB) (id : UUID) : option string :=
  bucket_type <$> buckets db !! id.

Definition parentOf (db : DB) (id : UUID) : option UUID :=
  row ← buckets db !! id; parent_physical_bucket_id row.

(** The four entries of an expense of [amount] from [source]. *)
Definition expenseEntries (env : Env) (amount : Decimal)
                          (source virtualID categoryID : UUID)
  : list TransactionEntry.t :=
  [ TransactionEntry.Make (newUUID env 1) (newUUID env 0) source amount
                          EntryTypeCredit LayerPhysical;
    TransactionEntry.Make (newUUID env 2) (newUUID env 0) categoryID amount
                          EntryTypeDebit LayerPhysical;
    TransactionEntry.Make (newUUID env 3) (newUUID env 0) virtualID amount
                          EntryTypeCredit LayerVirtual;
    TransactionEntry.Make (newUUID env 4) (newUUID env 0) categoryID amount
                          EntryTypeDebit LayerVirtual ].

(** The physical source of an expense: the override when given, else the
    virtual bucket's parent. *)
Definition physicalSource (db : DB) (input : expense.LogExpenseInput)
                          (source : UUID) : Prop :=
  match expense.PhysicalOverrideID input with
  | Some overrideID =>
      source = overrideID /\ typeOf db overrideID = Some BucketTypePhysical
  | None => parentOf db (expense.VirtualBucketID input) = Some source
  end.

Definition testEnv : Env := MakeEnv (fun i => 1000 + N.of_nat i)%N 1700000000.

Definition emptyDB (bs : gmap N BucketRow) : DB := MakeDB bs [] [] [].

(** Scenario 3: Main Bank = 1, Unallocated = 2, Groceries = 3. *)
Definition standardDB : DB :=
  emptyDB
    (<[1%N := MakeBucketRow "Main Bank" BucketTypePhysical None (NewFromInt 1000)]>
    (<[2%N := MakeBucketRow "Unallocated" BucketTypeVirtual (Some 1%N)
                            (NewFromInt 1000)]>
    (<[3%N := MakeBucketRow "Groceries" BucketTypeExpense None (NewFromInt 0)]> ∅))).

Definition standardExpense : expense.LogExpenseInput :=
  expense.MakeInput (NewFromInt 50) "Groceries" 2 3 None.

(** Scenario 4: Checking = 1, CreditCard = 2, FreeCash = 3 (parent
    Checking), Groceries = 4. *)
Definition wrongCardDB : DB :=
  emptyDB
    (<[1%N := MakeBucketRow "Checking" BucketTypePhysical None (NewFromInt 1000)]>
    (<[2%N := MakeBucketRow "Credit Card" BucketTypePhysical None (NewFromInt 0)]>
    (<[3%N := MakeBucketRow "FreeCash" BucketTypeVirtual (Some 1%N)
                            (NewFromInt 500)]>
    (<[4%N := MakeBucketRow "Groceries" BucketTypeExpense None (NewFromInt 0)]> ∅)))).

Definition wrongCardExpense : expense.LogExpenseInput :=
  expense.MakeInput (NewFromInt 50) "Groceries (wrong card)" 3 4 (Some 2%N).

(** *** Transfer tasks (spec section 4.7) *)

(** The physical anchor of a bucket: a PHYSICAL bucket is its own, a
    VIRTUAL bucket has its parent's, the other types have none. *)
Definition anchorOf (db : DB) (bucketID : UUID) : option UUID :=
  match buckets db !! bucketID with
  | None => None
  | Some row =>
      if String.eqb (bucket_type row) BucketTypePhysical then Some bucketID
      else if String.eqb (bucket_type row) BucketTypeVirtual
      then parent_physical_bucket_id row
      else None
  end.

Definition anchoredAt (db : DB) (anchor : UUID) (e : TransactionEntry.t) : bool :=
  match anchorOf db (TransactionEntry.BucketID e) with
  | Some a => N.eqb a anchor
  | None => false
  end.

(** +amount for DEBIT, -amount for CREDIT. *)
Definition signedAmount (e : TransactionEntry.t) : Q :=
  if hasType EntryTypeDebit e then toQ (TransactionEntry.Amount e)
  else if hasType EntryTypeCredit e then (- toQ (TransactionEntry.Amount e))%Q
  else 0%Q.

(** The net flow of an anchor over the VIRTUAL-layer entries. *)
Definition netFlow (db : DB) (tx : Transaction.t) (anchor : UUID) : Q :=
  Qsum (List.map signedAmount
          (List.filter (anchoredAt db anchor)
             (List.filter (inLayer LayerVirtual) (Transaction.Entries tx)))).

(** Every VIRTUAL-layer entry names an existing bucket, and a VIRTUAL
    bucket among them has a parent. *)
Definition anchorsResolve (db : DB) (tx : Transaction.t) : Prop :=
  forall e, In e (Transaction.Entries tx) ->
            TransactionEntry.Layer e = LayerVirtual ->
            exists row,
              buckets db !! TransactionEntry.BucketID e = Some row
              /\ (bucket_type row = BucketTypeVirtual ->
                  is_Some (parent_physical_bucket_id row)).

(** The inter-bank transfer of the generator's tests: Bank 1 = 1,
    Bank 2 = 2, Free Cash (in Bank 1) = 3, Investment Fund (in Bank 2) = 4. *)
Definition interBankDB : DB :=
  emptyDB
    (<[1%N := MakeBucketRow "Bank 1" BucketTypePhysical None (NewFromInt 0)]>
    (<[2%N := MakeBucketRow "Bank 2" BucketTypePhysical None (NewFromInt 0)]>
    (<[3%N := MakeBucketRow "Free Cash (CGD)" BucketTypeVirtual (Some 1%N) (NewFromInt 0)]>
    (<[4%N := MakeBucketRow "Investment Fund (XTB)" BucketTypeVirtual (Some 2%N)
                            (NewFromInt 0)]> ∅)))).

Definition interBankTransfer : Transaction.t :=
  Transaction.Make 500 "Transfer to Investment" 0 true false
    [ TransactionEntry.Make 501 500 1 (NewFromInt 500) EntryTypeCredit LayerPhysical;
      TransactionEntry.Make 502 500 2 (NewFromInt 500) EntryTypeDebit LayerPhysical;
      TransactionEntry.Make 503 500 3 (NewFromInt 500) EntryTypeCredit LayerVirtual;
      TransactionEntry.Make 504 500 4 (NewFromInt 500) EntryTypeDebit LayerVirtual ].

(** *** Net worth and market values (spec sections 4.4 and 4.6) *)

(** The buckets of one type. *)
Definition bucketsOfType (db : DB) (type : string) : list (N * BucketRow) :=
  List.filter (fun kv => String.eqb (bucket_type (snd kv)) type)
              (map_to_list (buckets db)).

(** A latest market-value point of a bucket: one of its points that none
    of its points postdates. *)
Definition isLatest (db : DB) (bucketID : UUID) (row : MarketValueHistory.t)
  : Prop :=
  In row (market_value_history db)
  /\ MarketValueHistory.BucketID row = bucketID
  /\ forall other,
       In other (market_value_history db) ->
       MarketValueHistory.BucketID other = bucketID ->
       MarketValueHistory.Date other <= MarketValueHistory.Date row.

Definition hasNoPoint (db : DB) (bucketID : UUID) : Prop :=
  forall row, In row (market_value_history db) ->
              MarketValueHistory.BucketID row <> bucketID.

(** Main Bank = 1 (PHYSICAL, 1000), Unallocated = 2 (VIRTUAL, 1000),
    Tesla = 5 (EQUITY, valued 600 then 650), Apple = 6 (EQUITY, never
    valued). *)
Definition portfolioDB : DB :=
  MakeDB
    (<[1%N := MakeBucketRow "Main Bank" BucketTypePhysical None (NewFromInt 1000)]>
    (<[2%N := MakeBucketRow "Unallocated" BucketTypeVirtual (Some 1%N)
                            (NewFromInt 1000)]>
    (<[5%N := MakeBucketRow "Tesla" BucketTypeEquity None (NewFromInt 500)]>
    (<[6%N := MakeBucketRow "Apple" BucketTypeEquity None (NewFromInt 100)]> ∅))))
    [] []
    [ MarketValueHistory.Make 701 5 10 (NewFromInt 600);
      MarketValueHistory.Make 702 5 20 (NewFromInt 650) ].

(** Scenario 5: the EQUITY bucket Tesla = 5 with balance 0 and no
    market-value point. *)
Definition teslaDB : DB :=
  emptyDB (<[5%N := MakeBucketRow "Tesla" BucketTypeEquity None (NewFromInt 0)]> ∅).

(** *** Inflows (spec section 4.2) *)

(** Employer = 10 (INCOME), Bank = 1, Vault = 11, FreeCash = 12 and
    Emergency = 13 (VIRTUAL, in Bank). *)
Definition salaryBuckets : gmap N BucketRow :=
  <[10%N := MakeBucketRow "Employer" BucketTypeIncome None (NewFromInt 0)]>
  (<[1%N := MakeBucketRow "Bank" BucketTypePhysical None (NewFromInt 0)]>
  (<[11%N := MakeBucketRow "Vault" BucketTypeVirtual (Some 1%N) (NewFromInt 0)]>
  (<[12%N := MakeBucketRow "FreeCash" BucketTypeVirtual (Some 1%N) (NewFromInt 0)]>
  (<[13%N := MakeBucketRow "Emergency" BucketTypeVirtual (Some 1%N) (NewFromInt 0)]> ∅)))).

(** Scenario 2: FIXED 500, PERCENT 30, REMAINDER. *)
Definition salaryDB : DB :=
  MakeDB salaryBuckets
    [ SplitRule.Make 400 "Salary" 10
        [ SplitRuleItem.Make 401 400 11 SplitRuleItemTypeFixed (NewFromInt 500) 1;
          SplitRuleItem.Make 402 400 12 SplitRuleItemTypePercent (NewFromInt 30) 2;
          SplitRuleItem.Make 403 400 13 SplitRuleItemTypeRemainder Zero 3 ] ]
    [] [].

(** The same buckets under a rule with a PERCENT item of value 0. *)
Definition zeroPercentDB : DB :=
  MakeDB salaryBuckets
    [ SplitRule.Make 400 "Salary" 10
        [ SplitRuleItem.Make 401 400 11 SplitRuleItemTypeFixed (NewFromInt 500) 1;
          SplitRuleItem.Make 402 400 12 SplitRuleItemTypePercent (NewFromInt 0) 2;
          SplitRuleItem.Make 403 400 13 SplitRuleItemTypeRemainder Zero 3 ] ]
    [] [].

Definition salaryInflow : inflow.RecordInflowInput :=
  inflow.MakeInput (NewFromInt 2000) "Salary" 10 true.

(** Every target the inflow service looks at is a VIRTUAL bucket of the
    physical bucket [parent]. *)
Definition targetsIn (db : DB) (parent : UUID) (rule : SplitRule.t)
                     (allocation : gmap N Decimal) : Prop :=
  forall target,
    (is_Some (allocation !! target)
     \/ exists first rest,
          SplitRule.Items rule = first :: rest
          /\ target = SplitRuleItem.TargetBucketID first) ->
    typeOf db target = Some BucketTypeVirtual
    /\ parentOf db target = Some parent.

(** What the dashboard adds to the equity for one bucket: the value of
    the point [GetLatest] returns, 0 when it returns none. *)
Definition latestValue (db : DB) (bucketID : UUID) : Q :=
  match MarketValueRepo_GetLatest db bucketID with
  | Ok row => toQ (MarketValueHistory.MarketValue row)
  | Err _ => 0%Q
  end.

(** An entry of valid layer and direction. *)
Definition validShape (e : TransactionEntry.t) : Prop :=
  (TransactionEntry.Layer e = LayerPhysical
   \/ TransactionEntry.Layer e = LayerVirtual)
  /\ (TransactionEntry.Type_ e = EntryTypeDebit
      \/ TransactionEntry.Type_ e = EntryTypeCredit).


(** An entry whose amount is zero or negative. *)
Definition notPositive (e : TransactionEntry.t) : Prop :=
  LessThanOrEqual (TransactionEntry.Amount e) Zero = true.


(** The entries [recordExternalInflow] gives the candidate transaction:
    the two PHYSICAL entries, one VIRTUAL DEBIT per allocated target, the
    VIRTUAL CREDIT of the source. *)
Definition inflowEntries (env : Env) (input : inflow.RecordInflowInput)
                         (parent : UUID) (allocation : gmap N Decimal)
  : list TransactionEntry.t :=
  [ TransactionEntry.Make (newUUID env 1) (newUUID env 0) parent (inflow.Amount input)
                          EntryTypeDebit LayerPhysical;
    TransactionEntry.Make (newUUID env 2) (newUUID env 0) (inflow.SourceBucketID input)
                          (inflow.Amount input) EntryTypeCredit LayerPhysical ]
  ++ inflow.virtualDebits env (newUUID env 0) 3 (map_to_list allocation)
  ++ [ TransactionEntry.Make
         (newUUID env (3 + length (inflow.virtualDebits env (newUUID env 0) 3
                                     (map_to_list allocation))))
         (newUUID env 0) (inflow.SourceBucketID input) (inflow.Amount input)
         EntryTypeCredit LayerVirtual ].

End spec.

Import spec.

(** ** Further notions

    What the properties of the code beyond the specification speak of:
    sums of posted entries, well-formed rules, tasks within net flows,
    sums over the buckets of a type, entries as they are read back.  They
    are read off the code and compared with the embedding like the
    notions above. *)

Module notions.

(** *** Balances against posted entries (the balance trigger) *)

(** What a list of entries posts on one bucket: its DEBIT amounts minus
    its CREDIT amounts, over both layers. *)
Definition postedOn (id : UUID) (entries : list TransactionEntry.t) : Q :=
  Qsum (List.map signedAmount
          (List.filter (fun e => N.eqb (TransactionEntry.BucketID e) id)
                       entries)).

(** The sum of all running balances. *)
Definition totalBalance (bs : gmap N BucketRow) : Q :=
  Qsum (List.map (fun kv => toQ (current_balance (snd kv))) (map_to_list bs)).


(** *** Rules (package [domain], [SplitRule.Validate]) *)

(** Strictly ascending priority. *)
Definition strictPriority : relation SplitRuleItem.t :=
  fun x y => SplitRuleItem.Priority x < SplitRuleItem.Priority y.

(** The sum of the values of the FIXED items. *)
Definition fixedTotal (items : list SplitRuleItem.t) : Q :=
  Qsum (List.map (fun f => toQ (SplitRuleItem.Value f)) (fixedOf items)).

(** What the loop of [SplitRule.Validate] asks of one item, over the
    rationals: a known type, a positive FIXED value, a PERCENT value
    between 0 and 100. *)
Definition itemWellFormed (item : SplitRuleItem.t) : Prop :=
  (isKind SplitRuleItemTypeFixed item = true
   \/ isKind SplitRuleItemTypePercent item = true
   \/ isKind SplitRuleItemTypeRemainder item = true)
  /\ (isKind SplitRuleItemTypeFixed item = true ->
      (0 < toQ (SplitRuleItem.Value item))%Q)
  /\ (isKind SplitRuleItemTypePercent item = true ->
      (0 <= toQ (SplitRuleItem.Value item) <= 100)%Q).

Definition remainderItems (items : list SplitRuleItem.t)
  : list SplitRuleItem.t :=
  List.filter (isKind SplitRuleItemTypeRemainder) items.


(** *** Transfer tasks (package [task_generator]) *)

(** A task as the matching loops make it, measured against the map of
    net flows [flows] they start from: open, tied to the transaction, of
    a positive amount that is at most what its sender loses and at most
    what its receiver gains. *)
Definition taskWithin (txID : UUID) (flows : UUID -> Q) (task : TransferTask.t)
  : Prop :=
  TransferTask.RelatedTransactionID task = txID
  /\ TransferTask.CompletedTransactionID task = None
  /\ TransferTask.IsCompleted task = false
  /\ (0 < toQ (TransferTask.Amount task))%Q
  /\ (toQ (TransferTask.Amount task)
      <= - flows (TransferTask.FromPhysicalBucketID task))%Q
  /\ (toQ (TransferTask.Amount task)
      <= flows (TransferTask.ToPhysicalBucketID task))%Q.


(** *** Net worth against postings (packages [dashboard] and [postgres]) *)

(** A sum over the buckets of one type, each bucket weighing [w]. *)
Definition typedSum (type : string) (w : N -> BucketRow -> Q)
                    (bs : gmap N BucketRow) : Q :=
  Qsum (List.map (fun kv => w (fst kv) (snd kv))
          (List.filter (fun kv => String.eqb (bucket_type (snd kv)) type)
                       (map_to_list bs))).

(** Whether an entry's bucket is of the given type in [bs]. *)
Definition postsOnType (bs : gmap N BucketRow) (type : string)
                       (e : TransactionEntry.t) : bool :=
  match bs !! TransactionEntry.BucketID e with
  | Some row => String.eqb (bucket_type row) type
  | None => false
  end.

(** What a list of entries posts on the buckets of one type: DEBIT
    amounts minus CREDIT amounts, over both layers. *)
Definition postedOnType (db : DB) (type : string)
                        (entries : list TransactionEntry.t) : Q :=
  Qsum (List.map signedAmount (List.filter (postsOnType (buckets db) type) entries)).


(** The data model's rule that a parent is a PHYSICAL bucket. *)
Definition parentsPhysical (db : DB) : Prop :=
  forall k p, parentOf db k = Some p -> typeOf db p = Some BucketTypePhysical.


(** *** Transactions as they are listed (package [grpc]) *)

(** Two entries that agree but for their identifiers and the
    representation of the amount. *)
Definition sameEntry (a b : TransactionEntry.t) : Prop :=
  TransactionEntry.BucketID a = TransactionEntry.BucketID b
  /\ TransactionEntry.Type_ a = TransactionEntry.Type_ b
  /\ TransactionEntry.Layer a = TransactionEntry.Layer b
  /\ (toQ (TransactionEntry.Amount a) == toQ (TransactionEntry.Amount b))%Q.

(** The entries of a stored transaction as [TransactionRepo.List] reads
    them back: ordered by identifier, not by insertion, and with amounts
    parsed again from their decimal text. *)
Definition readBack (stored listed : list TransactionEntry.t) : Prop :=
  exists l, l ≡ₚ stored /\ Forall2 sameEntry l listed.


(** *** Shares that do not fit sixteen digits (package [allocator]) *)

(** A total of 100.000000001 under a rule that gives 12.345678 percent of
    it to bucket 42 and the rest to bucket 43: the exact PERCENT share,
    12.34567800012345678, has seventeen fractional digits. *)
Definition preciseTotal : Decimal := New 100000000001 (-9).

Definition preciseRule : list SplitRuleItem.t :=
  [ SplitRuleItem.Make 401 400 42 SplitRuleItemTypePercent (New 12345678 (-6)) 1;
    SplitRuleItem.Make 402 400 43 SplitRuleItemTypeRemainder Zero 2 ].


(** *** The entries of an inflow (package [inflow]) *)

(** What an entry posts: bucket, amount, type and layer. *)
Definition posting (e : TransactionEntry.t) : N * Decimal * string * string :=
  (TransactionEntry.BucketID e, TransactionEntry.Amount e,
   TransactionEntry.Type_ e, TransactionEntry.Layer e).

(** A VIRTUAL DEBIT of [share] on [bucket]. *)
Definition virtualDebit (allocated : N * Decimal)
  : N * Decimal * string * string :=
  (fst allocated, snd allocated, EntryTypeDebit, LayerVirtual).

(** Orders other than those of the model: both loops range over the
    allocation from its last pair to its first. *)
Definition reversedOrders : inflow.Orders :=
  inflow.MakeOrders sortSlice
                    (fun allocation => rev (map_to_list allocation))
                    (fun allocation => rev (map_to_list allocation)).

End notions.

Import notions.

(** * Proofs

    ** Facts about decimals *)

Module decimal_facts.

Lemma rescale_lower d e e' :
  e' <= e -> e <= exp d -> rescale d e' = rescale d e * 10 ^ (e - e').
Proof.
  intros H1 H2. unfold rescale.
  replace (exp d - e') with ((exp d - e) + (e - e')) by lia.
  rewrite Z.pow_add_r by lia. ring.
Qed.

Lemma rescale_New v e e' : rescale (New v e) e' = v * 10 ^ (e - e').
Proof. reflexivity. Qed.

Lemma Add_comm a b : Add a b = Add b a.
Proof. unfold Add. rewrite (Z.min_comm (exp b)). f_equal. ring. Qed.

Lemma Add_assoc a b c : Add (Add a b) c = Add a (Add b c).
Proof.
  unfold Add. cbn [exp value].
  set (m := Z.min (Z.min (exp a) (exp b)) (exp c)).
  replace (Z.min (exp a) (Z.min (exp b) (exp c))) with m
    by (subst m; lia).
  f_equal.
  rewrite !rescale_New, !Z.mul_add_distr_r.
  rewrite <- (rescale_lower a (Z.min (exp a) (exp b)) m) by (subst m; lia).
  rewrite <- (rescale_lower b (Z.min (exp a) (exp b)) m) by (subst m; lia).
  rewrite <- (rescale_lower b (Z.min (exp b) (exp c)) m) by (subst m; lia).
  rewrite <- (rescale_lower c (Z.min (exp b) (exp c)) m) by (subst m; lia).
  ring.
Qed.

Lemma ten_neq0 : ~ ((10 # 1) == 0)%Q.
Proof. discriminate. Qed.

Lemma toQ_rescale d e :
  e <= exp d -> (inject_Z (rescale d e) * (10 # 1) ^ e == toQ d)%Q.
Proof.
  intros H. unfold rescale, toQ.
  rewrite inject_Z_mult, Zpower_Qpower by lia.
  replace (exp d) with ((exp d - e) + e) at 2 by lia.
  rewrite (Qpower_plus _ _ _ ten_neq0).
  change (inject_Z 10) with (10 # 1). ring.
Qed.

Lemma toQ_Add a b : (toQ (Add a b) == toQ a + toQ b)%Q.
Proof.
  rewrite <- (toQ_rescale a (Z.min (exp a) (exp b))) by lia.
  rewrite <- (toQ_rescale b (Z.min (exp a) (exp b))) by lia.
  unfold Add, toQ at 1. cbn [value exp]. rewrite inject_Z_plus. ring.
Qed.

Lemma toQ_Sub a b : (toQ (Sub a b) == toQ a - toQ b)%Q.
Proof.
  rewrite <- (toQ_rescale a (Z.min (exp a) (exp b))) by lia.
  rewrite <- (toQ_rescale b (Z.min (exp a) (exp b))) by lia.
  unfold Sub, toQ at 1. cbn [value exp].
  unfold Z.sub at 1. rewrite inject_Z_plus, inject_Z_opp. ring.
Qed.

Lemma toQ_Mul a b : (toQ (Mul a b) == toQ a * toQ b)%Q.
Proof.
  unfold Mul, toQ. cbn [value exp].
  rewrite inject_Z_mult, (Qpower_plus _ _ _ ten_neq0). ring.
Qed.

Lemma toQ_Zero : (toQ Zero == 0)%Q.
Proof. reflexivity. Qed.

Lemma toQ_zeroValue : (toQ zeroValue == 0)%Q.
Proof. reflexivity. Qed.

Lemma toQ_NewFromInt n : (toQ (NewFromInt n) == inject_Z n)%Q.
Proof. unfold toQ, NewFromInt. cbn. ring. Qed.

Lemma Cmp_toQ a b : Cmp a b = (toQ a ?= toQ b)%Q.
Proof.
  set (m := Z.min (exp a) (exp b)).
  rewrite <- (Qcompare_comp _ _ (toQ_rescale a m ltac:(lia))
                               _ _ (toQ_rescale b m ltac:(lia))).
  unfold Cmp. fold m.
  assert (Hp : (0 < (10 # 1) ^ m)%Q) by (apply Qpower_0_lt; reflexivity).
  destruct (Z.compare_spec (rescale a m) (rescale b m)) as [E|L|G]; symmetry.
  - apply Qeq_alt. rewrite E. reflexivity.
  - apply Qlt_alt. apply Qmult_lt_compat_r; [exact Hp|].
    rewrite <- Zlt_Qlt. exact L.
  - apply Qgt_alt. apply Qmult_lt_compat_r; [exact Hp|].
    rewrite <- Zlt_Qlt. exact G.
Qed.

Lemma Equal_toQ a b : Equal a b = true <-> (toQ a == toQ b)%Q.
Proof.
  unfold Equal. rewrite Cmp_toQ, Qeq_alt.
  destruct (toQ a ?= toQ b)%Q; split; congruence.
Qed.

Lemma LessThanOrEqual_toQ a b :
  LessThanOrEqual a b = true <-> (toQ a <= toQ b)%Q.
Proof.
  unfold LessThanOrEqual. rewrite Cmp_toQ, Qle_alt.
  destruct (toQ a ?= toQ b)%Q; split; congruence.
Qed.

Lemma GreaterThan_toQ a b :
  GreaterThan a b = true <-> (toQ b < toQ a)%Q.
Proof.
  unfold GreaterThan. rewrite Cmp_toQ, Qgt_alt.
  destruct (toQ a ?= toQ b)%Q; split; congruence.
Qed.

Lemma LessThan_toQ a b :
  LessThan a b = true <-> (toQ a < toQ b)%Q.
Proof.
  unfold LessThan. rewrite Cmp_toQ, Qlt_alt.
  destruct (toQ a ?= toQ b)%Q; split; congruence.
Qed.

(** Signs against zero are the signs of the coefficient. *)
Lemma Cmp_Zero d : Cmp d Zero = (value d ?= 0).
Proof.
  unfold Cmp, rescale. cbn [value exp Zero].
  set (m := Z.min (exp d) 1).
  assert (Hp : 0 < 10 ^ (exp d - m)) by (apply Z.pow_pos_nonneg; lia).
  rewrite Z.mul_0_l.
  destruct (Z.compare_spec (value d) 0) as [E|L|G].
  - rewrite E. reflexivity.
  - apply Z.compare_lt_iff. nia.
  - apply Z.compare_gt_iff. nia.
Qed.

(** [Div] by 100 is exact on decimals of at most 14 fractional digits. *)
Lemma Div100_exact d :
  -14 <= exp d -> (toQ (Div100 d) == toQ d / inject_Z 100)%Q.
Proof.
  intros He.
  assert (Hq : Div100 d = New (value d * 10 ^ (exp d + 14)) (-16)).
  { unfold Div100, Div, DivRound, QuoRem, DivisionPrecision, NewFromInt.
    cbn [value exp]. change (100 =? 0) with false. cbv iota.
    replace (exp d - 0 - - (16)) with (exp d + 14 + 2) by lia.
    destruct (Z.ltb_spec (exp d + 14 + 2) 0) as [?|_]; [lia|].
    rewrite Z.pow_add_r by lia. change (10 ^ 2) with 100.
    rewrite Z.mul_assoc, Z.quot_mul, Z.rem_mul by lia.
    cbn [value exp]. unfold Cmp, Abs, rescale. cbn [value exp].
    rewrite Z.mul_0_l. simpl Z.abs.
    reflexivity. }
  rewrite Hq. unfold toQ. cbn [value exp].
  set (k := exp d + 14) in *.
  replace (exp d) with (k + (-14)) by lia.
  rewrite (Qpower_plus _ k (-14) ten_neq0).
  rewrite inject_Z_mult, Zpower_Qpower by lia.
  change (inject_Z 10) with (10 # 1).
  unfold Qdiv. rewrite <- !Qmult_assoc.
  apply Qmult_comp; [reflexivity|].
  apply Qmult_comp; [reflexivity|].
  reflexivity.
Qed.

(** Half away from zero: the rounded quotient is at most half a divisor
    away from the dividend. *)
Lemma round_half_away aa bb n :
  0 < bb ->
  n = (if 2 * Z.abs (Z.rem aa bb) <? bb then Z.quot aa bb
       else if aa <? 0 then Z.quot aa bb - 1 else Z.quot aa bb + 1) ->
  2 * Z.abs (n * bb - aa) <= bb.
Proof.
  intros Hb ->.
  pose proof (Z.quot_rem' aa bb) as Hqr.
  pose proof (Z.rem_bound_abs aa bb ltac:(lia)) as Hr.
  set (q := Z.quot aa bb) in *. set (r := Z.rem aa bb) in *.
  destruct (Z.ltb_spec (2 * Z.abs r) bb) as [Hlt|Hge].
  - replace (q * bb - aa) with (- r) by lia. lia.
  - destruct (Z.ltb_spec aa 0) as [Hneg|Hpos].
    + assert (r <= 0) by (apply Z.rem_nonpos; lia).
      replace ((q - 1) * bb - aa) with (- r - bb) by lia. lia.
    + assert (0 <= r) by (apply Z.rem_nonneg; lia).
      replace ((q + 1) * bb - aa) with (bb - r) by lia. lia.
Qed.

(** The coefficient [Div] by 100 returns, at exponent -16. *)
Lemma Div100_value d :
  exists n aa bb,
    Div100 d = New n (-16)
    /\ 0 < bb
    /\ 2 * Z.abs (n * bb - aa) <= bb
    /\ (toQ d / inject_Z 100
        == inject_Z aa / inject_Z bb * (10 # 1) ^ (-16))%Q.
Proof.
  destruct d as [v e].
  destruct (Z.ltb_spec (e + 16) 0) as [Hlt|Hge].
  - set (bb := 100 * 10 ^ (- (e + 16))).
    assert (Hp : 0 < 10 ^ (- (e + 16))) by (apply Z.pow_pos_nonneg; lia).
    assert (Hbb : 0 < bb) by (unfold bb; lia).
    exists (if 2 * Z.abs (Z.rem v bb) <? bb then Z.quot v bb
            else if v <? 0 then Z.quot v bb - 1 else Z.quot v bb + 1), v, bb.
    split; [|split; [exact Hbb|split; [by apply round_half_away|]]].
    + unfold Div100, Div, DivRound, QuoRem, DivisionPrecision, NewFromInt.
      cbn [value exp]. change (100 =? 0) with false. cbv iota.
      replace (e - 0 - - (16)) with (e + 16) by lia.
      destruct (Z.ltb_spec (e + 16) 0) as [_|?]; [|lia].
      fold bb. cbn [value exp].
      unfold Cmp, Abs, rescale. cbn [value exp]. simpl (Z.abs 100).
      replace (Z.min (e + 16) 0) with (e + 16) by lia.
      rewrite Z.sub_diag, Z.pow_0_r, Z.mul_1_r.
      replace (0 - (e + 16)) with (- (e + 16)) by lia.
      change (Z.abs 100) with 100. fold bb.
      rewrite (Z.mul_comm (Z.abs _) 2).
      destruct (Z.ltb_spec (2 * Z.abs (Z.rem v bb)) bb) as [H|H].
      * apply Z.compare_lt_iff in H. rewrite H. reflexivity.
      * assert (Hc : (2 * Z.abs (Z.rem v bb) ?= bb) <> Lt)
          by (rewrite Z.compare_lt_iff; lia).
        replace (Z.sgn v * Z.sgn 100 <? 0) with (v <? 0)
          by (simpl (Z.sgn 100); destruct v; reflexivity).
        destruct (2 * Z.abs (Z.rem v bb) ?= bb); [|done|];
          destruct (v <? 0); unfold Sub, Add, rescale; cbn [value exp];
          rewrite Z.min_id, Z.sub_diag, Z.pow_0_r, !Z.mul_1_r; reflexivity.
    + unfold toQ. cbn [value exp]. unfold bb.
      rewrite inject_Z_mult, Zpower_Qpower by lia.
      change (inject_Z 10) with (10 # 1).
      replace e with (- (- (e + 16)) + (-16)) at 1 by lia.
      rewrite (Qpower_plus _ _ (-16) ten_neq0).
      rewrite (Qpower_opp _ (- (e + 16))).
      assert (Hne : ~ ((10 # 1) ^ (- (e + 16)) == 0)%Q)
        by (apply Qpower_not_0; exact ten_neq0).
      field. exact Hne.
  - set (aa := v * 10 ^ (e + 16)).
    exists (if 2 * Z.abs (Z.rem aa 100) <? 100 then Z.quot aa 100
            else if aa <? 0 then Z.quot aa 100 - 1 else Z.quot aa 100 + 1),
           aa, 100.
    split; [|split; [lia|split; [by apply round_half_away|]]].
    + assert (Hp : 0 < 10 ^ (e + 16)) by (apply Z.pow_pos_nonneg; lia).
      unfold Div100, Div, DivRound, QuoRem, DivisionPrecision, NewFromInt.
      cbn [value exp]. change (100 =? 0) with false. cbv iota.
      replace (e - 0 - - (16)) with (e + 16) by lia.
      destruct (Z.ltb_spec (e + 16) 0) as [?|_]; [lia|].
      fold aa. cbn [value exp].
      unfold Cmp, Abs, rescale. cbn [value exp]. simpl (Z.abs 100).
      change (- (16) + 0 + 16) with 0. change (Z.min 0 0) with 0.
      rewrite Z.sub_diag, Z.pow_0_r, !Z.mul_1_r.
      change (Z.abs 100) with 100.
      rewrite (Z.mul_comm (Z.abs _) 2).
      destruct (Z.ltb_spec (2 * Z.abs (Z.rem aa 100)) 100) as [H|H].
      * apply Z.compare_lt_iff in H. rewrite H. reflexivity.
      * assert (Hc : (2 * Z.abs (Z.rem aa 100) ?= 100) <> Lt)
          by (rewrite Z.compare_lt_iff; lia).
        assert (Hsgn : (Z.sgn v <? 0) = (aa <? 0)).
        { unfold aa.
          destruct (Z.ltb_spec (v * 10 ^ (e + 16)) 0) as [Ha|Ha];
            [apply Z.ltb_lt|apply Z.ltb_ge];
            destruct (Z.sgn_spec v) as [[? ->]|[[? ->]|[? ->]]]; nia. }
        rewrite Hsgn.
        destruct (2 * Z.abs (Z.rem aa 100) ?= 100); [|done|];
          destruct (aa <? 0); unfold Sub, Add, rescale; cbn [value exp];
          rewrite Z.min_id, Z.sub_diag, Z.pow_0_r, !Z.mul_1_r; reflexivity.
    + unfold toQ. cbn [value exp]. unfold aa.
      rewrite inject_Z_mult, Zpower_Qpower by lia.
      change (inject_Z 10) with (10 # 1).
      replace e with ((e + 16) + (-16)) at 1 by lia.
      rewrite (Qpower_plus _ _ (-16) ten_neq0).
      field.
Qed.

(** [Div] by 100 rounds to 16 fractional digits: the result is within
    half a unit of the sixteenth digit of the exact quotient. *)
Lemma Div100_rounds d :
  (Qabs (toQ (Div100 d) - toQ d / inject_Z 100) <= 5 * (10 # 1) ^ (-17))%Q.
Proof.
  destruct (Div100_value d) as (n & aa & bb & -> & Hbb & Hn & ->).
  unfold toQ. cbn [value exp].
  assert (Hb : (0 < inject_Z bb)%Q)
    by (change 0%Q with (inject_Z 0); rewrite <- Zlt_Qlt; exact Hbb).
  assert (Hb0 : ~ (inject_Z bb == 0)%Q) by lra.
  assert (E : (inject_Z n * (10 # 1) ^ (-16)
               - inject_Z aa / inject_Z bb * (10 # 1) ^ (-16)
               == inject_Z (n * bb - aa) / inject_Z bb * (10 # 1) ^ (-16))%Q).
  { unfold Z.sub. rewrite inject_Z_plus, inject_Z_mult, inject_Z_opp.
    field. exact Hb0. }
  rewrite E. clear E.
  set (k := n * bb - aa) in *.
  assert (Hk : (2 * Qabs (inject_Z k) <= inject_Z bb)%Q).
  { assert (E2 : (Qabs (inject_Z k) == inject_Z (Z.abs k))%Q).
    { unfold Qabs, inject_Z. simpl. reflexivity. }
    rewrite E2. change 2%Q with (inject_Z 2).
    rewrite <- inject_Z_mult, <- Zle_Qle. lia. }
  rewrite Qabs_Qmult. unfold Qdiv at 1. rewrite Qabs_Qmult.
  rewrite (Qabs_pos (/ inject_Z bb)) by (apply Qlt_le_weak, Qinv_lt_0_compat, Hb).
  rewrite (Qabs_pos ((10 # 1) ^ (-16))) by (vm_compute; discriminate).
  assert (Hq : (Qabs (inject_Z k) * / inject_Z bb <= 1 # 2)%Q).
  { change (Qabs (inject_Z k) / inject_Z bb <= 1 # 2)%Q.
    apply Qle_shift_div_r; [exact Hb|].
    generalize dependent (Qabs (inject_Z k)). intros a Ha. lra. }
  apply Qle_trans with ((1 # 2) * (10 # 1) ^ (-16))%Q;
    [|vm_compute; discriminate].
  apply Qmult_le_compat_r; [exact Hq|]. vm_compute. discriminate.
Qed.

End decimal_facts.

(** ** Facts about the allocator *)

Module allocator_facts.
Import decimal_facts.

Lemma insertByPriority_perm x l : insertByPriority x l ≡ₚ x :: l.
Proof.
  induction l as [|y l IH]; simpl; [done|].
  destruct (_ <? _); [done|]. rewrite IH. apply Permutation_swap.
Qed.

Lemma foldl_insert_perm items acc :
  foldl (fun sorted x => insertByPriority x sorted) acc items ≡ₚ items ++ acc.
Proof.
  revert acc. induction items as [|x items IH]; intros acc; simpl; [done|].
  rewrite IH, insertByPriority_perm. by rewrite Permutation_middle.
Qed.

Lemma sortSlice_perm items : sortSlice items ≡ₚ items.
Proof. unfold sortSlice. rewrite foldl_insert_perm. by rewrite app_nil_r. Qed.

Lemma insertByPriority_sorted x l :
  Sorted ascendingPriority l -> Sorted ascendingPriority (insertByPriority x l).
Proof.
  induction 1 as [|y l Hl IH Hhd]; simpl.
  - repeat constructor.
  - destruct (Z.ltb_spec (SplitRuleItem.Priority x) (SplitRuleItem.Priority y)).
    + constructor; [by constructor|]. constructor. unfold ascendingPriority. lia.
    + constructor; [exact IH|].
      destruct Hhd as [|z l' Hyz]; simpl.
      * constructor. unfold ascendingPriority. lia.
      * destruct (_ <? _); constructor; unfold ascendingPriority in *; lia.
Qed.

Lemma foldl_insert_sorted items acc :
  Sorted ascendingPriority acc ->
  Sorted ascendingPriority
    (foldl (fun sorted x => insertByPriority x sorted) acc items).
Proof.
  revert acc. induction items as [|x items IH]; intros acc H; simpl; [done|].
  apply IH, insertByPriority_sorted, H.
Qed.

Lemma sortSlice_sorted items : Sorted ascendingPriority (sortSlice items).
Proof. apply foldl_insert_sorted. constructor. Qed.

(** The two loops against the filtered passes. *)
Lemma deductFixed_spec sorted allocation remaining :
  deductFixed sorted allocation remaining =
  if fixedFit remaining (fixedOf sorted)
  then Ok (assign allocation (List.map fixedShare (fixedOf sorted)),
           baseForPercent remaining (fixedOf sorted))
  else Err ErrFixedExceeds.
Proof.
  revert allocation remaining.
  induction sorted as [|item rest IH]; intros allocation remaining; simpl; [done|].
  change (String.eqb (SplitRuleItem.Type_ item) SplitRuleItemTypeFixed)
    with (isKind SplitRuleItemTypeFixed item).
  destruct (isKind SplitRuleItemTypeFixed item); simpl; [|apply IH].
  destruct (GreaterThan _ _); simpl; [done|]. apply IH.
Qed.

Lemma assignPercent_fst sorted allocation remaining percentTotal :
  fst (assignPercent sorted allocation remaining percentTotal) =
  assign allocation (List.map (percentShare remaining) (percentOf sorted)).
Proof.
  revert allocation percentTotal.
  induction sorted as [|item rest IH]; intros allocation percentTotal; simpl;
    [done|].
  change (String.eqb (SplitRuleItem.Type_ item) SplitRuleItemTypePercent)
    with (isKind SplitRuleItemTypePercent item).
  destruct (isKind SplitRuleItemTypePercent item); simpl; apply IH.
Qed.

Lemma allocateSorted_spec total sorted :
  allocateSorted total sorted =
  if fixedFit total (fixedOf sorted)
  then match findRemainderItem sorted with
       | None => Err ErrNoRemainder
       | Some r =>
           if Equal (sumAllocation (withRemainder total sorted r)) total
           then Ok (withRemainder total sorted r)
           else Err ErrImbalance
       end
  else Err ErrFixedExceeds.
Proof.
  unfold allocateSorted. rewrite deductFixed_spec.
  destruct (fixedFit _ _); simpl; [|done].
  pose proof (assignPercent_fst sorted
                (assign ∅ (List.map fixedShare (fixedOf sorted)))
                (baseForPercent total (fixedOf sorted)) Zero) as Hp.
  destruct (assignPercent _ _ _ _) as [allocation percentTotal].
  simpl in Hp. subst allocation.
  destruct (findRemainderItem sorted) as [r|]; [|done].
  unfold withRemainder, remainderShare, assignedSoFar.
  by destruct (Equal _ _).
Qed.

(** Sums over a map do not depend on the enumeration order. *)
Lemma foldl_Add_perm (l l' : list (N * Decimal)) acc :
  l ≡ₚ l' ->
  foldl (fun acc kv => Add acc (snd kv)) acc l =
  foldl (fun acc kv => Add acc (snd kv)) acc l'.
Proof.
  intros H. revert acc.
  induction H as [|x l l' _ IH|x y l|l l' l'' _ IH1 _ IH2]; intros acc; simpl.
  - done.
  - apply IH.
  - f_equal. rewrite !Add_assoc. f_equal. apply Add_comm.
  - by rewrite IH1.
Qed.

Lemma sumAmounts_perm l l' : l ≡ₚ l' -> sumAmounts l = sumAmounts l'.
Proof. apply foldl_Add_perm. Qed.

Lemma sumAmounts_snoc l kv : sumAmounts (l ++ [kv]) = Add (sumAmounts l) (snd kv).
Proof. unfold sumAmounts. by rewrite foldl_app. Qed.

Lemma sumAllocation_insert_fresh (m : gmap N Decimal) k x :
  m !! k = None ->
  sumAllocation (<[k := x]> m) = Add (sumAllocation m) x.
Proof.
  intros H. unfold sumAllocation.
  rewrite (sumAmounts_perm _ (map_to_list m ++ [(k, x)])).
  - apply sumAmounts_snoc.
  - rewrite map_to_list_insert by done. apply Permutation_cons_append.
Qed.

Lemma toQ_foldl_Add (l : list (N * Decimal)) acc :
  (toQ (foldl (fun acc kv => Add acc (snd kv)) acc l)
   == toQ acc + Qsum (List.map (fun kv => toQ (snd kv)) l))%Q.
Proof.
  revert acc. induction l as [|kv l IH]; intros acc; simpl.
  - ring.
  - rewrite IH, toQ_Add. ring.
Qed.

Lemma toQ_sumAmounts l :
  (toQ (sumAmounts l) == Qsum (List.map (fun kv => toQ (snd kv)) l))%Q.
Proof. unfold sumAmounts. rewrite toQ_foldl_Add, toQ_Zero. ring. Qed.

(** With a REMAINDER target no other item names, the final check holds
    whatever the sign of the REMAINDER share. *)
Lemma balanced_fresh_remainder total (m : gmap N Decimal) k :
  m !! k = None ->
  Equal (sumAllocation (<[k := Sub total (sumAllocation m)]> m)) total = true.
Proof.
  intros H. rewrite sumAllocation_insert_fresh by done.
  apply Equal_toQ. rewrite toQ_Add, toQ_Sub. ring.
Qed.

Lemma toQ_baseForPercent total fixed :
  (toQ (baseForPercent total fixed)
   == toQ total - Qsum (List.map (fun f => toQ (SplitRuleItem.Value f)) fixed))%Q.
Proof.
  unfold baseForPercent. revert total.
  induction fixed as [|f fixed IH]; intros total; simpl.
  - ring.
  - rewrite IH, toQ_Sub. ring.
Qed.

Lemma findRemainderItem_unique items r :
  List.filter (isKind SplitRuleItemTypeRemainder) items = [r] ->
  findRemainderItem items = Some r.
Proof.
  induction items as [|x items IH]; simpl; [done|].
  change (String.eqb (SplitRuleItem.Type_ x) SplitRuleItemTypeRemainder)
    with (isKind SplitRuleItemTypeRemainder x).
  destruct (isKind SplitRuleItemTypeRemainder x); [congruence|done].
Qed.

Lemma List_filter_perm {A} (f : A -> bool) (l l' : list A) :
  l ≡ₚ l' -> List.filter f l ≡ₚ List.filter f l'.
Proof.
  induction 1 as [|x l l' _ IH|x y l|l l' l'' _ IH1 _ IH2]; simpl.
  - done.
  - destruct (f x); by rewrite IH.
  - destruct (f x), (f y); try done. apply Permutation_swap.
  - by rewrite IH1.
Qed.

Lemma filter_sortSlice_remainder items r :
  List.filter (isKind SplitRuleItemTypeRemainder) items = [r] ->
  List.filter (isKind SplitRuleItemTypeRemainder) (sortSlice items) = [r].
Proof.
  intros H.
  assert (Hp : List.filter (isKind SplitRuleItemTypeRemainder) (sortSlice items)
               ≡ₚ [r]).
  { rewrite <- H. apply List_filter_perm, sortSlice_perm. }
  by apply Permutation_singleton_r in Hp.
Qed.

(** The insertion sort is one outcome of [sort.Slice]. *)
Lemma sortSlice_outcome items : sortSliceOutcome items (sortSlice items).
Proof. split; [apply sortSlice_perm|apply sortSlice_sorted]. Qed.

Lemma CalculateAllocationWith_sortSlice total items :
  CalculateAllocationWith (sortSlice items) total items
  = CalculateAllocation total items.
Proof. reflexivity. Qed.

(** Every outcome of the sort holds the items of each type. *)
Lemma outcome_kind kind items sorted :
  sortSliceOutcome items sorted ->
  List.filter (isKind kind) sorted ≡ₚ List.filter (isKind kind) items.
Proof. intros [Hperm _]. by apply List_filter_perm. Qed.

Lemma outcome_remainder items sorted r :
  sortSliceOutcome items sorted ->
  List.filter (isKind SplitRuleItemTypeRemainder) items = [r] ->
  findRemainderItem sorted = Some r.
Proof.
  intros Hout H. apply findRemainderItem_unique.
  pose proof (outcome_kind SplitRuleItemTypeRemainder _ _ Hout) as Hp.
  rewrite H in Hp. by apply Permutation_singleton_r in Hp.
Qed.

End allocator_facts.

(** ** The allocation claims *)

Module allocation_claims.
Import decimal_facts allocator_facts.

Lemma positive_not_le total :
  GreaterThan total Zero = true -> LessThanOrEqual total Zero = false.
Proof. unfold GreaterThan, LessThanOrEqual. by destruct (Cmp _ _). Qed.

Lemma CalculateAllocation_sorted total items :
  GreaterThan total Zero = true -> items <> [] ->
  CalculateAllocation total items = allocateSorted total (sortSlice items).
Proof.
  intros Hpos Hne. unfold CalculateAllocation.
  rewrite (positive_not_le _ Hpos). by destruct items.
Qed.

(** C2.  Whenever [CalculateAllocation] succeeds, the amounts of the
    returned map add up to the total exactly, in whatever order the map is
    enumerated, also when two items name the same target. *)
Theorem C2_allocation_totality (total : Decimal) (items : list SplitRuleItem.t)
                               (allocation : gmap N Decimal) :
  CalculateAllocation total items = Ok allocation ->
  forall enumeration : list (N * Decimal),
    enumeration ≡ₚ map_to_list allocation ->
    Equal (sumAmounts enumeration) total = true
    /\ (Qsum (List.map (fun kv => toQ (snd kv)) enumeration) == toQ total)%Q.
Proof.
  intros Hok enumeration Hperm.
  assert (Hsum : Equal (sumAllocation allocation) total = true).
  { unfold CalculateAllocation in Hok.
    destruct (LessThanOrEqual total Zero); [discriminate|].
    destruct items as [|i items]; [discriminate|].
    rewrite allocateSorted_spec in Hok.
    destruct (fixedFit _ _); [|discriminate].
    destruct (findRemainderItem _) as [r|]; [|discriminate].
    destruct (Equal _ total) eqn:E; [|discriminate].
    injection Hok as <-. exact E. }
  unfold sumAllocation in Hsum.
  rewrite <- (sumAmounts_perm _ _ Hperm) in Hsum.
  split; [exact Hsum|].
  rewrite <- toQ_sumAmounts. by apply Equal_toQ.
Qed.

Lemma C2_allocation_totality_witness :
  exists allocation,
    CalculateAllocation (NewFromInt 100) sharedTarget = Ok allocation
    /\ Equal (sumAmounts (map_to_list allocation)) (NewFromInt 100) = true.
Proof.
  exists (withRemainder (NewFromInt 100) (sortSlice sharedTarget)
            (SplitRuleItem.Make 303 300 33 SplitRuleItemTypeRemainder Zero 3)).
  assert (H : CalculateAllocation (NewFromInt 100) sharedTarget
              = Ok (withRemainder (NewFromInt 100) (sortSlice sharedTarget)
                      (SplitRuleItem.Make 303 300 33 SplitRuleItemTypeRemainder
                                          Zero 3)))
    by (vm_compute; reflexivity).
  split; [exact H|].
  exact (proj1 (C2_allocation_totality _ _ _ H _ (Permutation_refl _))).
Defined.

(** C3, as stated, fails: with two PERCENT items of 80 on a total of 100
    the REMAINDER share is -60, and the allocation succeeds and contains
    it. *)
Lemma C3_negative_remainder_succeeds :
  exists allocation share,
    CalculateAllocation (NewFromInt 100) twoEighties = Ok allocation
    /\ remainderShare (NewFromInt 100) (sortSlice twoEighties) = share
    /\ allocation !! 23%N = Some share
    /\ Equal share (NewFromInt (-60)) = true
    /\ LessThan share Zero = true.
Proof.
  exists (withRemainder (NewFromInt 100) (sortSlice twoEighties)
            (SplitRuleItem.Make 203 200 23 SplitRuleItemTypeRemainder Zero 3)),
         (New (-600000000000000000) (-16)).
  split; [vm_compute; reflexivity|].
  split; [vm_compute; reflexivity|].
  split; [vm_compute; reflexivity|].
  split; reflexivity.
Qed.

End allocation_claims.

(** ** Transaction self-validation *)

Module validate_claims.
Import decimal_facts.

Lemma GreaterThan_LessThanOrEqual a b :
  GreaterThan a b = negb (LessThanOrEqual a b).
Proof. unfold GreaterThan, LessThanOrEqual. by destruct (Cmp a b). Qed.

Lemma List_filter_filter {A} (f g : A -> bool) (l : list A) :
  List.filter f (List.filter g l) = List.filter (fun x => g x && f x) l.
Proof.
  induction l as [|x l IH]; simpl; [done|].
  destruct (g x); simpl; [destruct (f x)|]; by rewrite IH.
Qed.

Lemma entryWellFormed_checks e :
  entryWellFormed e <->
  (inLayer LayerPhysical e || inLayer LayerVirtual e = true)
  /\ LessThanOrEqual (TransactionEntry.Amount e) Zero = false
  /\ negb (hasType EntryTypeDebit e) && negb (hasType EntryTypeCredit e) = false.
Proof.
  unfold entryWellFormed, inLayer, hasType.
  rewrite GreaterThan_LessThanOrEqual, negb_true_iff, orb_true_iff,
    <- negb_orb, negb_false_iff, orb_true_iff, !String.eqb_eq.
  tauto.
Qed.

(** The loop of [Validate] succeeds exactly on well-formed entries, and
    then splits them by layer. *)
Lemma separateEntries_wf entries p v :
  Forall entryWellFormed entries ->
  separateEntries entries p v =
  Ok (p ++ List.filter (inLayer LayerPhysical) entries,
      v ++ List.filter (inLayer LayerVirtual) entries).
Proof.
  intros H. revert p v.
  induction H as [|e entries He _ IH]; intros p v; simpl.
  - by rewrite !app_nil_r.
  - apply entryWellFormed_checks in He as (Hl & Ha & Ht).
    unfold inLayer, hasType in *.
    destruct (String.eqb (TransactionEntry.Layer e) LayerPhysical) eqn:EP.
    + apply String.eqb_eq in EP. rewrite EP. simpl.
      rewrite Ha, Ht, IH. by rewrite <- app_assoc.
    + simpl in Hl. rewrite Hl. simpl. rewrite Ha, Ht, IH.
      by rewrite <- app_assoc.
Qed.

Lemma separateEntries_ok entries p v layers :
  separateEntries entries p v = Ok layers -> Forall entryWellFormed entries.
Proof.
  revert p v. induction entries as [|e entries IH]; intros p v H; [constructor|].
  simpl in H.
  assert (He : entryWellFormed e).
  { apply entryWellFormed_checks. unfold inLayer, hasType.
    destruct (String.eqb (TransactionEntry.Layer e) LayerPhysical);
      [|destruct (String.eqb (TransactionEntry.Layer e) LayerVirtual)];
      simpl in H; try discriminate;
      destruct (LessThanOrEqual _ _); try discriminate;
      destruct (negb _ && negb _); try discriminate; done. }
  constructor; [exact He|].
  apply entryWellFormed_checks in He as (Hl & Ha & Ht).
  unfold inLayer, hasType in *.
  destruct (String.eqb (TransactionEntry.Layer e) LayerPhysical);
    [|destruct (String.eqb (TransactionEntry.Layer e) LayerVirtual)];
    simpl in H; try discriminate; rewrite Ha, Ht in H; eapply IH, H.
Qed.

(** The two accumulators of [validateLayerBalance] are the two sums. *)
Lemma layerTotals_acc entries d c :
  Forall entryWellFormed entries ->
  foldl (fun acc entry =>
           if String.eqb (TransactionEntry.Type_ entry) EntryTypeDebit
           then (Add (fst acc) (TransactionEntry.Amount entry), snd acc)
           else (fst acc, Add (snd acc) (TransactionEntry.Amount entry)))
        (d, c) entries
  = (foldl Add d (List.map TransactionEntry.Amount
                    (List.filter (hasType EntryTypeDebit) entries)),
     foldl Add c (List.map TransactionEntry.Amount
                    (List.filter (hasType EntryTypeCredit) entries))).
Proof.
  intros H. revert d c.
  induction H as [|e entries He _ IH]; intros d c; [done|].
  cbn [foldl List.filter fst snd].
  destruct He as (_ & [Ht|Ht] & _).
  - assert (Hd : hasType EntryTypeDebit e = true)
      by (unfold hasType; by rewrite Ht).
    assert (Hc : hasType EntryTypeCredit e = false)
      by (unfold hasType; by rewrite Ht).
    rewrite Hd, Hc. unfold hasType in Hd. rewrite Hd. apply IH.
  - assert (Hd : hasType EntryTypeDebit e = false)
      by (unfold hasType; by rewrite Ht).
    assert (Hc : hasType EntryTypeCredit e = true)
      by (unfold hasType; by rewrite Ht).
    rewrite Hd, Hc. unfold hasType in Hd. rewrite Hd. apply IH.
Qed.

Lemma validateLayerBalance_layer entries layer :
  Forall entryWellFormed entries ->
  validateLayerBalance (List.filter (inLayer layer) entries) layer = Ok tt
  <-> (layerPresent layer entries -> layerBalanced layer entries).
Proof.
  intros Hwf.
  assert (Hwf' : Forall entryWellFormed (List.filter (inLayer layer) entries)).
  { apply List.Forall_forall. intros e He. apply List.filter_In in He.
    eapply List.Forall_forall; [exact Hwf|]. tauto. }
  assert (Hpres : layerPresent layer entries
                  <-> List.filter (inLayer layer) entries <> []).
  { unfold layerPresent. split.
    - intros (e & Hin & Hl) Hnil.
      assert (Hf : In e (List.filter (inLayer layer) entries)).
      { apply List.filter_In. split; [done|]. by apply String.eqb_eq. }
      rewrite Hnil in Hf. destruct Hf.
    - destruct (List.filter (inLayer layer) entries) as [|e l] eqn:E; [done|].
      intros _. exists e.
      assert (Hf : In e (List.filter (inLayer layer) entries))
        by (rewrite E; by left).
      apply List.filter_In in Hf as [Hin Hl].
      split; [done|]. by apply String.eqb_eq. }
  unfold layerBalanced, layerSum, sumOf.
  rewrite <- !List_filter_filter.
  unfold validateLayerBalance, layerTotals.
  rewrite (layerTotals_acc _ _ _ Hwf').
  rewrite Hpres.
  destruct (List.filter (inLayer layer) entries) as [|e l]; [tauto|].
  destruct (Equal _ _); simpl; split; intros H; try done.
  assert (Hf : false = true) by (by apply H). discriminate.
Qed.

(** C4.  [Validate] succeeds exactly when the transaction has an entry,
    every entry has a strictly positive amount, a direction DEBIT or
    CREDIT and a layer PHYSICAL or VIRTUAL, and each of the two layers
    that has an entry balances: its DEBIT amounts and its CREDIT amounts
    have equal sums.  A layer without entries asks for nothing. *)
Theorem C4_validate_iff (t : Transaction.t) :
  Validate t = Ok tt <->
  Transaction.Entries t <> []
  /\ Forall entryWellFormed (Transaction.Entries t)
  /\ (layerPresent LayerPhysical (Transaction.Entries t) ->
      layerBalanced LayerPhysical (Transaction.Entries t))
  /\ (layerPresent LayerVirtual (Transaction.Entries t) ->
      layerBalanced LayerVirtual (Transaction.Entries t)).
Proof.
  unfold Validate. set (entries := Transaction.Entries t).
  split.
  - intros H.
    destruct entries as [|e0 rest] eqn:E; [discriminate|]. rewrite <- E in *.
    destruct (separateEntries entries [] []) as [layers|msg] eqn:Hsep;
      [|discriminate].
    assert (Hwf := separateEntries_ok _ _ _ _ Hsep).
    rewrite (separateEntries_wf _ _ _ Hwf) in Hsep. injection Hsep as <-.
    simpl in H.
    split; [rewrite E; discriminate|]. split; [exact Hwf|].
    destruct (validateLayerBalance (List.filter (inLayer LayerPhysical) entries)
                LayerPhysical) as [[]|] eqn:HP; [|discriminate].
    destruct (validateLayerBalance (List.filter (inLayer LayerVirtual) entries)
                LayerVirtual) as [[]|] eqn:HV; [|discriminate].
    split; by apply validateLayerBalance_layer.
  - intros (Hne & Hwf & HP & HV).
    destruct entries as [|e0 rest] eqn:E; [done|]. rewrite <- E in *.
    rewrite (separateEntries_wf _ _ _ Hwf). simpl.
    apply (validateLayerBalance_layer _ _ Hwf) in HP, HV.
    by rewrite HP, HV.
Qed.

Lemma C4_validate_iff_witness :
  Validate physicalOnly = Ok tt
  /\ layerBalanced LayerPhysical (Transaction.Entries physicalOnly)
  /\ ~ layerPresent LayerVirtual (Transaction.Entries physicalOnly).
Proof.
  assert (Habsent : ~ layerPresent LayerVirtual (Transaction.Entries physicalOnly)).
  { intros (e & Hin & Hl).
    destruct Hin as [<-|[<-|Hin]]; [discriminate Hl|discriminate Hl|destruct Hin]. }
  assert (Hbal : layerBalanced LayerPhysical (Transaction.Entries physicalOnly))
    by (vm_compute; reflexivity).
  split; [|by split].
  apply (proj2 (C4_validate_iff physicalOnly)).
  split; [discriminate|]. split.
  - constructor; [split; [reflexivity|split; [by right|by left]]|].
    constructor; [split; [reflexivity|split; [by left|by left]]|].
    constructor.
  - split; [intros _; exact Hbal|intros H; destruct (Habsent H)].
Defined.

End validate_claims.

(** ** The storage layer and the expense service *)

Module storage_facts.
Import decimal_facts.

Lemma BucketRepo_GetByID_ok db id bucket :
  BucketRepo_GetByID db id = Ok bucket ->
  exists row, buckets db !! id = Some row /\ bucket = toBucket id row.
Proof.
  unfold BucketRepo_GetByID. destruct (buckets db !! id) as [row|]; [|done].
  intros [= <-]. by exists row.
Qed.

(** The trigger touches the balance of the entry's bucket only. *)
Lemma update_lookup_ne bs entry id :
  id <> TransactionEntry.BucketID entry ->
  update_bucket_balance bs entry !! id = bs !! id.
Proof.
  intros Hne. unfold update_bucket_balance.
  repeat case_match; try done; by rewrite lookup_alter_ne.
Qed.

Lemma update_lookup_debit bs entry id :
  TransactionEntry.BucketID entry = id ->
  TransactionEntry.Type_ entry = EntryTypeDebit ->
  update_bucket_balance bs entry !! id
  = setBalance (fun b => Add b (TransactionEntry.Amount entry)) <$> bs !! id.
Proof.
  intros <- H. unfold update_bucket_balance. rewrite H. simpl.
  apply lookup_alter_eq.
Qed.

Lemma update_lookup_credit bs entry id :
  TransactionEntry.BucketID entry = id ->
  TransactionEntry.Type_ entry = EntryTypeCredit ->
  update_bucket_balance bs entry !! id
  = setBalance (fun b => Sub b (TransactionEntry.Amount entry)) <$> bs !! id.
Proof.
  intros <- H. unfold update_bucket_balance. rewrite H. simpl.
  apply lookup_alter_eq.
Qed.

Lemma update_Make_ne bs i t id amount type layer other :
  other <> id ->
  update_bucket_balance bs (TransactionEntry.Make i t id amount type layer)
    !! other = bs !! other.
Proof. intros H. by apply update_lookup_ne. Qed.

Lemma update_Make_debit bs i t id amount layer :
  update_bucket_balance bs
    (TransactionEntry.Make i t id amount EntryTypeDebit layer) !! id
  = setBalance (fun b => Add b amount) <$> bs !! id.
Proof. by apply update_lookup_debit. Qed.

Lemma update_Make_credit bs i t id amount layer :
  update_bucket_balance bs
    (TransactionEntry.Make i t id amount EntryTypeCredit layer) !! id
  = setBalance (fun b => Sub b amount) <$> bs !! id.
Proof. by apply update_lookup_credit. Qed.

(** The type and the parent of a bucket survive every insertion. *)
Definition shape (row : BucketRow) : string * option UUID :=
  (bucket_type row, parent_physical_bucket_id row).

Lemma update_shape bs entry id :
  shape <$> update_bucket_balance bs entry !! id = shape <$> bs !! id.
Proof.
  unfold update_bucket_balance.
  repeat case_match; try done;
    (destruct (decide (TransactionEntry.BucketID entry = id)) as [->|Hne];
     [rewrite lookup_alter_eq; by destruct (bs !! id)
     |by rewrite lookup_alter_ne]).
Qed.

Lemma insertEntries_shape entries bs bs' id :
  insertEntries bs entries = Ok bs' ->
  shape <$> bs' !! id = shape <$> bs !! id.
Proof.
  revert bs. induction entries as [|e entries IH]; intros bs; simpl.
  - by intros [= <-].
  - unfold insertEntry. destruct (bs !! TransactionEntry.BucketID e); [|done].
    simpl. intros H. rewrite (IH _ H). apply update_shape.
Qed.

Lemma insertEntries_foldl entries bs bs' :
  insertEntries bs entries = Ok bs' ->
  bs' = foldl update_bucket_balance bs entries.
Proof.
  revert bs. induction entries as [|e entries IH]; intros bs; simpl.
  - by intros [= <-].
  - unfold insertEntry. destruct (bs !! TransactionEntry.BucketID e); [|done].
    simpl. apply IH.
Qed.

Lemma TransactionRepo_Create_ok db tx db' :
  TransactionRepo_Create db tx = (Ok tt, db') ->
  exists bs,
    insertEntries (buckets db) (Transaction.Entries tx) = Ok bs
    /\ db' = MakeDB bs (split_rules db) (transactions db ++ [tx])
                    (market_value_history db).
Proof.
  unfold TransactionRepo_Create.
  destruct (insertEntries _ _) as [bs|]; [|done].
  intros [= <-]. by exists bs.
Qed.

End storage_facts.

Module expense_claims.
Import decimal_facts storage_facts validate_claims.

(** What a successful [buildExpense] has checked and built. *)
Lemma buildExpense_ok env db input tx :
  expense.buildExpense env db input = Ok tx ->
  exists source,
    GreaterThan (expense.Amount input) Zero = true
    /\ typeOf db (expense.VirtualBucketID input) = Some BucketTypeVirtual
    /\ typeOf db (expense.CategoryBucketID input) = Some BucketTypeExpense
    /\ physicalSource db input source
    /\ tx = Transaction.Make (newUUID env 0) (expense.Description input)
              (now env) false false
              (expenseEntries env (expense.Amount input) source
                 (expense.VirtualBucketID input)
                 (expense.CategoryBucketID input)).
Proof.
  unfold expense.buildExpense. intros H.
  rewrite GreaterThan_LessThanOrEqual.
  destruct (LessThanOrEqual _ _); [discriminate|].
  destruct (BucketRepo_GetByID db (expense.VirtualBucketID input))
    as [vb|] eqn:Hv; [|discriminate].
  apply BucketRepo_GetByID_ok in Hv as (vrow & Hv & ->).
  simpl in H.
  destruct (String.eqb (bucket_type vrow) BucketTypeVirtual) eqn:Hvt;
    [|discriminate].
  apply String.eqb_eq in Hvt. simpl in H.
  destruct (BucketRepo_GetByID db (expense.CategoryBucketID input))
    as [cb|] eqn:Hc; [|discriminate].
  apply BucketRepo_GetByID_ok in Hc as (crow & Hc & ->).
  simpl in H.
  destruct (String.eqb (bucket_type crow) BucketTypeExpense) eqn:Hct;
    [|discriminate].
  apply String.eqb_eq in Hct. simpl in H.
  destruct (expense.sourcePhysicalBucket db input _) as [source|] eqn:Hs;
    [|discriminate].
  simpl in H.
  destruct (Validate _); [|discriminate]. injection H as <-.
  exists source. split; [done|].
  unfold typeOf. rewrite Hv, Hc. simpl. rewrite Hvt, Hct.
  split; [done|]. split; [done|]. split; [|done].
  unfold physicalSource, expense.sourcePhysicalBucket in *.
  destruct (expense.PhysicalOverrideID input) as [o|].
  - destruct (BucketRepo_GetByID db o) as [ob|] eqn:Ho; [|discriminate].
    apply BucketRepo_GetByID_ok in Ho as (orow & Ho & ->). simpl in Hs.
    destruct (String.eqb (bucket_type orow) BucketTypePhysical) eqn:Hot;
      [|discriminate].
    apply String.eqb_eq in Hot. injection Hs as <-.
    unfold typeOf. rewrite Ho. simpl. by rewrite Hot.
  - simpl in Hs. unfold parentOf. rewrite Hv. simpl.
    destruct (parent_physical_bucket_id vrow); [|discriminate].
    by injection Hs as <-.
Qed.

Lemma LogExpense_ok env db input tx db' :
  expense.LogExpense env db input = (Ok tx, db') ->
  expense.buildExpense env db input = Ok tx
  /\ TransactionRepo_Create db tx = (Ok tt, db').
Proof.
  unfold expense.LogExpense.
  destruct (expense.buildExpense env db input) as [tx0|]; [|done].
  destruct (TransactionRepo_Create db tx0) as [[[]|] db0] eqn:Hc; [|done].
  by intros [= <- <-].
Qed.

(** The balances after the four insertions. *)
Lemma expense_balances bs bs' env amount source virtualID categoryID :
  insertEntries bs (expenseEntries env amount source virtualID categoryID)
  = Ok bs' ->
  source <> virtualID -> source <> categoryID -> virtualID <> categoryID ->
  current_balance <$> bs' !! source
  = (fun b => Sub b amount) <$> (current_balance <$> bs !! source)
  /\ current_balance <$> bs' !! virtualID
     = (fun b => Sub b amount) <$> (current_balance <$> bs !! virtualID)
  /\ current_balance <$> bs' !! categoryID
     = (fun b => Add (Add b amount) amount)
         <$> (current_balance <$> bs !! categoryID)
  /\ (forall other, other <> source -> other <> virtualID ->
                    other <> categoryID -> bs' !! other = bs !! other).
Proof.
  intros H Hsv Hsc Hvc. apply insertEntries_foldl in H. subst bs'.
  unfold expenseEntries. cbn [foldl].
  repeat split.
  - rewrite !update_Make_ne, update_Make_credit by congruence.
    by destruct (bs !! source).
  - rewrite update_Make_ne, update_Make_credit, !update_Make_ne by congruence.
    by destruct (bs !! virtualID).
  - rewrite update_Make_debit, update_Make_ne, update_Make_debit,
      update_Make_ne by congruence.
    by destruct (bs !! categoryID).
  - intros other H1 H2 H3. by rewrite !update_Make_ne by congruence.
Qed.

Lemma twice_amount b amount :
  Equal (Add (Add b amount) amount) (Add b (Mul (NewFromInt 2) amount)) = true.
Proof.
  apply Equal_toQ. rewrite !toQ_Add, toQ_Mul, toQ_NewFromInt.
  change (inject_Z 2) with 2%Q. ring.
Qed.

(** C7.  A successful [LogExpense] has a positive amount and persists one
    transaction with both flags false and exactly four entries of that
    amount: PHYSICAL CREDIT of the physical source (the override when
    given, and then PHYSICAL, otherwise the virtual bucket's parent) and
    DEBIT of the category, VIRTUAL CREDIT of the virtual bucket and DEBIT
    of the category.  The trigger then lowers the balance of the physical
    source and of the virtual bucket by the amount and raises the
    category's by twice the amount, and touches no other bucket; for a
    parent used as the source this needs the parent to be a PHYSICAL
    bucket, as the data model has it.  1000, 1000 and 0 become 950, 950
    and 100 after an expense of 50. *)
Theorem C7_log_expense (env : Env) (db db' : DB)
                       (input : expense.LogExpenseInput) (tx : Transaction.t) :
  expense.LogExpense env db input = (Ok tx, db') ->
  GreaterThan (expense.Amount input) Zero = true
  /\ (exists source,
        physicalSource db input source
        /\ Transaction.IsInternalTransfer tx = false
        /\ Transaction.IsExternalInflow tx = false
        /\ Transaction.Entries tx
           = expenseEntries env (expense.Amount input) source
               (expense.VirtualBucketID input) (expense.CategoryBucketID input)
        /\ transactions db' = transactions db ++ [tx]
        /\ ((expense.PhysicalOverrideID input = None ->
             typeOf db source = Some BucketTypePhysical) ->
            balanceOf db' source
            = (fun b => Sub b (expense.Amount input)) <$> balanceOf db source
            /\ balanceOf db' (expense.VirtualBucketID input)
               = (fun b => Sub b (expense.Amount input))
                   <$> balanceOf db (expense.VirtualBucketID input)
            /\ (exists before after,
                  balanceOf db (expense.CategoryBucketID input) = Some before
                  /\ balanceOf db' (expense.CategoryBucketID input) = Some after
                  /\ after = Add (Add before (expense.Amount input))
                                 (expense.Amount input)
                  /\ Equal after
                       (Add before (Mul (NewFromInt 2) (expense.Amount input)))
                     = true)
            /\ (forall other,
                  other <> source -> other <> expense.VirtualBucketID input ->
                  other <> expense.CategoryBucketID input ->
                  buckets db' !! other = buckets db !! other)))
  /\ (exists tx0 db0,
        expense.LogExpense testEnv standardDB standardExpense = (Ok tx0, db0)
        /\ balanceOf db0 1%N = Some (NewFromInt 950)
        /\ balanceOf db0 2%N = Some (NewFromInt 950)
        /\ balanceOf db0 3%N = Some (NewFromInt 100)).
Proof.
  intros H. apply LogExpense_ok in H as [Hb Hc].
  apply buildExpense_ok in Hb as (source & Hpos & Hvt & Hct & Hsrc & ->).
  apply TransactionRepo_Create_ok in Hc as (bs & Hins & ->).
  cbn [Transaction.Entries] in Hins.
  split; [exact Hpos|]. split.
  - exists source. repeat (split; [done|]).
    intros Hparent.
    assert (Hst : typeOf db source = Some BucketTypePhysical).
    { unfold physicalSource in Hsrc.
      destruct (expense.PhysicalOverrideID input) as [o|];
        [by destruct Hsrc as [-> ?]|by apply Hparent]. }
    assert (Hsv : source <> expense.VirtualBucketID input)
      by (intros ->; rewrite Hvt in Hst; discriminate).
    assert (Hsc : source <> expense.CategoryBucketID input)
      by (intros ->; rewrite Hct in Hst; discriminate).
    assert (Hvc : expense.VirtualBucketID input <> expense.CategoryBucketID input)
      by (intros E; rewrite E, Hct in Hvt; discriminate).
    destruct (expense_balances _ _ _ _ _ _ _ Hins Hsv Hsc Hvc)
      as (B1 & B2 & B3 & B4).
    unfold balanceOf. cbn [buckets].
    split; [exact B1|]. split; [exact B2|]. split; [|exact B4].
    unfold typeOf in Hct.
    destruct (buckets db !! expense.CategoryBucketID input) as [crow|];
      [|discriminate].
    exists (current_balance crow), (Add (Add (current_balance crow)
                                         (expense.Amount input))
                                    (expense.Amount input)).
    split; [done|]. split; [exact B3|]. split; [done|]. apply twice_amount.
  - eexists _, _. split; [vm_compute; reflexivity|].
    split; [|split]; vm_compute; reflexivity.
Qed.

Lemma C7_log_expense_witness :
  exists tx db',
    expense.LogExpense testEnv standardDB standardExpense = (Ok tx, db')
    /\ GreaterThan (expense.Amount standardExpense) Zero = true
    /\ transactions db' = transactions standardDB ++ [tx].
Proof.
  eexists _, _.
  assert (H : expense.LogExpense testEnv standardDB standardExpense
              = (Ok _, _)) by (vm_compute; reflexivity).
  split; [exact H|].
  destruct (C7_log_expense _ _ _ _ _ H) as (Hpos & (source & Hs) & _).
  split; [exact Hpos|]. apply Hs.
Defined.

End expense_claims.

(** ** The transfer-task generator *)

Module generator_facts.
Import decimal_facts storage_facts.
Import task_generator.

Lemma GreaterThan_Zero d : GreaterThan d Zero = true <-> 0 < value d.
Proof.
  unfold GreaterThan. rewrite Cmp_Zero.
  destruct (Z.compare_spec (value d) 0); split; (lia || congruence).
Qed.

Lemma LessThan_Zero d : LessThan d Zero = true <-> value d < 0.
Proof.
  unfold LessThan. rewrite Cmp_Zero.
  destruct (Z.compare_spec (value d) 0); split; (lia || congruence).
Qed.

Lemma toQ_positive d : GreaterThan d Zero = true <-> (0 < toQ d)%Q.
Proof. rewrite GreaterThan_toQ. by rewrite toQ_Zero. Qed.

Lemma toQ_negative d : LessThan d Zero = true <-> (toQ d < 0)%Q.
Proof. rewrite LessThan_toQ. by rewrite toQ_Zero. Qed.

(** The [switch] of the loop computes the anchor. *)
Lemma resolve_anchor db id bucket anchor :
  BucketRepo_GetByID db id = Ok bucket ->
  physicalParent bucket = Ok anchor ->
  anchorOf db id = anchor.
Proof.
  intros Hb Hp. apply BucketRepo_GetByID_ok in Hb as (row & Hrow & ->).
  unfold anchorOf, physicalParent in *. rewrite Hrow. simpl in Hp.
  destruct (String.eqb (bucket_type row) BucketTypePhysical);
    [congruence|].
  destruct (String.eqb (bucket_type row) BucketTypeVirtual); [|congruence].
  destruct (parent_physical_bucket_id row); congruence.
Qed.

Lemma flowOf_insert flows p x a :
  flowOf (<[p := x]> flows) a = if N.eqb p a then x else flowOf flows a.
Proof.
  unfold flowOf. destruct (N.eqb_spec p a) as [->|Hne].
  - by rewrite lookup_insert_eq.
  - by rewrite lookup_insert_ne.
Qed.

Lemma addFlow_toQ flows p e a :
  (toQ (flowOf (addFlow flows p e) a)
   == toQ (flowOf flows a) + (if N.eqb p a then signedAmount e else 0))%Q.
Proof.
  unfold addFlow, signedAmount, hasType.
  destruct (String.eqb (TransactionEntry.Type_ e) EntryTypeDebit);
    [|destruct (String.eqb (TransactionEntry.Type_ e) EntryTypeCredit)];
    rewrite ?flowOf_insert;
    destruct (N.eqb_spec p a) as [->|Hne];
    rewrite ?toQ_Add, ?toQ_Sub; ring.
Qed.

(** The map the first loop builds holds the net flow of every anchor. *)
Lemma netFlows_toQ db virtualEntries flows0 flows :
  netFlows db virtualEntries flows0 = Ok flows ->
  forall a,
    (toQ (flowOf flows a)
     == toQ (flowOf flows0 a)
        + Qsum (List.map signedAmount
                  (List.filter (anchoredAt db a) virtualEntries)))%Q.
Proof.
  revert flows0.
  induction virtualEntries as [|e rest IH]; intros flows0 H a.
  - injection H as <-. simpl. ring.
  - simpl in H.
    destruct (BucketRepo_GetByID db (TransactionEntry.BucketID e))
      as [bucket|] eqn:Hb; [|discriminate].
    simpl in H.
    destruct (physicalParent bucket) as [anchor|] eqn:Hp; [|discriminate].
    simpl in H.
    pose proof (resolve_anchor _ _ _ _ Hb Hp) as Ha.
    cbn [List.filter]. unfold anchoredAt at 1. rewrite Ha.
    destruct anchor as [p|].
    + rewrite (IH _ H a), addFlow_toQ.
      destruct (N.eqb p a); simpl; ring.
    + apply (IH _ H a).
Qed.

(** The second loop, as two filters. *)
Lemma classify_acc (l : list (N * Decimal)) (receiving sending : list N) :
  foldl (fun acc kv =>
           if GreaterThan (snd kv) Zero then (fst acc ++ [fst kv], snd acc)
           else if LessThan (snd kv) Zero then (fst acc, snd acc ++ [fst kv])
           else acc)
        (receiving, sending) l
  = (receiving
       ++ List.map fst (List.filter (fun kv => GreaterThan (snd kv) Zero) l),
     sending
       ++ List.map fst (List.filter (fun kv => LessThan (snd kv) Zero) l)).
Proof.
  revert receiving sending.
  induction l as [|kv l IH]; intros receiving sending; simpl.
  - by rewrite !app_nil_r.
  - assert (Hx : GreaterThan (snd kv) Zero = true -> LessThan (snd kv) Zero = false).
    { unfold GreaterThan, LessThan. by destruct (Cmp _ _). }
    destruct (GreaterThan (snd kv) Zero) eqn:HG.
    + rewrite (Hx eq_refl), IH. simpl. by rewrite <- app_assoc.
    + destruct (LessThan (snd kv) Zero); rewrite IH; simpl;
        by rewrite <- ?app_assoc.
Qed.

Lemma classify_spec l :
  classify l
  = (List.map fst (List.filter (fun kv => GreaterThan (snd kv) Zero) l),
     List.map fst (List.filter (fun kv => LessThan (snd kv) Zero) l)).
Proof. unfold classify. by rewrite classify_acc. Qed.

Lemma In_map_to_list (flows : gmap N Decimal) k v :
  In (k, v) (map_to_list flows) <-> flows !! k = Some v.
Proof. rewrite <- list_elem_of_In. apply elem_of_map_to_list. Qed.

Lemma receiver_flow (flows : gmap N Decimal) k :
  In k (List.map fst (List.filter (fun kv => GreaterThan (snd kv) Zero)
                        (map_to_list flows)))
  <-> GreaterThan (flowOf flows k) Zero = true.
Proof.
  rewrite List.in_map_iff. split.
  - intros ([k' v] & <- & Hin). apply List.filter_In in Hin as [Hin Hv].
    apply In_map_to_list in Hin. unfold flowOf. simpl. by rewrite Hin.
  - intros H. unfold flowOf in H.
    destruct (flows !! k) as [v|] eqn:E; [|discriminate].
    exists (k, v). split; [done|]. apply List.filter_In.
    split; [by apply In_map_to_list|done].
Qed.

Lemma sender_flow (flows : gmap N Decimal) k :
  In k (List.map fst (List.filter (fun kv => LessThan (snd kv) Zero)
                        (map_to_list flows)))
  <-> LessThan (flowOf flows k) Zero = true.
Proof.
  rewrite List.in_map_iff. split.
  - intros ([k' v] & <- & Hin). apply List.filter_In in Hin as [Hin Hv].
    apply In_map_to_list in Hin. unfold flowOf. simpl. by rewrite Hin.
  - intros H. unfold flowOf in H.
    destruct (flows !! k) as [v|] eqn:E; [|discriminate].
    exists (k, v). split; [done|]. apply List.filter_In.
    split; [by apply In_map_to_list|done].
Qed.

(** The matching loops only ever append tasks. *)
Lemma matchReceivers_extends env txID from fromAmount receiving flows tasks :
  exists extra,
    snd (matchReceivers env txID from fromAmount receiving flows tasks)
    = tasks ++ extra.
Proof.
  revert fromAmount flows tasks.
  induction receiving as [|to rest IH]; intros fromAmount flows tasks; simpl.
  - exists []. by rewrite app_nil_r.
  - destruct (GreaterThan _ Zero); [|apply IH].
    destruct (LessThanOrEqual _ Zero).
    + by eexists.
    + edestruct IH as [extra ->]. rewrite <- app_assoc. by eexists.
Qed.

Lemma matchSenders_extends env txID sending receiving flows tasks :
  exists extra,
    matchSenders env txID sending receiving flows tasks = tasks ++ extra.
Proof.
  revert flows tasks.
  induction sending as [|from rest IH]; intros flows tasks; simpl.
  - exists []. by rewrite app_nil_r.
  - destruct (matchReceivers_extends env txID from (Abs (flowOf flows from))
                receiving flows tasks) as [extra He].
    destruct (matchReceivers _ _ _ _ _ _ _) as [flows' tasks'].
    simpl in He. subst tasks'.
    destruct (IH flows' (tasks ++ extra)) as [extra' ->].
    rewrite <- app_assoc. by eexists.
Qed.

Lemma matchSenders_no_receivers env txID sending flows tasks :
  matchSenders env txID sending [] flows tasks = tasks.
Proof.
  revert flows tasks. induction sending as [|from rest IH]; intros; simpl; [done|].
  apply IH.
Qed.

Lemma Min_positive a b :
  GreaterThan a Zero = true -> GreaterThan b Zero = true ->
  GreaterThan (Min a b) Zero = true.
Proof. unfold Min. by destruct (LessThan b a). Qed.

Lemma Abs_of_negative d :
  LessThan d Zero = true -> GreaterThan (Abs d) Zero = true.
Proof. rewrite LessThan_Zero, GreaterThan_Zero. simpl. lia. Qed.

(** A sender and a receiver make the first task. *)
Lemma matchSenders_first env txID from sending to receiving flows :
  LessThan (flowOf flows from) Zero = true ->
  GreaterThan (flowOf flows to) Zero = true ->
  matchSenders env txID (from :: sending) (to :: receiving) flows [] <> [].
Proof.
  intros Hfrom Hto. cbn [matchSenders matchReceivers].
  rewrite (Min_positive _ _ (Abs_of_negative _ Hfrom) Hto).
  set (task := newTask env _ txID from to _).
  set (flows1 := <[to := _]> flows).
  set (rest := Sub (Abs (flowOf flows from)) _).
  assert (Hext : exists flows' extra,
            (if LessThanOrEqual rest Zero
             then (flows1, [] ++ [task])
             else matchReceivers env txID from rest receiving flows1
                                 ([] ++ [task]))
            = (flows', task :: extra)).
  { destruct (LessThanOrEqual rest Zero); [by eexists _, _|].
    destruct (matchReceivers_extends env txID from rest receiving flows1
                ([] ++ [task])) as [extra He].
    destruct (matchReceivers _ _ _ _ _ _ _) as [flows' tasks'].
    simpl in He. subst tasks'. by eexists _, _. }
  destruct Hext as (flows' & extra & ->).
  destruct (matchSenders_extends env txID sending (to :: receiving) flows'
              (task :: extra)) as [extra' ->].
  discriminate.
Qed.

Lemma netFlow_of_flows db tx flows :
  netFlows db (virtualEntriesOf tx) ∅ = Ok flows ->
  forall a, (toQ (flowOf flows a) == netFlow db tx a)%Q.
Proof.
  intros H a. rewrite (netFlows_toQ _ _ _ _ H a).
  unfold flowOf at 1. rewrite lookup_empty. cbn [default].
  rewrite toQ_zeroValue, Qplus_0_l. reflexivity.
Qed.

(** Tasks are emitted exactly when an anchor gains and an anchor loses. *)
Lemma GenerateTasks_nonempty env db tx tasks :
  GenerateTasks env db tx = Ok tasks ->
  tasks <> [] <->
  (exists a, (0 < netFlow db tx a)%Q) /\ (exists b, (netFlow db tx b < 0)%Q).
Proof.
  unfold GenerateTasks. intros H.
  destruct (virtualEntriesOf tx) as [|e0 rest] eqn:Hve.
  { injection H as <-. split; [done|].
    intros [[a Ha] _]. unfold netFlow in Ha.
    change (List.filter (inLayer LayerVirtual) (Transaction.Entries tx))
      with (virtualEntriesOf tx) in Ha.
    rewrite Hve in Ha. simpl in Ha. by apply Qlt_irrefl in Ha. }
  rewrite <- Hve in H.
  destruct (netFlows db (virtualEntriesOf tx) ∅) as [flows|] eqn:Hflows;
    [|discriminate].
  simpl in H. rewrite classify_spec in H. injection H as <-.
  pose proof (netFlow_of_flows _ _ _ Hflows) as Hnet.
  set (receiving :=
         List.map fst (List.filter (fun kv => GreaterThan (snd kv) Zero)
                         (map_to_list flows))).
  set (sending :=
         List.map fst (List.filter (fun kv => LessThan (snd kv) Zero)
                         (map_to_list flows))).
  split.
  - intros Hne.
    destruct receiving as [|to receiving'] eqn:Hr.
    { by rewrite matchSenders_no_receivers in Hne. }
    destruct sending as [|from sending'] eqn:Hs; [done|].
    split.
    + exists to. rewrite <- Hnet. apply toQ_positive, receiver_flow.
      fold receiving. rewrite Hr. by left.
    + exists from. rewrite <- Hnet. apply toQ_negative, sender_flow.
      fold sending. rewrite Hs. by left.
  - intros [[a Ha] [b Hb]].
    rewrite <- Hnet in Ha, Hb.
    apply toQ_positive, receiver_flow in Ha. fold receiving in Ha.
    apply toQ_negative, sender_flow in Hb. fold sending in Hb.
    destruct receiving as [|to receiving'] eqn:Hr; [destruct Ha|].
    destruct sending as [|from sending'] eqn:Hs; [destruct Hb|].
    apply matchSenders_first.
    + apply sender_flow. fold sending. rewrite Hs. by left.
    + apply receiver_flow. fold receiving. rewrite Hr. by left.
Qed.

(** On resolvable anchors the generator returns. *)
Lemma netFlows_total db virtualEntries flows0 :
  (forall e, In e virtualEntries ->
             exists row,
               buckets db !! TransactionEntry.BucketID e = Some row
               /\ (bucket_type row = BucketTypeVirtual ->
                   is_Some (parent_physical_bucket_id row))) ->
  exists flows, netFlows db virtualEntries flows0 = Ok flows.
Proof.
  revert flows0.
  induction virtualEntries as [|e rest IH]; intros flows0 H; simpl.
  - by eexists.
  - destruct (H e (or_introl eq_refl)) as (row & Hrow & Hparent).
    unfold BucketRepo_GetByID. rewrite Hrow. simpl.
    unfold physicalParent. simpl.
    destruct (String.eqb (bucket_type row) BucketTypePhysical); simpl.
    { apply IH. intros e' He'. apply H. by right. }
    destruct (String.eqb (bucket_type row) BucketTypeVirtual) eqn:Hv; simpl.
    + apply String.eqb_eq in Hv. destruct (Hparent Hv) as [p ->]. simpl.
      apply IH. intros e' He'. apply H. by right.
    + apply IH. intros e' He'. apply H. by right.
Qed.

Lemma GenerateTasks_total env db tx :
  anchorsResolve db tx -> exists tasks, GenerateTasks env db tx = Ok tasks.
Proof.
  intros H. unfold GenerateTasks.
  destruct (virtualEntriesOf tx) as [|e0 rest] eqn:Hve; [by eexists|].
  rewrite <- Hve.
  destruct (netFlows_total db (virtualEntriesOf tx) ∅) as [flows ->].
  { intros e He. apply List.filter_In in He as [Hin Hl].
    apply H; [done|]. by apply String.eqb_eq. }
  simpl. destruct (classify _). by eexists.
Qed.

(** One anchor cannot both gain and lose. *)
Lemma single_anchor_flow db tx a0 :
  (forall e, In e (Transaction.Entries tx) ->
             TransactionEntry.Layer e = LayerVirtual ->
             anchorOf db (TransactionEntry.BucketID e) = Some a0
             \/ anchorOf db (TransactionEntry.BucketID e) = None) ->
  forall b, b <> a0 -> (netFlow db tx b == 0)%Q.
Proof.
  intros H b Hb. unfold netFlow.
  assert (Hnil : List.filter (anchoredAt db b)
                   (List.filter (inLayer LayerVirtual) (Transaction.Entries tx))
                 = []).
  { induction (Transaction.Entries tx) as [|e l IH]; [done|].
    simpl. destruct (inLayer LayerVirtual e) eqn:Hl.
    - assert (Hl' : TransactionEntry.Layer e = LayerVirtual)
        by (by apply String.eqb_eq).
      simpl. unfold anchoredAt at 1.
      destruct (H e (or_introl eq_refl) Hl') as [Ha | Ha]; rewrite Ha.
      + destruct (N.eqb_spec a0 b); [congruence|].
        apply IH. intros e' He'. apply H. by right.
      + apply IH. intros e' He'. apply H. by right.
    - apply IH. intros e' He'. apply H. by right. }
  rewrite Hnil. reflexivity.
Qed.

Lemma single_anchor_no_tasks env db tx a0 tasks :
  GenerateTasks env db tx = Ok tasks ->
  (forall e, In e (Transaction.Entries tx) ->
             TransactionEntry.Layer e = LayerVirtual ->
             anchorOf db (TransactionEntry.BucketID e) = Some a0
             \/ anchorOf db (TransactionEntry.BucketID e) = None) ->
  tasks = [].
Proof.
  intros Hgen H.
  destruct tasks as [|t tasks]; [done|]. exfalso.
  assert (Hne : t :: tasks <> []) by done.
  apply (GenerateTasks_nonempty _ _ _ _ Hgen) in Hne as [[a Ha] [b Hb]].
  destruct (N.eq_dec a a0) as [->|Hna].
  - destruct (N.eq_dec b a0) as [->|Hnb].
    + apply (Qlt_irrefl 0). by apply Qlt_trans with (netFlow db tx a0).
    + rewrite (single_anchor_flow _ _ _ H b Hnb) in Hb. by apply Qlt_irrefl in Hb.
  - rewrite (single_anchor_flow _ _ _ H a Hna) in Ha. by apply Qlt_irrefl in Ha.
Qed.

End generator_facts.

(** ** The transfer-task claims *)

Module generator_claims.
Import decimal_facts storage_facts expense_claims generator_facts.
Import task_generator.

(** C6.  The generator returns on every transaction whose VIRTUAL-layer
    entries have resolvable anchors, and whenever it returns, it emits at
    least one task exactly when the net flows per physical anchor hold a
    strictly positive and a strictly negative one.  In particular no task
    is emitted when the VIRTUAL-layer entries resolve to one anchor or to
    skipped bucket types only, nor when every anchor nets to zero. *)
Theorem C6_tasks_iff_cross_anchor (env : Env) (db : DB) (tx : Transaction.t) :
  (anchorsResolve db tx -> exists tasks, GenerateTasks env db tx = Ok tasks)
  /\ (forall tasks,
        GenerateTasks env db tx = Ok tasks ->
        (tasks <> [] <->
         (exists a, (0 < netFlow db tx a)%Q)
         /\ (exists b, (netFlow db tx b < 0)%Q))
        /\ (forall a0,
              (forall e, In e (Transaction.Entries tx) ->
                         TransactionEntry.Layer e = LayerVirtual ->
                         anchorOf db (TransactionEntry.BucketID e) = Some a0
                         \/ anchorOf db (TransactionEntry.BucketID e) = None) ->
              tasks = [])
        /\ ((forall a, (netFlow db tx a == 0)%Q) -> tasks = [])).
Proof.
  split; [exact (GenerateTasks_total env db tx)|].
  intros tasks Hgen.
  split; [exact (GenerateTasks_nonempty _ _ _ _ Hgen)|].
  split; [intros a0; exact (single_anchor_no_tasks _ _ _ a0 _ Hgen)|].
  intros Hzero. destruct tasks as [|t tasks]; [done|]. exfalso.
  assert (Hne : t :: tasks <> []) by done.
  apply (GenerateTasks_nonempty _ _ _ _ Hgen) in Hne as [[a Ha] _].
  rewrite Hzero in Ha. by apply Qlt_irrefl in Ha.
Qed.

Lemma C6_tasks_iff_cross_anchor_witness :
  exists tasks,
    GenerateTasks testEnv interBankDB interBankTransfer = Ok tasks
    /\ tasks <> []
    /\ (exists a, (0 < netFlow interBankDB interBankTransfer a)%Q)
    /\ (exists b, (netFlow interBankDB interBankTransfer b < 0)%Q).
Proof.
  eexists.
  assert (H : GenerateTasks testEnv interBankDB interBankTransfer = Ok _)
    by (vm_compute; reflexivity).
  split; [exact H|].
  destruct (C6_tasks_iff_cross_anchor testEnv interBankDB interBankTransfer)
    as [_ Hall].
  destruct (Hall _ H) as [Hiff _].
  assert (Hne : [newTask testEnv 0 500 1 2 (NewFromInt 500)] <> [])
    by discriminate.
  split; [exact Hne|]. apply Hiff, Hne.
Defined.

Lemma anchorOf_shape db db' id :
  shape <$> buckets db' !! id = shape <$> buckets db !! id ->
  anchorOf db' id = anchorOf db id.
Proof.
  unfold anchorOf, shape.
  destruct (buckets db' !! id) as [r'|], (buckets db !! id) as [r|];
    simpl; try done.
  by intros [= -> ->].
Qed.

Lemma expense_virtual_entries env amount source virtualID categoryID :
  List.filter (inLayer LayerVirtual)
    (expenseEntries env amount source virtualID categoryID)
  = [ TransactionEntry.Make (newUUID env 3) (newUUID env 0) virtualID amount
                            EntryTypeCredit LayerVirtual;
      TransactionEntry.Make (newUUID env 4) (newUUID env 0) categoryID amount
                            EntryTypeDebit LayerVirtual ].
Proof. reflexivity. Qed.

Lemma signedAmount_credit i t id amount layer :
  signedAmount (TransactionEntry.Make i t id amount EntryTypeCredit layer)
  = (- toQ amount)%Q.
Proof. reflexivity. Qed.

(** C5, as stated, fails: in the wrong-card scenario the generator run on
    the posted transaction emits no CreditCard to Checking task. *)
Lemma C5_wrong_card_counterexample :
  exists tx db',
    expense.LogExpense testEnv wrongCardDB wrongCardExpense = (Ok tx, db')
    /\ forall tasks,
         GenerateTasks testEnv db' tx = Ok tasks ->
         ~ (exists task,
              In task tasks
              /\ TransferTask.FromPhysicalBucketID task = 2%N
              /\ TransferTask.ToPhysicalBucketID task = 1%N
              /\ Equal (TransferTask.Amount task) (NewFromInt 50) = true).
Proof.
  eexists _, _. split; [vm_compute; reflexivity|].
  intros tasks Hgen.
  assert (Hnil : tasks = []).
  { vm_compute in Hgen. by injection Hgen as <-. }
  subst tasks. by intros (task & [] & _).
Qed.

(** C5, amended.  After a successful [LogExpense] against a VIRTUAL bucket
    whose parent is [checking], with the PHYSICAL override [creditCard],
    the posted transaction credits [creditCard] in the PHYSICAL layer and
    the virtual bucket in the VIRTUAL layer, debits the category in both,
    and leaves [checking] untouched; the generator run on it returns no
    task, its only anchored VIRTUAL-layer flow being the loss of
    [checking]. *)
Theorem C5_wrong_card_no_task (env env' : Env) (db db' : DB)
                              (input : expense.LogExpenseInput)
                              (tx : Transaction.t) (checking creditCard : UUID) :
  expense.PhysicalOverrideID input = Some creditCard ->
  parentOf db (expense.VirtualBucketID input) = Some checking ->
  typeOf db checking = Some BucketTypePhysical ->
  creditCard <> checking ->
  expense.LogExpense env db input = (Ok tx, db') ->
  Transaction.Entries tx
  = expenseEntries env (expense.Amount input) creditCard
      (expense.VirtualBucketID input) (expense.CategoryBucketID input)
  /\ balanceOf db' creditCard
     = (fun b => Sub b (expense.Amount input)) <$> balanceOf db creditCard
  /\ balanceOf db' checking = balanceOf db checking
  /\ (netFlow db' tx checking == - toQ (expense.Amount input))%Q
  /\ GenerateTasks env' db' tx = Ok [].
Proof.
  intros Hov Hpar Hck Hne H.
  apply LogExpense_ok in H as [Hb Hc].
  apply buildExpense_ok in Hb as (source & Hpos & Hvt & Hct & Hsrc & ->).
  unfold physicalSource in Hsrc. rewrite Hov in Hsrc. destruct Hsrc as [-> Hcc].
  apply TransactionRepo_Create_ok in Hc as (bs & Hins & ->).
  cbn [Transaction.Entries] in *.
  set (V := expense.VirtualBucketID input) in *.
  set (C := expense.CategoryBucketID input) in *.
  set (amount := expense.Amount input) in *.
  set (db' := MakeDB bs _ _ _).
  assert (Hsv : creditCard <> V) by (intros ->; rewrite Hvt in Hcc; discriminate).
  assert (Hsc : creditCard <> C) by (intros ->; rewrite Hct in Hcc; discriminate).
  assert (Hvc : V <> C) by (intros E; rewrite E, Hct in Hvt; discriminate).
  assert (Hkv : checking <> V) by (intros ->; rewrite Hvt in Hck; discriminate).
  assert (Hkc : checking <> C) by (intros ->; rewrite Hct in Hck; discriminate).
  destruct (expense_balances _ _ _ _ _ _ _ Hins Hsv Hsc Hvc) as (B1 & _ & _ & B4).
  assert (Hshape : forall id, shape <$> buckets db' !! id = shape <$> buckets db !! id)
    by (intros id; apply (insertEntries_shape _ _ _ _ Hins)).
  assert (HaV : anchorOf db' V = Some checking).
  { rewrite (anchorOf_shape _ _ _ (Hshape V)).
    unfold anchorOf, typeOf, parentOf in *.
    destruct (buckets db !! V) as [row|]; [|discriminate].
    simpl in Hvt, Hpar. injection Hvt as ->. exact Hpar. }
  assert (HaC : anchorOf db' C = None).
  { rewrite (anchorOf_shape _ _ _ (Hshape C)).
    unfold anchorOf, typeOf in *.
    destruct (buckets db !! C) as [row|]; [|discriminate].
    simpl in Hct. by injection Hct as ->. }
  split; [done|]. split; [exact B1|].
  split; [unfold balanceOf; cbn [buckets]; by rewrite B4|].
  split.
  { unfold netFlow. cbn [Transaction.Entries].
    rewrite expense_virtual_entries. cbn [List.filter].
    unfold anchoredAt. cbn [TransactionEntry.BucketID].
    rewrite HaV, HaC, N.eqb_refl. cbn [List.map Qsum foldr].
    rewrite signedAmount_credit. ring. }
  set (tx := Transaction.Make _ _ _ _ _ _).
  assert (Hanchors : forall e, In e (Transaction.Entries tx) ->
                       TransactionEntry.Layer e = LayerVirtual ->
                       anchorOf db' (TransactionEntry.BucketID e) = Some checking
                       \/ anchorOf db' (TransactionEntry.BucketID e) = None).
  { intros e He Hl. cbn in He.
    destruct He as [<-|[<-|[<-|[<-|[]]]]]; try discriminate Hl;
      cbn [TransactionEntry.BucketID]; auto. }
  destruct (GenerateTasks_total env' db' tx) as [tasks Hgen].
  { intros e He Hl. destruct (Hanchors e He Hl) as [Ha|Ha].
    - unfold anchorOf in Ha.
      destruct (buckets db' !! TransactionEntry.BucketID e) as [row|];
        [|discriminate].
      exists row. split; [done|]. intros Hv.
      rewrite Hv in Ha. simpl in Ha. by rewrite Ha.
    - cbn in He.
      destruct He as [<-|[<-|[<-|[<-|[]]]]]; try discriminate Hl;
        cbn [TransactionEntry.BucketID] in *; [congruence|].
      pose proof (Hshape C) as HsC. unfold typeOf in Hct.
      destruct (buckets db !! C) as [row|]; [|discriminate].
      destruct (buckets db' !! C) as [row'|]; [|discriminate].
      exists row'. split; [done|]. simpl in HsC, Hct.
      injection HsC as Ht _. injection Hct as Hct. rewrite Ht, Hct.
      discriminate. }
  rewrite Hgen. f_equal. by apply (single_anchor_no_tasks _ _ _ checking _ Hgen).
Qed.

Lemma C5_wrong_card_no_task_witness :
  exists tx db',
    expense.LogExpense testEnv wrongCardDB wrongCardExpense = (Ok tx, db')
    /\ GenerateTasks testEnv db' tx = Ok [].
Proof.
  eexists _, _.
  assert (H : expense.LogExpense testEnv wrongCardDB wrongCardExpense
              = (Ok _, _)) by (vm_compute; reflexivity).
  split; [exact H|].
  apply (C5_wrong_card_no_task testEnv testEnv wrongCardDB _ wrongCardExpense
           _ 1%N 2%N); try exact H; vm_compute; (reflexivity || discriminate).
Defined.

End generator_claims.

(** ** Net worth and market values *)

Module networth_claims.
Import decimal_facts storage_facts.
Import dashboard investment.

(** [GetLatest] picks a latest point, and fails only without points. *)
Lemma foldl_laterOf rows best :
  match foldl laterOf best rows with
  | None => best = None /\ rows = []
  | Some r =>
      (best = Some r \/ In r rows)
      /\ (forall b, best = Some b ->
                    MarketValueHistory.Date b <= MarketValueHistory.Date r)
      /\ (forall other, In other rows ->
                        MarketValueHistory.Date other <= MarketValueHistory.Date r)
  end.
Proof.
  revert best. induction rows as [|row rows IH]; intros best; simpl.
  - destruct best as [b|]; [|done].
    split; [by left|]. split; [|done]. intros b' [= <-]. lia.
  - specialize (IH (laterOf best row)).
    destruct (foldl laterOf (laterOf best row) rows) as [r|].
    + destruct IH as (Hin & Hbest & Hall).
      unfold laterOf in Hin, Hbest.
      destruct best as [b|].
      * destruct (Z.ltb_spec (MarketValueHistory.Date b)
                             (MarketValueHistory.Date row)) as [Hlt|Hge].
        -- specialize (Hbest row eq_refl).
           split; [right; destruct Hin as [[= <-]|Hin]; auto|].
           split; [intros b' [= <-]; lia|].
           intros other [<-|Ho]; [lia|by apply Hall].
        -- specialize (Hbest b eq_refl).
           split; [destruct Hin as [Hin|Hin]; auto|].
           split; [intros b' [= <-]; lia|].
           intros other [<-|Ho]; [lia|by apply Hall].
      * specialize (Hbest row eq_refl).
        split; [right; destruct Hin as [[= <-]|Hin]; auto|].
        split; [done|].
        intros other [<-|Ho]; [lia|by apply Hall].
    + destruct IH as [Hnone _]. unfold laterOf in Hnone.
      destruct best as [b|]; [destruct (_ <? _)|]; discriminate.
Qed.

Lemma GetLatest_spec db bucketID :
  match MarketValueRepo_GetLatest db bucketID with
  | Ok row => isLatest db bucketID row
  | Err _ => hasNoPoint db bucketID
  end.
Proof.
  unfold MarketValueRepo_GetLatest, latestRow.
  set (rows := List.filter _ (market_value_history db)).
  pose proof (foldl_laterOf rows None) as H.
  assert (Hrows : forall r, In r rows <->
                    In r (market_value_history db)
                    /\ MarketValueHistory.BucketID r = bucketID).
  { intros r. unfold rows. rewrite List.filter_In, N.eqb_eq. tauto. }
  destruct (foldl laterOf None rows) as [row|].
  - destruct H as ([Hin|Hin] & _ & Hall); [discriminate|].
    apply Hrows in Hin as [Hin Hb].
    split; [done|]. split; [done|].
    intros other Ho Hob. apply Hall, Hrows. by split.
  - destruct H as [_ Hnil]. intros row Hin Hb.
    assert (Hr : In row rows) by (apply Hrows; by split).
    rewrite Hnil in Hr. destruct Hr.
Qed.

Lemma latestValue_spec db bucketID :
  (exists row, isLatest db bucketID row
               /\ (latestValue db bucketID
                   == toQ (MarketValueHistory.MarketValue row))%Q)
  \/ (hasNoPoint db bucketID /\ (latestValue db bucketID == 0)%Q).
Proof.
  pose proof (GetLatest_spec db bucketID) as H. unfold latestValue.
  destruct (MarketValueRepo_GetLatest db bucketID) as [row|].
  - left. by exists row.
  - by right.
Qed.

Lemma BucketRepo_List_spec db type :
  type <> "" ->
  BucketRepo_List db type
  = List.map (fun kv => toBucket (fst kv) (snd kv)) (bucketsOfType db type).
Proof.
  intros Hne. unfold BucketRepo_List, bucketsOfType.
  apply String.eqb_neq in Hne. rewrite Hne.
  generalize (map_to_list (buckets db)). intros l.
  induction l as [|kv l IH]; simpl in *; [done|].
  destruct (String.eqb (bucket_type (snd kv)) type); simpl; by rewrite IH.
Qed.

Lemma toQ_sumBalances_acc (l : list (N * BucketRow)) acc :
  (toQ (foldl (fun liquidity bucket => Add liquidity (Bucket.CurrentBalance bucket))
              acc (List.map (fun kv => toBucket (fst kv) (snd kv)) l))
   == toQ acc + Qsum (List.map (fun kv => toQ (current_balance (snd kv))) l))%Q.
Proof.
  revert acc. induction l as [|kv l IH]; intros acc; simpl.
  - ring.
  - rewrite IH, toQ_Add. simpl. ring.
Qed.

Lemma toQ_sumMarketValues_acc db (l : list (N * BucketRow)) acc :
  (toQ (foldl (fun equity bucket =>
                 match MarketValueRepo_GetLatest db (Bucket.ID bucket) with
                 | Err _ => equity
                 | Ok marketValueEntry =>
                     Add equity (MarketValueHistory.MarketValue marketValueEntry)
                 end)
              acc (List.map (fun kv => toBucket (fst kv) (snd kv)) l))
   == toQ acc + Qsum (List.map (fun kv => latestValue db (fst kv)) l))%Q.
Proof.
  revert acc. induction l as [|kv l IH]; intros acc; simpl.
  - ring.
  - rewrite IH. unfold latestValue at 2.
    destruct (MarketValueRepo_GetLatest db (fst kv)); rewrite ?toQ_Add; ring.
Qed.

(** C8.  [GetNetWorth] returns Total = Liquidity + Equity, where Liquidity
    is the sum of the balances of the PHYSICAL buckets and of nothing
    else, and Equity is the sum over the EQUITY buckets of the value of a
    latest market-value point of the bucket, a bucket without any point
    adding exactly 0. *)
Theorem C8_net_worth (db : DB) (r : NetWorthResult) :
  GetNetWorth db = Ok r ->
  Total r = Add (Liquidity r) (Equity r)
  /\ (toQ (Total r) == toQ (Liquidity r) + toQ (Equity r))%Q
  /\ (toQ (Liquidity r)
      == Qsum (List.map (fun kv => toQ (current_balance (snd kv)))
                        (bucketsOfType db BucketTypePhysical)))%Q
  /\ (exists contribution : UUID -> Q,
        (forall kv, In kv (bucketsOfType db BucketTypeEquity) ->
           (exists row,
              isLatest db (fst kv) row
              /\ (contribution (fst kv)
                  == toQ (MarketValueHistory.MarketValue row))%Q)
           \/ (hasNoPoint db (fst kv) /\ (contribution (fst kv) == 0)%Q))
        /\ (toQ (Equity r)
            == Qsum (List.map (fun kv => contribution (fst kv))
                              (bucketsOfType db BucketTypeEquity)))%Q).
Proof.
  unfold GetNetWorth. intros [= <-]. cbn [Total Liquidity Equity].
  split; [done|]. split; [apply toQ_Add|]. split.
  - unfold sumBalances. rewrite BucketRepo_List_spec by done.
    rewrite toQ_sumBalances_acc, toQ_Zero. ring.
  - exists (latestValue db). split.
    + intros kv _. apply latestValue_spec.
    + unfold sumMarketValues. rewrite BucketRepo_List_spec by done.
      rewrite toQ_sumMarketValues_acc, toQ_Zero. ring.
Qed.

Lemma C8_net_worth_witness :
  exists r,
    GetNetWorth portfolioDB = Ok r
    /\ Total r = Add (Liquidity r) (Equity r)
    /\ Liquidity r = NewFromInt 1000
    /\ Equity r = NewFromInt 650.
Proof.
  eexists.
  assert (H : GetNetWorth portfolioDB = Ok _) by (vm_compute; reflexivity).
  split; [exact H|].
  split; [exact (proj1 (C8_net_worth _ _ H))|].
  split; reflexivity.
Defined.

(** C9.  For an existing bucket and a value > 0, [UpdateMarketValue]
    appends exactly one market-value point, carrying that value and the
    current time, creates no transaction and changes no bucket, hence no
    balance; the new point is the bucket's latest when the clock is ahead
    of the bucket's older points.  For the EQUITY bucket Tesla with
    balance 0, after an update to 650 the equity is 650 and the balance
    is still 0. *)
Theorem C9_update_market_value (env : Env) (db : DB) (bucketID : UUID)
                               (amount : Decimal) :
  is_Some (buckets db !! bucketID) ->
  GreaterThan amount Zero = true ->
  exists entry db',
    UpdateMarketValue env db bucketID amount = (Ok entry, db')
    /\ MarketValueHistory.BucketID entry = bucketID
    /\ MarketValueHistory.MarketValue entry = amount
    /\ MarketValueHistory.Date entry = now env
    /\ market_value_history db' = market_value_history db ++ [entry]
    /\ transactions db' = transactions db
    /\ buckets db' = buckets db
    /\ (forall id, balanceOf db' id = balanceOf db id)
    /\ ((forall row, In row (market_value_history db) ->
                     MarketValueHistory.BucketID row = bucketID ->
                     MarketValueHistory.Date row < now env) ->
        MarketValueRepo_GetLatest db' bucketID = Ok entry)
    /\ (exists tesla db5 r,
          UpdateMarketValue testEnv teslaDB 5 (NewFromInt 650) = (Ok tesla, db5)
          /\ GetNetWorth db5 = Ok r
          /\ Equity r = NewFromInt 650
          /\ balanceOf teslaDB 5%N = Some (NewFromInt 0)
          /\ balanceOf db5 5%N = Some (NewFromInt 0)).
Proof.
  intros [row Hrow] Hpos.
  unfold UpdateMarketValue, MarketValueRepo_Add, BucketRepo_GetByID.
  cbn [MarketValueHistory.BucketID].
  rewrite validate_claims.GreaterThan_LessThanOrEqual in Hpos.
  apply negb_true_iff in Hpos. rewrite Hpos, Hrow.
  eexists _, _. split; [reflexivity|].
  cbn [MarketValueHistory.BucketID MarketValueHistory.MarketValue
       MarketValueHistory.Date market_value_history transactions buckets].
  repeat (split; [reflexivity|]).
  split.
  - intros Hnew. unfold MarketValueRepo_GetLatest, latestRow.
    cbn [market_value_history]. rewrite List.filter_app, foldl_app.
    cbn [List.filter MarketValueHistory.BucketID]. rewrite N.eqb_refl.
    cbn [foldl].
    set (rows := List.filter _ (market_value_history db)).
    pose proof (foldl_laterOf rows None) as H.
    destruct (foldl laterOf None rows) as [best|]; [|done].
    destruct H as ([Hin|Hin] & _); [discriminate|].
    apply List.filter_In in Hin as [Hin Hb]. apply N.eqb_eq in Hb.
    specialize (Hnew best Hin Hb). unfold laterOf.
    cbn [MarketValueHistory.Date].
    apply Z.ltb_lt in Hnew. by rewrite Hnew.
  - eexists _, _, _. split; [vm_compute; reflexivity|].
    split; [vm_compute; reflexivity|]. repeat split; vm_compute; reflexivity.
Qed.

Lemma C9_update_market_value_witness :
  exists entry db',
    UpdateMarketValue testEnv teslaDB 5 (NewFromInt 650) = (Ok entry, db')
    /\ MarketValueHistory.MarketValue entry = NewFromInt 650
    /\ market_value_history db' = market_value_history teslaDB ++ [entry]
    /\ buckets db' = buckets teslaDB.
Proof.
  destruct (C9_update_market_value testEnv teslaDB 5 (NewFromInt 650))
    as (entry & db' & H1 & _ & H3 & _ & H5 & _ & H7 & _).
  - vm_compute. by eexists.
  - reflexivity.
  - exists entry, db'. repeat split; assumption.
Defined.

End networth_claims.

(** ** The inflow service *)

Module inflow_claims.
Import decimal_facts storage_facts validate_claims.
Import inflow.

(** Among entries of valid layer and direction, one amount that is not
    positive makes the loop of [Validate] fail on an amount. *)
Lemma separateEntries_amount entries p v :
  Forall validShape entries -> Exists notPositive entries ->
  separateEntries entries p v = Err ErrEntryAmount.
Proof.
  intros Hshape. revert p v.
  induction Hshape as [|e entries [Hl Ht] _ IH]; intros p v Hex.
  - inversion Hex.
  - simpl.
    assert (Hlayer :
              (if String.eqb (TransactionEntry.Layer e) LayerPhysical
               then Ok (p ++ [e], v)
               else if String.eqb (TransactionEntry.Layer e) LayerVirtual
                    then Ok (p, v ++ [e])
                    else Err ErrEntryLayer)
              = Ok (if String.eqb (TransactionEntry.Layer e) LayerPhysical
                    then (p ++ [e], v) else (p, v ++ [e]))).
    { destruct Hl as [-> | ->]; reflexivity. }
    rewrite Hlayer. simpl.
    destruct (LessThanOrEqual (TransactionEntry.Amount e) Zero) eqn:Ha; [done|].
    assert (Htype :
              negb (String.eqb (TransactionEntry.Type_ e) EntryTypeDebit)
              && negb (String.eqb (TransactionEntry.Type_ e) EntryTypeCredit)
              = false).
    { destruct Ht as [-> | ->]; reflexivity. }
    rewrite Htype. apply IH.
    inversion Hex as [? ? Hbad|]; subst; [|done].
    unfold notPositive in Hbad. congruence.
Qed.

Lemma Validate_amount (tx : Transaction.t) :
  Forall validShape (Transaction.Entries tx) ->
  Exists notPositive (Transaction.Entries tx) ->
  Validate tx = Err ErrEntryAmount.
Proof.
  intros Hshape Hex. unfold Validate.
  rewrite (separateEntries_amount _ _ _ Hshape Hex).
  destruct (Transaction.Entries tx); [inversion Hex|done].
Qed.

Lemma virtualDebits_shape env txID i targets :
  Forall validShape (virtualDebits env txID i targets).
Proof.
  revert i. induction targets as [|[k a] targets IH]; intros i; simpl;
    constructor; [|apply IH].
  split; [by right|by left].
Qed.

Lemma virtualDebits_In env txID i targets k a :
  In (k, a) targets ->
  exists e, In e (virtualDebits env txID i targets)
            /\ TransactionEntry.BucketID e = k
            /\ TransactionEntry.Amount e = a
            /\ TransactionEntry.Type_ e = EntryTypeDebit
            /\ TransactionEntry.Layer e = LayerVirtual.
Proof.
  revert i. induction targets as [|[k' a'] targets IH]; intros i; simpl; [done|].
  intros [[= -> ->]|Hin].
  - eexists. split; [by left|]. done.
  - destruct (IH (S i) Hin) as (e & He & Hrest).
    exists e. split; [by right|done].
Qed.

Lemma inflowEntries_rejected env input parent (allocation : gmap N Decimal)
                             target share tx :
  allocation !! target = Some share ->
  Equal share Zero = true ->
  Transaction.Entries tx = inflowEntries env input parent allocation ->
  Validate tx = Err ErrEntryAmount.
Proof.
  intros Hshare Hzero Hentries.
  apply Validate_amount; rewrite Hentries; unfold inflowEntries.
  - constructor; [split; [by left|by left]|].
    constructor; [split; [by left|by right]|].
    apply Forall_app. split; [apply virtualDebits_shape|].
    constructor; [split; [by right|by right]|constructor].
  - apply Exists_cons_tl, Exists_cons_tl, Exists_app. left.
    apply List.Exists_exists.
    destruct (virtualDebits_In env (newUUID env 0) 3 (map_to_list allocation)
                target share) as (e & He & _ & Ha & _).
    { apply list_elem_of_In, elem_of_map_to_list, Hshare. }
    exists e. split; [done|]. unfold notPositive. rewrite Ha.
    unfold Equal in Hzero. unfold LessThanOrEqual.
    by destruct (Cmp share Zero).
Qed.

Lemma checkTargets_ok db parent (targets : list (N * Decimal)) :
  (forall k a, In (k, a) targets ->
               typeOf db k = Some BucketTypeVirtual
               /\ parentOf db k = Some parent) ->
  checkTargets db parent targets = Ok tt.
Proof.
  induction targets as [|[k a] targets IH]; intros H; simpl; [done|].
  destruct (H k a (or_introl eq_refl)) as [Ht Hp].
  unfold typeOf, parentOf in Ht, Hp. unfold BucketRepo_GetByID.
  destruct (buckets db !! k) as [row|]; [|discriminate].
  simpl in *. injection Ht as ->. rewrite Hp. simpl.
  rewrite N.eqb_refl. simpl. apply IH. intros k' a' Hin.
  apply (H k' a'). by right.
Qed.

(** With a zero share in the allocation, the external branch fails. *)
Lemma buildExternalInflow_zero env db input rule allocation target share :
  SplitRuleRepo_GetBySourceBucketID db (SourceBucketID input) = Ok rule ->
  CalculateAllocation (Amount input) (SplitRule.Items rule) = Ok allocation ->
  allocation !! target = Some share ->
  Equal share Zero = true ->
  (exists msg, buildExternalInflow env db input = Err msg)
  /\ (forall parent,
        targetsIn db parent rule allocation ->
        buildExternalInflow env db input = Err ErrEntryAmount).
Proof.
  intros Hrule Halloc Hshare Hzero.
  unfold buildExternalInflow. rewrite Hrule. simpl. rewrite Halloc. simpl.
  destruct (SplitRule.Items rule) as [|first rest] eqn:Hitems.
  { unfold CalculateAllocation in Halloc.
    destruct (LessThanOrEqual _ _); discriminate. }
  split.
  - destruct (BucketRepo_GetByID db (SplitRuleItem.TargetBucketID first))
      as [fb|]; simpl; [|by eexists].
    destruct (negb _); [by eexists|].
    destruct (Bucket.ParentPhysicalBucketID fb) as [parent|]; [|by eexists].
    destruct (checkTargets db parent (map_to_list allocation)); simpl;
      [|by eexists].
    rewrite (inflowEntries_rejected env input parent allocation target share);
      [by eexists|done|done|reflexivity].
  - intros parent Htargets.
    destruct (Htargets (SplitRuleItem.TargetBucketID first)) as [Ht Hp].
    { right. by exists first, rest. }
    unfold typeOf, parentOf in Ht, Hp. unfold BucketRepo_GetByID.
    destruct (buckets db !! SplitRuleItem.TargetBucketID first) as [row|];
      [|discriminate].
    simpl in *. injection Ht as ->. rewrite Hp. simpl.
    rewrite checkTargets_ok.
    + simpl.
      by rewrite (inflowEntries_rejected env input parent allocation target share).
    + intros k a Hin. apply Htargets. left.
      apply list_elem_of_In, elem_of_map_to_list in Hin. by rewrite Hin.
Qed.

(** C10.  When the allocator assigns exactly zero to some target of an
    external inflow, [RecordInflow] returns an error and leaves the
    database as it was: no transaction is persisted and no balance
    moves.  When all the checks before it pass (an INCOME source, VIRTUAL
    targets in one physical bucket), the candidate transaction holds a
    VIRTUAL-layer DEBIT of that zero amount, [Validate] rejects it because
    an entry amount must be strictly positive, and that is the error
    returned. *)
Theorem C10_zero_share_rejected (env : Env) (db : DB) (input : RecordInflowInput)
                                (rule : SplitRule.t)
                                (allocation : gmap N Decimal)
                                (target : UUID) (share : Decimal) :
  IsExternal input = true ->
  SplitRuleRepo_GetBySourceBucketID db (SourceBucketID input) = Ok rule ->
  CalculateAllocation (Amount input) (SplitRule.Items rule) = Ok allocation ->
  allocation !! target = Some share ->
  Equal share Zero = true ->
  (exists msg, RecordInflow env db input = (Err msg, db))
  /\ (forall parent,
        typeOf db (SourceBucketID input) = Some BucketTypeIncome ->
        targetsIn db parent rule allocation ->
        (exists e,
           In e (inflowEntries env input parent allocation)
           /\ TransactionEntry.BucketID e = target
           /\ TransactionEntry.Amount e = share
           /\ TransactionEntry.Type_ e = EntryTypeDebit
           /\ TransactionEntry.Layer e = LayerVirtual)
        /\ (forall tx,
              Transaction.Entries tx = inflowEntries env input parent allocation ->
              Validate tx = Err ErrEntryAmount)
        /\ RecordInflow env db input = (Err ErrEntryAmount, db)).
Proof.
  intros Hext Hrule Halloc Hshare Hzero.
  destruct (buildExternalInflow_zero env db input rule allocation target share
              Hrule Halloc Hshare Hzero) as [[msg Hmsg] Hexact].
  split.
  - assert (Hb : exists m, buildInflow env db input = Err m).
    { unfold buildInflow. rewrite Hext, Hmsg.
      destruct (LessThanOrEqual _ _); [by eexists|].
      destruct (BucketRepo_GetByID db (SourceBucketID input)); simpl;
        [|by eexists].
      destruct (negb _); eexists; reflexivity. }
    destruct Hb as [m Hb]. exists m. unfold RecordInflow. by rewrite Hb.
  - intros parent Hsrc Htargets. split; [|split].
    + destruct (virtualDebits_In env (newUUID env 0) 3 (map_to_list allocation)
                  target share) as (e & He & Hrest).
      { apply list_elem_of_In, elem_of_map_to_list, Hshare. }
      exists e. split; [|done]. unfold inflowEntries.
      cbn [app In]. right. right. apply List.in_or_app. left. exact He.
    + intros tx Htx.
      by apply (inflowEntries_rejected env input parent allocation target share).
    + unfold RecordInflow, buildInflow. rewrite Hext, (Hexact parent Htargets).
      assert (Hpos : LessThanOrEqual (Amount input) Zero = false).
      { unfold CalculateAllocation in Halloc.
        by destruct (LessThanOrEqual _ _). }
      rewrite Hpos. unfold typeOf in Hsrc. unfold BucketRepo_GetByID.
      destruct (buckets db !! SourceBucketID input) as [row|]; [|discriminate].
      simpl in *. by injection Hsrc as ->.
Qed.

Lemma C10_zero_share_rejected_witness :
  exists rule allocation,
    SplitRuleRepo_GetBySourceBucketID zeroPercentDB 10 = Ok rule
    /\ CalculateAllocation (NewFromInt 2000) (SplitRule.Items rule)
       = Ok allocation
    /\ allocation !! 12%N = Some (New 0 (-16))
    /\ RecordInflow testEnv zeroPercentDB salaryInflow
       = (Err ErrEntryAmount, zeroPercentDB).
Proof.
  eexists _, _.
  assert (H1 : SplitRuleRepo_GetBySourceBucketID zeroPercentDB 10 = Ok _)
    by (vm_compute; reflexivity).
  assert (H2 : CalculateAllocation (NewFromInt 2000)
                 (SplitRule.Items
                    (SplitRule.Make 400 "Salary" 10
                       (sortSlice
                          [ SplitRuleItem.Make 401 400 11 SplitRuleItemTypeFixed
                                               (NewFromInt 500) 1;
                            SplitRuleItem.Make 402 400 12 SplitRuleItemTypePercent
                                               (NewFromInt 0) 2;
                            SplitRuleItem.Make 403 400 13
                                               SplitRuleItemTypeRemainder Zero 3 ])))
               = Ok _) by (vm_compute; reflexivity).
  assert (H3 : ({[ 11%N := New 500 0; 12%N := New 0 (-16);
                   13%N := New 1500 (-16) ]} : gmap N Decimal) !! 12%N
               = Some (New 0 (-16))) by (vm_compute; reflexivity).
  split; [exact H1|]. split; [exact H2|]. split; [exact H3|].
  destruct (C10_zero_share_rejected testEnv zeroPercentDB salaryInflow _ _
              12%N (New 0 (-16)) eq_refl H1 H2 H3 eq_refl) as [_ H].
  apply (H 1%N); [reflexivity|].
  intros target Htarget.
  assert (Hin : target = 11%N \/ target = 12%N \/ target = 13%N).
  { destruct Htarget as [[a Ha]|(first & rest & Hitems & ->)].
    - apply elem_of_map_to_list, list_elem_of_In in Ha. vm_compute in Ha.
      destruct Ha as [Ha|[Ha|[Ha|Ha]]]; [| | |destruct Ha];
        inversion Ha; subst; auto.
    - injection Hitems as <- _. by left. }
  destruct Hin as [-> | [-> | ->]]; split; reflexivity.
Defined.

End inflow_claims.

(** ** The trigger and the transaction store *)

Module ledger_facts.
Import decimal_facts storage_facts validate_claims.

Lemma Qsum_perm (l l' : list Q) : l ≡ₚ l' -> (Qsum l == Qsum l')%Q.
Proof.
  induction 1 as [|x l l' _ IH|x y l|l l' l'' _ IH1 _ IH2]; simpl.
  - reflexivity.
  - by rewrite IH.
  - ring.
  - by rewrite IH1.
Qed.

Lemma Qsum_app (l l' : list Q) : (Qsum (l ++ l') == Qsum l + Qsum l')%Q.
Proof. induction l as [|x l IH]; simpl; [ring|]. rewrite IH. ring. Qed.

(** One firing of the trigger, seen from one bucket. *)
Lemma update_row bs entry id row :
  bs !! id = Some row ->
  exists row',
    update_bucket_balance bs entry !! id = Some row'
    /\ name row' = name row
    /\ bucket_type row' = bucket_type row
    /\ parent_physical_bucket_id row' = parent_physical_bucket_id row
    /\ (toQ (current_balance row')
        == toQ (current_balance row)
           + (if N.eqb (TransactionEntry.BucketID entry) id
              then signedAmount entry else 0))%Q.
Proof.
  intros Hrow. unfold update_bucket_balance, signedAmount, hasType.
  change "DEBIT"%string with EntryTypeDebit.
  change "CREDIT"%string with EntryTypeCredit.
  destruct (N.eqb_spec (TransactionEntry.BucketID entry) id) as [->|Hne].
  - destruct (String.eqb (TransactionEntry.Type_ entry) EntryTypeDebit);
      [|destruct (String.eqb (TransactionEntry.Type_ entry) EntryTypeCredit)];
      rewrite ?lookup_alter_eq, Hrow; simpl; eexists; split; try reflexivity;
      repeat (split; [reflexivity|]); simpl;
      rewrite ?toQ_Add, ?toQ_Sub; ring.
  - exists row. split.
    + destruct (String.eqb (TransactionEntry.Type_ entry) EntryTypeDebit);
        [|destruct (String.eqb (TransactionEntry.Type_ entry) EntryTypeCredit)];
        rewrite ?lookup_alter_ne; done.
    + repeat (split; [reflexivity|]). ring.
Qed.

Lemma foldl_update_row entries bs id row :
  bs !! id = Some row ->
  exists row',
    foldl update_bucket_balance bs entries !! id = Some row'
    /\ name row' = name row
    /\ bucket_type row' = bucket_type row
    /\ parent_physical_bucket_id row' = parent_physical_bucket_id row
    /\ (toQ (current_balance row')
        == toQ (current_balance row) + postedOn id entries)%Q.
Proof.
  revert bs row. induction entries as [|e entries IH]; intros bs row Hrow.
  - exists row. split; [done|]. repeat (split; [reflexivity|]).
    unfold postedOn. simpl. ring.
  - destruct (update_row bs e id row Hrow) as (row1 & H1 & Hn1 & Ht1 & Hp1 & Hb1).
    destruct (IH _ _ H1) as (row' & H' & Hn & Ht & Hp & Hb).
    exists row'. simpl. split; [exact H'|].
    split; [congruence|]. split; [congruence|]. split; [congruence|].
    rewrite Hb, Hb1. unfold postedOn. cbn [List.filter].
    destruct (N.eqb (TransactionEntry.BucketID e) id); simpl; ring.
Qed.

Lemma update_None bs entry id :
  bs !! id = None -> update_bucket_balance bs entry !! id = None.
Proof.
  intros H. pose proof (update_shape bs entry id) as Hs. rewrite H in Hs.
  by destruct (update_bucket_balance bs entry !! id).
Qed.

Lemma foldl_update_None entries bs id :
  bs !! id = None -> foldl update_bucket_balance bs entries !! id = None.
Proof.
  revert bs. induction entries as [|e entries IH]; intros bs H; simpl; [done|].
  by apply IH, update_None.
Qed.

(** The insertions fail exactly on an entry whose bucket is missing. *)
Lemma insertEntries_fails entries bs :
  (exists msg, insertEntries bs entries = Err msg)
  <-> exists e, In e entries /\ bs !! TransactionEntry.BucketID e = None.
Proof.
  revert bs. induction entries as [|e entries IH]; intros bs; simpl.
  - split; [intros [? ?]; discriminate|intros (? & [] & _)].
  - unfold insertEntry.
    destruct (bs !! TransactionEntry.BucketID e) as [row|] eqn:He; simpl.
    + rewrite IH. split.
      * intros (e' & Hin & Hnone). exists e'. split; [by right|].
        destruct (bs !! TransactionEntry.BucketID e') as [row'|] eqn:He';
          [|done].
        destruct (update_row bs e _ row' He') as (r & Hr & _). congruence.
      * intros (e' & [<-|Hin] & Hnone); [congruence|].
        exists e'. split; [done|]. by apply update_None.
    + split; [|by eexists]. intros _. exists e. split; [by left|done].
Qed.

(** X1.  [TransactionRepo.Create] is all or nothing.  If an entry names a
    bucket that does not exist the call fails, and a failed call leaves
    the database as it was, whatever entries came before the offending
    one; a successful call appends the transaction and changes neither
    the set of buckets nor their names, types and parents, nor the split
    rules and the market values. *)
Theorem X1_create_atomic (db : DB) (tx : Transaction.t) :
  ((exists e, In e (Transaction.Entries tx)
              /\ buckets db !! TransactionEntry.BucketID e = None) ->
   exists msg, TransactionRepo_Create db tx = (Err msg, db))
  /\ (forall msg db', TransactionRepo_Create db tx = (Err msg, db') -> db' = db)
  /\ (forall db',
        TransactionRepo_Create db tx = (Ok tt, db') ->
        transactions db' = transactions db ++ [tx]
        /\ split_rules db' = split_rules db
        /\ market_value_history db' = market_value_history db
        /\ forall id,
             (fun row => (name row, bucket_type row,
                          parent_physical_bucket_id row))
               <$> buckets db' !! id
             = (fun row => (name row, bucket_type row,
                            parent_physical_bucket_id row))
                 <$> buckets db !! id).
Proof.
  split; [|split].
  - rewrite <- insertEntries_fails. unfold TransactionRepo_Create.
    destruct (insertEntries _ _) as [bs|msg].
    + intros [? ?]; discriminate.
    + intros _. by eexists.
  - unfold TransactionRepo_Create. intros msg db'.
    destruct (insertEntries _ _); [discriminate|]. by intros [= _ <-].
  - intros db' H. apply TransactionRepo_Create_ok in H as (bs & Hins & ->).
    cbn [transactions split_rules market_value_history buckets].
    repeat (split; [reflexivity|]).
    intros id. apply insertEntries_foldl in Hins. subst bs.
    destruct (buckets db !! id) as [row|] eqn:Hrow.
    + destruct (foldl_update_row (Transaction.Entries tx) _ id row Hrow)
        as (row' & -> & Hn & Ht & Hp & _).
      simpl. by rewrite Hn, Ht, Hp.
    + by rewrite foldl_update_None.
Qed.

(** X2.  After a successful [TransactionRepo.Create], the running balance
    of every bucket has moved by exactly what the transaction's entries
    post on it: plus its DEBIT amounts, minus its CREDIT amounts. *)
Theorem X2_balance_reconstruction (db db' : DB) (tx : Transaction.t)
                                  (id : UUID) (before : Decimal) :
  TransactionRepo_Create db tx = (Ok tt, db') ->
  balanceOf db id = Some before ->
  exists after,
    balanceOf db' id = Some after
    /\ (toQ after == toQ before + postedOn id (Transaction.Entries tx))%Q.
Proof.
  intros H Hbal. apply TransactionRepo_Create_ok in H as (bs & Hins & ->).
  apply insertEntries_foldl in Hins. subst bs.
  unfold balanceOf in *. cbn [buckets].
  destruct (buckets db !! id) as [row|] eqn:Hrow; [|discriminate].
  injection Hbal as <-.
  destruct (foldl_update_row (Transaction.Entries tx) _ id row Hrow)
    as (row' & -> & _ & _ & _ & Hb).
  by exists (current_balance row').
Qed.

Lemma X2_balance_reconstruction_witness :
  exists tx db' after,
    expense.LogExpense testEnv standardDB standardExpense = (Ok tx, db')
    /\ balanceOf db' 3%N = Some after
    /\ (toQ after
        == toQ (NewFromInt 0) + postedOn 3%N (Transaction.Entries tx))%Q.
Proof.
  destruct (expense.LogExpense testEnv standardDB standardExpense)
    as [[tx|msg] db'] eqn:H; [|vm_compute in H; discriminate].
  destruct (expense_claims.LogExpense_ok _ _ _ _ _ H) as [_ Hc].
  destruct (X2_balance_reconstruction standardDB db' tx 3%N (NewFromInt 0) Hc)
    as (after & Ha & Hq); [reflexivity|].
  by exists tx, db', after.
Defined.

(** The trigger moves the sum of all balances by the entry's signed
    amount. *)
Lemma alter_as_insert (bs : gmap N BucketRow) f id row :
  bs !! id = Some row -> alter f id bs = <[id := f row]> (delete id bs).
Proof.
  intros H. apply map_eq. intros j.
  destruct (decide (id = j)) as [->|Hne].
  - by rewrite lookup_alter_eq, lookup_insert_eq, H.
  - by rewrite lookup_alter_ne, lookup_insert_ne, lookup_delete_ne.
Qed.

Lemma totalBalance_alter (bs : gmap N BucketRow) f id row :
  bs !! id = Some row ->
  (totalBalance (alter f id bs)
   == totalBalance bs - toQ (current_balance row)
      + toQ (current_balance (f row)))%Q.
Proof.
  intros H. unfold totalBalance.
  rewrite (alter_as_insert _ _ _ _ H).
  rewrite (Qsum_perm _ _ (Permutation_map _
             (map_to_list_insert (delete id bs) id (f row)
                (lookup_delete_eq bs id)))).
  rewrite <- (Qsum_perm _ _ (Permutation_map _ (map_to_list_delete bs id row H))).
  simpl. ring.
Qed.

Lemma totalBalance_update bs entry row :
  bs !! TransactionEntry.BucketID entry = Some row ->
  (totalBalance (update_bucket_balance bs entry)
   == totalBalance bs + signedAmount entry)%Q.
Proof.
  intros H. unfold update_bucket_balance, signedAmount, hasType.
  change "DEBIT"%string with EntryTypeDebit.
  change "CREDIT"%string with EntryTypeCredit.
  destruct (String.eqb (TransactionEntry.Type_ entry) EntryTypeDebit);
    [|destruct (String.eqb (TransactionEntry.Type_ entry) EntryTypeCredit)];
    rewrite ?(totalBalance_alter _ _ _ _ H); simpl;
    rewrite ?toQ_Add, ?toQ_Sub; ring.
Qed.

Lemma totalBalance_insertEntries entries bs bs' :
  insertEntries bs entries = Ok bs' ->
  (totalBalance bs' == totalBalance bs + Qsum (List.map signedAmount entries))%Q.
Proof.
  revert bs. induction entries as [|e entries IH]; intros bs; simpl.
  - intros [= <-]. ring.
  - unfold insertEntry.
    destruct (bs !! TransactionEntry.BucketID e) as [row|] eqn:He; [|done].
    simpl. intros H. rewrite (IH _ H), (totalBalance_update _ _ _ He). ring.
Qed.

Lemma toQ_foldl_Add_list (l : list Decimal) acc :
  (toQ (foldl Add acc l) == toQ acc + Qsum (List.map toQ l))%Q.
Proof.
  revert acc. induction l as [|d l IH]; intros acc; simpl; [ring|].
  rewrite IH, toQ_Add. ring.
Qed.

Lemma toQ_layerSum layer type entries :
  (toQ (layerSum layer type entries)
   == Qsum (List.map (fun e => toQ (TransactionEntry.Amount e))
              (List.filter (fun e => inLayer layer e && hasType type e)
                           entries)))%Q.
Proof.
  unfold layerSum, sumOf. rewrite toQ_foldl_Add_list, List.map_map.
  rewrite toQ_NewFromInt. change (inject_Z 0) with 0%Q. ring.
Qed.

Lemma filtered_sum_cons (keep : TransactionEntry.t -> bool) e entries :
  (Qsum (List.map (fun e => toQ (TransactionEntry.Amount e))
           (List.filter keep (e :: entries)))
   == (if keep e then toQ (TransactionEntry.Amount e) else 0)
      + Qsum (List.map (fun e => toQ (TransactionEntry.Amount e))
                (List.filter keep entries)))%Q.
Proof. simpl. destruct (keep e); simpl; ring. Qed.

(** The signed amounts of well-formed entries, layer by layer. *)
Lemma signed_by_layer entries :
  Forall entryWellFormed entries ->
  (Qsum (List.map signedAmount entries)
   == (toQ (layerSum LayerPhysical EntryTypeDebit entries)
       - toQ (layerSum LayerPhysical EntryTypeCredit entries))
      + (toQ (layerSum LayerVirtual EntryTypeDebit entries)
         - toQ (layerSum LayerVirtual EntryTypeCredit entries)))%Q.
Proof.
  rewrite !toQ_layerSum.
  induction 1 as [|e entries (_ & Ht & Hl) _ IH]; [simpl; ring|].
  rewrite !filtered_sum_cons. cbn [List.map Qsum foldr]. rewrite IH.
  unfold signedAmount, inLayer, hasType.
  destruct Hl as [Hl|Hl], Ht as [Ht|Ht]; rewrite Hl, Ht; simpl; ring.
Qed.

Lemma Validate_ok_inv (t : Transaction.t) :
  Validate t = Ok tt ->
  Forall entryWellFormed (Transaction.Entries t)
  /\ layerBalanced LayerPhysical (Transaction.Entries t)
  /\ layerBalanced LayerVirtual (Transaction.Entries t).
Proof.
  unfold Validate. intros H.
  destruct (Transaction.Entries t) as [|e0 rest] eqn:E; [discriminate|].
  rewrite <- E in *.
  destruct (separateEntries (Transaction.Entries t) [] []) as [layers|]
    eqn:Hsep; [|discriminate].
  assert (Hwf := separateEntries_ok _ _ _ _ Hsep).
  rewrite (separateEntries_wf _ _ _ Hwf) in Hsep. injection Hsep as <-.
  simpl in H. split; [exact Hwf|].
  assert (Hlayer : forall layer,
            validateLayerBalance
              (List.filter (inLayer layer) (Transaction.Entries t)) layer
            = Ok tt -> layerBalanced layer (Transaction.Entries t)).
  { intros layer Hv.
    destruct (List.filter (inLayer layer) (Transaction.Entries t)) eqn:Hf.
    - unfold layerBalanced, layerSum.
      rewrite <- !List_filter_filter, Hf. reflexivity.
    - rewrite <- Hf in Hv.
      apply (validateLayerBalance_layer _ _ Hwf) in Hv. apply Hv.
      assert (Hin : In t0 (List.filter (inLayer layer) (Transaction.Entries t)))
        by (rewrite Hf; by left).
      apply List.filter_In in Hin as [Hin Hl]. exists t0.
      split; [done|]. by apply String.eqb_eq. }
  destruct (validateLayerBalance _ LayerPhysical) as [[]|] eqn:HP;
    [|discriminate].
  destruct (validateLayerBalance _ LayerVirtual) as [[]|] eqn:HV;
    [|discriminate].
  split; by apply Hlayer.
Qed.

(** X3.  Double entry conserves money: persisting a transaction that
    passes [Validate] leaves the sum of all running balances
    unchanged. *)
Theorem X3_validated_posting_conserves (db db' : DB) (tx : Transaction.t) :
  Validate tx = Ok tt ->
  TransactionRepo_Create db tx = (Ok tt, db') ->
  (totalBalance (buckets db') == totalBalance (buckets db))%Q.
Proof.
  intros Hv Hc. apply TransactionRepo_Create_ok in Hc as (bs & Hins & ->).
  cbn [buckets]. rewrite (totalBalance_insertEntries _ _ _ Hins).
  destruct (Validate_ok_inv _ Hv) as (Hwf & HP & HV).
  rewrite (signed_by_layer _ Hwf).
  apply Equal_toQ in HP, HV. rewrite HP, HV. ring.
Qed.

Lemma X3_validated_posting_conserves_witness :
  exists tx db',
    inflow.RecordInflow testEnv salaryDB salaryInflow = (Ok tx, db')
    /\ (totalBalance (buckets db') == totalBalance (buckets salaryDB))%Q.
Proof.
  destruct (inflow.RecordInflow testEnv salaryDB salaryInflow)
    as [[tx|msg] db'] eqn:H; [|vm_compute in H; discriminate].
  exists tx, db'. split; [reflexivity|].
  unfold inflow.RecordInflow in H.
  destruct (inflow.buildInflow testEnv salaryDB salaryInflow) as [tx0|] eqn:Hb;
    [|vm_compute in Hb; discriminate].
  destruct (TransactionRepo_Create salaryDB tx0) as [[[]|] db0] eqn:Hc;
    [|discriminate].
  injection H as <- <-.
  apply (X3_validated_posting_conserves _ _ tx0); [|exact Hc].
  assert (Htx : tx0 = tx0) by reflexivity.
  vm_compute in Hb. injection Hb as <-. vm_compute. reflexivity.
Defined.

End ledger_facts.

(** ** The allocator: guards, keys, overflow and item order *)

Module allocation_facts.
Import decimal_facts allocator_facts ledger_facts.

#[local] Instance ascendingPriority_trans : Transitive ascendingPriority.
Proof. intros x y z. unfold ascendingPriority. lia. Qed.

#[local] Instance strictPriority_trans : Transitive strictPriority.
Proof. intros x y z. unfold strictPriority. lia. Qed.

#[local] Instance strictPriority_antisymm : AntiSymm (=) strictPriority.
Proof. intros x y. unfold strictPriority. lia. Qed.

Lemma findRemainderItem_None items :
  (forall i, In i items -> isKind SplitRuleItemTypeRemainder i = false) ->
  findRemainderItem items = None.
Proof.
  induction items as [|x rest IH]; intros H; simpl; [done|].
  change (String.eqb (SplitRuleItem.Type_ x) SplitRuleItemTypeRemainder)
    with (isKind SplitRuleItemTypeRemainder x).
  rewrite (H x) by (by left). apply IH. intros i Hi. apply H. by right.
Qed.

Lemma findRemainderItem_Some items r :
  findRemainderItem items = Some r ->
  In r items /\ isKind SplitRuleItemTypeRemainder r = true.
Proof.
  induction items as [|x rest IH]; simpl; [done|].
  change (String.eqb (SplitRuleItem.Type_ x) SplitRuleItemTypeRemainder)
    with (isKind SplitRuleItemTypeRemainder x).
  destruct (isKind SplitRuleItemTypeRemainder x) eqn:E.
  - intros [= <-]. split; [by left|done].
  - intros H. destruct (IH H). split; [by right|done].
Qed.

Lemma In_sortSlice i items : In i (sortSlice items) <-> In i items.
Proof. rewrite <- !list_elem_of_In. by rewrite sortSlice_perm. Qed.

Lemma CalculateAllocation_nonempty total items :
  LessThanOrEqual total Zero = false -> items <> [] ->
  CalculateAllocation total items = allocateSorted total (sortSlice items).
Proof. intros Hpos Hne. unfold CalculateAllocation. rewrite Hpos. by destruct items. Qed.

Lemma CalculateAllocation_Ok total items m :
  CalculateAllocation total items = Ok m ->
  LessThanOrEqual total Zero = false /\ items <> []
  /\ fixedFit total (fixedOf (sortSlice items)) = true
  /\ exists r, findRemainderItem (sortSlice items) = Some r
               /\ m = withRemainder total (sortSlice items) r.
Proof.
  unfold CalculateAllocation.
  destruct (LessThanOrEqual total Zero); [discriminate|].
  destruct items as [|i items]; [discriminate|].
  rewrite allocateSorted_spec.
  destruct (fixedFit _ _); [|discriminate].
  destruct (findRemainderItem _) as [r|]; [|discriminate].
  destruct (Equal _ total); [|discriminate].
  intros [= <-]. repeat split; try done. by exists r.
Qed.

(** X4.  The guards of [CalculateAllocation], in the order the code takes
    them: a total that is not positive is rejected whatever the items; for
    a positive total an empty item list is rejected; and a list without a
    REMAINDER item never yields an allocation: the call fails with the
    overflow error or with the missing-REMAINDER error. *)
Theorem X4_allocation_guards (total : Decimal) (items : list SplitRuleItem.t) :
  (LessThanOrEqual total Zero = true ->
   CalculateAllocation total items = Err ErrTotalNotPositive)
  /\ (LessThanOrEqual total Zero = false -> items = [] ->
      CalculateAllocation total items = Err ErrEmptyItems)
  /\ (LessThanOrEqual total Zero = false -> items <> [] ->
      (forall i, In i items -> isKind SplitRuleItemTypeRemainder i = false) ->
      CalculateAllocation total items = Err ErrFixedExceeds
      \/ CalculateAllocation total items = Err ErrNoRemainder).
Proof.
  split; [|split].
  - intros H. unfold CalculateAllocation. by rewrite H.
  - intros H ->. unfold CalculateAllocation. by rewrite H.
  - intros Hpos Hne Hno.
    rewrite (CalculateAllocation_nonempty _ _ Hpos Hne), allocateSorted_spec.
    rewrite findRemainderItem_None.
    + destruct (fixedFit _ _); [by right|by left].
    + intros i Hi. apply Hno. by apply In_sortSlice.
Qed.

(** The keys of the assignments. *)
Lemma is_Some_assign (m0 : gmap N Decimal) shares k :
  is_Some (assign m0 shares !! k)
  <-> is_Some (m0 !! k) \/ In k (List.map fst shares).
Proof.
  revert m0. unfold assign.
  induction shares as [|kv rest IH]; intros m0; simpl; [tauto|].
  rewrite IH, lookup_insert_is_Some.
  destruct (decide (fst kv = k)); tauto.
Qed.

Lemma keys_assignedSoFar total sorted k :
  is_Some (assignedSoFar total sorted !! k)
  <-> exists item, In item sorted /\ SplitRuleItem.TargetBucketID item = k
        /\ (isKind SplitRuleItemTypeFixed item = true
            \/ isKind SplitRuleItemTypePercent item = true).
Proof.
  unfold assignedSoFar. rewrite !is_Some_assign, lookup_empty, !List.map_map.
  rewrite !in_map_iff. unfold fixedOf, percentOf. split.
  - intros [[[]%is_Some_None|(f & <- & Hf)]|(p & <- & Hp)].
    + apply filter_In in Hf as [Hin Hk]. exists f. tauto.
    + apply filter_In in Hp as [Hin Hk]. exists p. tauto.
  - intros (item & Hin & <- & [Hk|Hk]).
    + left. right. exists item. split; [done|]. by apply filter_In.
    + right. exists item. split; [done|]. by apply filter_In.
Qed.

Lemma keys_withRemainder total sorted r k :
  is_Some (withRemainder total sorted r !! k)
  <-> exists item, In item (r :: sorted)
        /\ SplitRuleItem.TargetBucketID item = k
        /\ (isKind SplitRuleItemTypeFixed item = true
            \/ isKind SplitRuleItemTypePercent item = true
            \/ item = r).
Proof.
  unfold withRemainder. rewrite lookup_insert_is_Some, keys_assignedSoFar.
  split.
  - intros [<-|[_ (item & Hin & Ht & Hk)]].
    + exists r. split; [by left|]. tauto.
    + exists item. split; [by right|]. tauto.
  - intros (item & Hin & <- & Hk).
    destruct (decide (SplitRuleItem.TargetBucketID r
                      = SplitRuleItem.TargetBucketID item)) as [E|E];
      [by left|right].
    split; [done|]. exists item.
    destruct Hk as [Hk|[Hk| ->]]; [| |done].
    + destruct Hin as [<-|Hin]; [done|]. tauto.
    + destruct Hin as [<-|Hin]; [done|]. tauto.
Qed.

(** In a list sorted by priority the REMAINDER item found is one of
    least priority among the REMAINDER items. *)
Lemma findRemainderItem_least sorted r :
  Sorted ascendingPriority sorted ->
  findRemainderItem sorted = Some r ->
  forall r', In r' sorted -> isKind SplitRuleItemTypeRemainder r' = true ->
             SplitRuleItem.Priority r <= SplitRuleItem.Priority r'.
Proof.
  intros Hs%Sorted_StronglySorted; [|apply _].
  induction Hs as [|x l Hs IH Hall]; simpl; [done|].
  change (String.eqb (SplitRuleItem.Type_ x) SplitRuleItemTypeRemainder)
    with (isKind SplitRuleItemTypeRemainder x).
  destruct (isKind SplitRuleItemTypeRemainder x) eqn:E.
  - intros [= <-] r' [<-|Hin] _; [lia|].
    rewrite Forall_forall in Hall. apply Hall. by apply list_elem_of_In.
  - intros Hfind r' [<-|Hin] Hk; [congruence|]. by apply IH.
Qed.

(** X5.  The buckets of a returned allocation are the targets of the FIXED
    and PERCENT items and the target of one REMAINDER item, one of least
    priority among the REMAINDER items; no other bucket is in the map, and
    a further REMAINDER item gets a share only if it names one of those
    targets. *)
Theorem X5_allocation_keys (total : Decimal) (items : list SplitRuleItem.t)
                           (allocation : gmap N Decimal) :
  CalculateAllocation total items = Ok allocation ->
  exists r,
    In r items /\ isKind SplitRuleItemTypeRemainder r = true
    /\ (forall r', In r' items ->
                   isKind SplitRuleItemTypeRemainder r' = true ->
                   SplitRuleItem.Priority r <= SplitRuleItem.Priority r')
    /\ forall k, is_Some (allocation !! k)
         <-> exists item, In item items
               /\ SplitRuleItem.TargetBucketID item = k
               /\ (isKind SplitRuleItemTypeFixed item = true
                   \/ isKind SplitRuleItemTypePercent item = true
                   \/ item = r).
Proof.
  intros (_ & _ & _ & r & Hr & ->)%CalculateAllocation_Ok.
  exists r.
  destruct (findRemainderItem_Some _ _ Hr) as [Hin Hk].
  apply (proj1 (In_sortSlice _ _)) in Hin. split; [done|]. split; [done|].
  split.
  { intros r' Hin' Hk'.
    apply (findRemainderItem_least _ _ (sortSlice_sorted items) Hr); [|done].
    by apply In_sortSlice. }
  intros k. rewrite keys_withRemainder. split.
  - intros (item & [E|Hi] & Ht & Hkind); exists item.
    + subst item. tauto.
    + apply (proj1 (In_sortSlice _ _)) in Hi. tauto.
  - intros (item & Hi & Ht & Hkind). exists item.
    split; [right; by apply In_sortSlice|]. tauto.
Qed.

Lemma X5_allocation_keys_witness :
  exists r,
    In r churchFootball /\ isKind SplitRuleItemTypeRemainder r = true
    /\ (forall r', In r' churchFootball ->
                   isKind SplitRuleItemTypeRemainder r' = true ->
                   SplitRuleItem.Priority r <= SplitRuleItem.Priority r')
    /\ forall k,
         is_Some (<[11%N := NewFromInt 50]>
                    (<[12%N := New 950000000000000000 (-16)]>
                       (<[13%N := New 8550000000000000000 (-16)]>
                          (∅ : gmap N Decimal)))
                  !! k)
         <-> exists item, In item churchFootball
               /\ SplitRuleItem.TargetBucketID item = k
               /\ (isKind SplitRuleItemTypeFixed item = true
                   \/ isKind SplitRuleItemTypePercent item = true
                   \/ item = r).
Proof.
  apply (X5_allocation_keys (NewFromInt 1000)).
  vm_compute. reflexivity.
Defined.

(** The overflow of the FIXED pass, over the rationals. *)
Lemma not_GreaterThan_toQ a b :
  GreaterThan a b = false <-> (toQ a <= toQ b)%Q.
Proof.
  rewrite <- not_true_iff_false, GreaterThan_toQ.
  split; [apply Qnot_lt_le|apply Qle_not_lt].
Qed.

Lemma not_LessThan_toQ a b :
  LessThan a b = false <-> (toQ b <= toQ a)%Q.
Proof.
  rewrite <- not_true_iff_false, LessThan_toQ.
  split; [apply Qnot_lt_le|apply Qle_not_lt].
Qed.

Lemma not_LessThanOrEqual_toQ a b :
  LessThanOrEqual a b = false <-> (toQ b < toQ a)%Q.
Proof.
  rewrite <- not_true_iff_false, LessThanOrEqual_toQ.
  split; [apply Qnot_le_lt|apply Qlt_not_le].
Qed.

Lemma Qsum_nonneg (qs : list Q) :
  (forall q, In q qs -> (0 <= q)%Q) -> (0 <= Qsum qs)%Q.
Proof.
  induction qs as [|q rest IH]; intros H; simpl; [lra|].
  assert (0 <= q)%Q by (apply H; by left).
  assert (0 <= Qsum rest)%Q by (apply IH; intros; apply H; by right).
  lra.
Qed.

Lemma fixedFit_iff total fs :
  (0 <= toQ total)%Q ->
  (forall f, In f fs -> (0 <= toQ (SplitRuleItem.Value f))%Q) ->
  fixedFit total fs = true
  <-> (Qsum (List.map (fun f => toQ (SplitRuleItem.Value f)) fs) <= toQ total)%Q.
Proof.
  revert total. induction fs as [|f rest IH]; intros total Htot Hnn; simpl.
  - tauto.
  - assert (Hrest : (0 <= Qsum (List.map (fun f => toQ (SplitRuleItem.Value f))
                                         rest))%Q).
    { apply Qsum_nonneg. intros q (g & <- & Hg)%in_map_iff. apply Hnn. by right. }
    destruct (GreaterThan (SplitRuleItem.Value f) total) eqn:E; simpl.
    + apply GreaterThan_toQ in E. split; [done|]. intros H. exfalso. lra.
    + apply not_GreaterThan_toQ in E.
      rewrite IH.
      * rewrite toQ_Sub. split; intros H; lra.
      * rewrite toQ_Sub. lra.
      * intros g Hg. apply Hnn. by right.
Qed.

Lemma fixedTotal_sortSlice items :
  (fixedTotal (sortSlice items) == fixedTotal items)%Q.
Proof.
  unfold fixedTotal, fixedOf. apply Qsum_perm, Permutation_map, List_filter_perm,
    sortSlice_perm.
Qed.

Lemma fixedFit_sorted_iff total items :
  (0 <= toQ total)%Q ->
  (forall i, In i items -> isKind SplitRuleItemTypeFixed i = true ->
             (0 <= toQ (SplitRuleItem.Value i))%Q) ->
  fixedFit total (fixedOf (sortSlice items)) = true
  <-> (fixedTotal items <= toQ total)%Q.
Proof.
  intros Htot Hnn. rewrite <- fixedTotal_sortSlice. apply fixedFit_iff; [done|].
  intros f [Hin Hk]%filter_In. apply Hnn; [|done]. by apply In_sortSlice.
Qed.

(** X6.  For a positive total and a non-empty list whose FIXED values are
    not negative, the call fails with the overflow error exactly when the
    FIXED values add up to more than the total; the order of the items and
    their priorities play no part in whether it overflows. *)
Theorem X6_fixed_overflow_iff (total : Decimal) (items : list SplitRuleItem.t) :
  GreaterThan total Zero = true -> items <> [] ->
  (forall i, In i items -> isKind SplitRuleItemTypeFixed i = true ->
             LessThan (SplitRuleItem.Value i) Zero = false) ->
  CalculateAllocation total items = Err ErrFixedExceeds
  <-> (toQ total < fixedTotal items)%Q.
Proof.
  intros Hpos Hne Hnn.
  assert (Htot : (0 < toQ total)%Q).
  { apply GreaterThan_toQ in Hpos. by rewrite toQ_Zero in Hpos. }
  assert (Hle : LessThanOrEqual total Zero = false).
  { apply not_LessThanOrEqual_toQ. by rewrite toQ_Zero. }
  rewrite (CalculateAllocation_nonempty _ _ Hle Hne), allocateSorted_spec.
  pose proof (fixedFit_sorted_iff total items) as Hfit.
  destruct (fixedFit total (fixedOf (sortSlice items))).
  - split.
    + destruct (findRemainderItem _); [destruct (Equal _ _)|]; discriminate.
    + intros Hlt. exfalso. apply (Qlt_not_le _ _ Hlt). apply Hfit; [lra| |done].
      intros i Hi Hk. specialize (Hnn i Hi Hk).
      apply not_LessThan_toQ in Hnn. by rewrite toQ_Zero in Hnn.
  - split; [intros _|done]. apply Qnot_le_lt. intros Hc.
    assert (false = true); [|done]. apply Hfit; [lra| |done].
    intros i Hi Hk. specialize (Hnn i Hi Hk).
    apply not_LessThan_toQ in Hnn. by rewrite toQ_Zero in Hnn.
Qed.

Lemma X6_fixed_overflow_iff_witness :
  CalculateAllocation (NewFromInt 40) churchFootball = Err ErrFixedExceeds
  <-> (toQ (NewFromInt 40) < fixedTotal churchFootball)%Q.
Proof.
  apply (X6_fixed_overflow_iff (NewFromInt 40) churchFootball).
  - vm_compute. reflexivity.
  - discriminate.
  - intros i [<-|[<-|[<-|[]]]] Hk; vm_compute; reflexivity.
Defined.

(** Distinct priorities leave one sorted order. *)
Lemma strictly_sorted l :
  StronglySorted ascendingPriority l ->
  NoDup (List.map SplitRuleItem.Priority l) ->
  StronglySorted strictPriority l.
Proof.
  induction 1 as [|x l Hs IH Hall]; intros Hnd; simpl in Hnd; constructor.
  - apply IH. by apply NoDup_cons in Hnd as [_ ?].
  - apply NoDup_cons in Hnd as [Hx _].
    rewrite Forall_forall in Hall |- *. intros y Hy.
    specialize (Hall y Hy). unfold ascendingPriority in Hall.
    unfold strictPriority.
    assert (SplitRuleItem.Priority x <> SplitRuleItem.Priority y); [|lia].
    intros E. apply Hx. rewrite E. apply list_elem_of_In, in_map.
    by apply list_elem_of_In.
Qed.

Lemma sortSlice_strict items :
  NoDup (List.map SplitRuleItem.Priority items) ->
  StronglySorted strictPriority (sortSlice items).
Proof.
  intros Hnd. apply strictly_sorted.
  - apply Sorted_StronglySorted; [apply _|apply sortSlice_sorted].
  - pose proof (Permutation_map SplitRuleItem.Priority (sortSlice_perm items))
      as Hp.
    by rewrite Hp.
Qed.

Lemma sortSlice_unique items items' :
  NoDup (List.map SplitRuleItem.Priority items) ->
  items' ≡ₚ items -> sortSlice items' = sortSlice items.
Proof.
  intros Hnd Hperm. apply (StronglySorted_unique strictPriority).
  - apply sortSlice_strict.
    pose proof (Permutation_map SplitRuleItem.Priority Hperm) as Hp.
    by rewrite Hp.
  - by apply sortSlice_strict.
  - by rewrite !sortSlice_perm.
Qed.

(** With distinct priorities [sort.Slice] has one outcome, the one of the
    insertion sort. *)
Lemma sortSliceOutcome_unique items sorted :
  NoDup (List.map SplitRuleItem.Priority items) ->
  sortSliceOutcome items sorted -> sorted = sortSlice items.
Proof.
  intros Hnd [Hperm Hsorted]. apply (StronglySorted_unique strictPriority).
  - apply strictly_sorted.
    + apply Sorted_StronglySorted; [apply _|exact Hsorted].
    + pose proof (Permutation_map SplitRuleItem.Priority Hperm) as Hp.
      by rewrite Hp.
  - by apply sortSlice_strict.
  - by rewrite Hperm, sortSlice_perm.
Qed.

(** The FIXED values add up to the same whatever the outcome of the sort. *)
Lemma fixedTotal_outcome items sorted :
  sortSliceOutcome items sorted -> (fixedTotal sorted == fixedTotal items)%Q.
Proof.
  intros Hout. unfold fixedTotal. apply Qsum_perm, Permutation_map.
  apply (outcome_kind SplitRuleItemTypeFixed _ _ Hout).
Qed.

(** X7.  When no two items share a priority, the result of
    [CalculateAllocation], allocation or error, does not depend on the
    order in which the items are passed. *)
Theorem X7_allocation_order_independent
        (total : Decimal) (items items' : list SplitRuleItem.t) :
  NoDup (List.map SplitRuleItem.Priority items) ->
  items' ≡ₚ items ->
  CalculateAllocation total items' = CalculateAllocation total items.
Proof.
  intros Hnd Hperm. unfold CalculateAllocation.
  destruct (LessThanOrEqual total Zero); [done|].
  rewrite (sortSlice_unique _ _ Hnd Hperm).
  destruct items as [|i items].
  - by apply Permutation_nil_r in Hperm as ->.
  - destruct items' as [|i' items']; [|done].
    by apply Permutation_nil_cons in Hperm.
Qed.

Lemma X7_allocation_order_independent_witness :
  CalculateAllocation (NewFromInt 1000) (rev churchFootball)
  = CalculateAllocation (NewFromInt 1000) churchFootball.
Proof.
  apply (X7_allocation_order_independent (NewFromInt 1000) churchFootball
           (rev churchFootball)).
  - apply (bool_decide_unpack _). vm_compute. reflexivity.
  - symmetry. apply Permutation_rev.
Defined.

End allocation_facts.

(** ** Rules: [SplitRule.Validate] and the allocator *)

Module rule_facts.
Import decimal_facts allocator_facts ledger_facts allocation_facts.

Lemma kinds_exclusive item :
  (isKind SplitRuleItemTypeFixed item = true ->
   isKind SplitRuleItemTypePercent item = false
   /\ isKind SplitRuleItemTypeRemainder item = false)
  /\ (isKind SplitRuleItemTypePercent item = true ->
      isKind SplitRuleItemTypeRemainder item = false).
Proof.
  unfold isKind. split.
  - intros ->%String.eqb_eq. by vm_compute.
  - intros ->%String.eqb_eq. by vm_compute.
Qed.

(** The three checks of the loop body against [itemWellFormed]. *)
Lemma item_checks item :
  itemWellFormed item
  <-> negb (isKind SplitRuleItemTypeFixed item)
      && negb (isKind SplitRuleItemTypePercent item)
      && negb (isKind SplitRuleItemTypeRemainder item) = false
      /\ isKind SplitRuleItemTypeFixed item
         && LessThanOrEqual (SplitRuleItem.Value item) Zero = false
      /\ isKind SplitRuleItemTypePercent item
         && (LessThan (SplitRuleItem.Value item) Zero
             || GreaterThan (SplitRuleItem.Value item) (NewFromInt 100)) = false.
Proof.
  unfold itemWellFormed.
  pose proof (not_LessThanOrEqual_toQ (SplitRuleItem.Value item) Zero) as H1.
  pose proof (not_LessThan_toQ (SplitRuleItem.Value item) Zero) as H2.
  pose proof (not_GreaterThan_toQ (SplitRuleItem.Value item) (NewFromInt 100))
    as H3.
  rewrite toQ_Zero in H1, H2. rewrite toQ_NewFromInt in H3.
  change (inject_Z 100) with 100%Q in H3.
  destruct (isKind SplitRuleItemTypeFixed item),
    (isKind SplitRuleItemTypePercent item),
    (isKind SplitRuleItemTypeRemainder item),
    (LessThanOrEqual (SplitRuleItem.Value item) Zero),
    (LessThan (SplitRuleItem.Value item) Zero),
    (GreaterThan (SplitRuleItem.Value item) (NewFromInt 100));
    simpl; intuition (try discriminate; try lra; auto).
Qed.

Lemma validateItems_Ok items n k :
  validateItems items n = Ok k
  <-> Forall itemWellFormed items
      /\ k = (n + length (remainderItems items))%nat.
Proof.
  revert n. induction items as [|item rest IH]; intros n; simpl.
  - rewrite Nat.add_0_r. split.
    + intros [= <-]. by split.
    + by intros [_ ->].
  - change (String.eqb (SplitRuleItem.Type_ item) SplitRuleItemTypeFixed)
      with (isKind SplitRuleItemTypeFixed item).
    change (String.eqb (SplitRuleItem.Type_ item) SplitRuleItemTypePercent)
      with (isKind SplitRuleItemTypePercent item).
    change (String.eqb (SplitRuleItem.Type_ item) SplitRuleItemTypeRemainder)
      with (isKind SplitRuleItemTypeRemainder item).
    rewrite Forall_cons, item_checks.
    destruct (negb (isKind SplitRuleItemTypeFixed item)
              && negb (isKind SplitRuleItemTypePercent item)
              && negb (isKind SplitRuleItemTypeRemainder item));
      [split; [discriminate|intros [[[? _] _] _]; discriminate]|].
    destruct (isKind SplitRuleItemTypeFixed item
              && LessThanOrEqual (SplitRuleItem.Value item) Zero);
      [split; [discriminate|intros [[[_ [? _]] _] _]; discriminate]|].
    destruct (isKind SplitRuleItemTypePercent item
              && (LessThan (SplitRuleItem.Value item) Zero
                  || GreaterThan (SplitRuleItem.Value item) (NewFromInt 100)));
      [split; [discriminate|intros [[[_ [_ ?]] _] _]; discriminate]|].
    rewrite IH. unfold remainderItems. simpl.
    destruct (isKind SplitRuleItemTypeRemainder item); simpl;
      rewrite ?Nat.add_succ_r; simpl; tauto.
Qed.

Lemma validateItems_Err items n msg :
  validateItems items n = Err msg ->
  msg <> ErrRemainderCount /\ ~ Forall itemWellFormed items.
Proof.
  intros H. split.
  - revert n H. induction items as [|item rest IH]; intros n; simpl;
      [discriminate|].
    repeat (match goal with
            | |- context [if ?b then _ else _] => destruct b
            end; try (intros [= <-]; discriminate)).
    all: apply IH.
  - intros Hall.
    assert (validateItems items n
            = Ok (n + length (remainderItems items))%nat) as E
      by (by apply validateItems_Ok).
    congruence.
Qed.

(** X8.  [SplitRule.Validate] accepts a rule exactly when every item has a
    known type, every FIXED value is positive, every PERCENT value lies
    between 0 and 100, and exactly one item is of type REMAINDER; and the
    REMAINDER-count error is returned only for rules all of whose items
    pass the item checks. *)
Theorem X8_rule_validate_iff (sr : SplitRule.t) :
  (SplitRule_Validate sr = Ok tt
   <-> Forall itemWellFormed (SplitRule.Items sr)
       /\ length (remainderItems (SplitRule.Items sr)) = 1%nat)
  /\ (SplitRule_Validate sr = Err ErrRemainderCount
      <-> SplitRule.Items sr <> []
          /\ Forall itemWellFormed (SplitRule.Items sr)
          /\ length (remainderItems (SplitRule.Items sr)) <> 1%nat).
Proof.
  unfold SplitRule_Validate.
  destruct (SplitRule.Items sr) as [|item rest] eqn:Hitems.
  - split; split.
    + discriminate.
    + by intros [_ ?].
    + discriminate.
    + by intros [? _].
  - destruct (validateItems (item :: rest) 0) as [k|msg] eqn:E.
    + apply validateItems_Ok in E as [Hall ->].
      change (0 + length (remainderItems (item :: rest)))%nat
        with (length (remainderItems (item :: rest))).
      set (n := length (remainderItems (item :: rest))). simpl.
      destruct (Nat.eqb_spec n 1) as [H1|H1]; simpl.
      * split; split.
        -- done.
        -- done.
        -- discriminate.
        -- by intros (_ & _ & ?).
      * split; split.
        -- discriminate.
        -- by intros [_ ?].
        -- done.
        -- done.
    + apply validateItems_Err in E as [Hmsg Hnot]. simpl.
      split; split.
      * discriminate.
      * by intros [? _].
      * intros [= E]. by subst msg.
      * by intros (_ & ? & _).
Qed.

Lemma NoDup_map_In_eq {A B} (f : A -> B) (l : list A) x y :
  NoDup (List.map f l) -> In x l -> In y l -> f x = f y -> x = y.
Proof.
  induction l as [|a l IH]; simpl; [done|].
  intros [Ha Hnd]%NoDup_cons [<-|Hx] [<-|Hy] E; try done.
  - exfalso. apply Ha. rewrite E. by apply list_elem_of_In, in_map.
  - exfalso. apply Ha. rewrite <- E. by apply list_elem_of_In, in_map.
  - by apply IH.
Qed.

Lemma single_remainder items :
  length (remainderItems items) = 1%nat ->
  exists r, remainderItems items = [r] /\ In r items
            /\ isKind SplitRuleItemTypeRemainder r = true.
Proof.
  intros H. destruct (remainderItems items) as [|r [|? ?]] eqn:E; try done.
  exists r. split; [done|].
  assert (Hin : In r (remainderItems items)) by (rewrite E; by left).
  by apply filter_In in Hin.
Qed.

(** A validated rule with distinct targets: the allocator's three error
    exits after the guards cannot be taken, but for the overflow. *)
Lemma validated_allocation total items :
  Forall itemWellFormed items ->
  length (remainderItems items) = 1%nat ->
  NoDup (List.map SplitRuleItem.TargetBucketID items) ->
  GreaterThan total Zero = true ->
  (fixedTotal items <= toQ total)%Q ->
  exists r, remainderItems items = [r]
    /\ CalculateAllocation total items = Ok (withRemainder total (sortSlice items) r)
    /\ forall k, is_Some (withRemainder total (sortSlice items) r !! k)
         <-> In k (List.map SplitRuleItem.TargetBucketID items).
Proof.
  intros Hall Hone Hnd Hpos Hfits.
  destruct (single_remainder _ Hone) as (r & Hr & Hin & Hkind).
  exists r. split; [done|].
  assert (Htot : (0 < toQ total)%Q).
  { apply GreaterThan_toQ in Hpos. by rewrite toQ_Zero in Hpos. }
  assert (Hle : LessThanOrEqual total Zero = false).
  { apply not_LessThanOrEqual_toQ. by rewrite toQ_Zero. }
  assert (Hne : items <> []) by (by destruct items).
  rewrite Forall_forall in Hall.
  assert (Hwf : forall i, In i items -> itemWellFormed i).
  { intros i Hi. apply Hall. by apply list_elem_of_In. }
  assert (Hfit : fixedFit total (fixedOf (sortSlice items)) = true).
  { apply fixedFit_sorted_iff; [lra| |done].
    intros i Hi Hk. destruct (Hwf i Hi) as (_ & Hf & _).
    specialize (Hf Hk). lra. }
  assert (Hfind : findRemainderItem (sortSlice items) = Some r).
  { apply findRemainderItem_unique, filter_sortSlice_remainder, Hr. }
  assert (Hfresh : assignedSoFar total (sortSlice items)
                   !! SplitRuleItem.TargetBucketID r = None).
  { apply eq_None_not_Some. rewrite keys_assignedSoFar.
    intros (item & Hi & Ht & Hk).
    apply (proj1 (In_sortSlice _ _)) in Hi.
    assert (item = r) as ->
      by (by apply (NoDup_map_In_eq SplitRuleItem.TargetBucketID items)).
    destruct (kinds_exclusive r) as [HF HP].
    destruct Hk as [Hk|Hk]; [destruct (HF Hk)|specialize (HP Hk)]; congruence. }
  split.
  - rewrite (CalculateAllocation_nonempty _ _ Hle Hne), allocateSorted_spec,
      Hfit, Hfind.
    unfold withRemainder at 1, remainderShare.
    by rewrite balanced_fresh_remainder.
  - intros k. rewrite keys_withRemainder, in_map_iff. split.
    + intros (item & [E|Hi] & Ht & _); exists item.
      * subst item. tauto.
      * apply (proj1 (In_sortSlice _ _)) in Hi. tauto.
    + intros (item & Ht & Hi). exists item.
      split; [right; by apply In_sortSlice|]. split; [done|].
      destruct (Hwf item Hi) as ([Hk|[Hk|Hk]] & _); [tauto|tauto|].
      right. right.
      assert (Him : In item (remainderItems items)) by (by apply filter_In).
      rewrite Hr in Him. by destruct Him as [<-|[]].
Qed.

(** X9.  For a rule that [SplitRule.Validate] accepts and whose items name
    pairwise distinct targets, and a positive total, [CalculateAllocation]
    succeeds exactly when the FIXED values add up to at most the total;
    the allocation then has a share for every target of the rule and for
    no other bucket, and otherwise the call fails with the overflow
    error. *)
Theorem X9_validated_rule_allocates (sr : SplitRule.t) (total : Decimal) :
  SplitRule_Validate sr = Ok tt ->
  NoDup (List.map SplitRuleItem.TargetBucketID (SplitRule.Items sr)) ->
  GreaterThan total Zero = true ->
  ((fixedTotal (SplitRule.Items sr) <= toQ total)%Q ->
   exists allocation,
     CalculateAllocation total (SplitRule.Items sr) = Ok allocation
     /\ forall k, is_Some (allocation !! k)
          <-> In k (List.map SplitRuleItem.TargetBucketID (SplitRule.Items sr)))
  /\ ((toQ total < fixedTotal (SplitRule.Items sr))%Q ->
      CalculateAllocation total (SplitRule.Items sr) = Err ErrFixedExceeds).
Proof.
  intros Hval Hnd Hpos.
  assert (Hv : Forall itemWellFormed (SplitRule.Items sr)
               /\ length (remainderItems (SplitRule.Items sr)) = 1%nat).
  { unfold SplitRule_Validate in Hval.
    destruct (SplitRule.Items sr) as [|item rest]; [discriminate|].
    destruct (validateItems (item :: rest) 0) as [k|msg] eqn:E; [|discriminate].
    apply validateItems_Ok in E as [Hall ->]. split; [done|].
    change (0 + length (remainderItems (item :: rest)))%nat
      with (length (remainderItems (item :: rest))) in Hval.
    set (n := length (remainderItems (item :: rest))) in *. simpl in Hval.
    by destruct (Nat.eqb_spec n 1). }
  destruct Hv as [Hall Hone]. split.
  - intros Hfits.
    destruct (validated_allocation total _ Hall Hone Hnd Hpos Hfits)
      as (r & _ & Hok & Hkeys).
    by exists (withRemainder total (sortSlice (SplitRule.Items sr)) r).
  - intros Hover.
    assert (Htot : (0 < toQ total)%Q).
    { apply GreaterThan_toQ in Hpos. by rewrite toQ_Zero in Hpos. }
    assert (Hle : LessThanOrEqual total Zero = false).
    { apply not_LessThanOrEqual_toQ. by rewrite toQ_Zero. }
    assert (Hne : SplitRule.Items sr <> [])
      by (intros E; rewrite E in Hone; discriminate).
    rewrite (CalculateAllocation_nonempty _ _ Hle Hne), allocateSorted_spec.
    destruct (fixedFit total (fixedOf (sortSlice (SplitRule.Items sr)))) eqn:Hfit;
      [|done].
    exfalso. apply (Qlt_not_le _ _ Hover).
    apply fixedFit_sorted_iff; [lra| |done].
    rewrite Forall_forall in Hall.
    intros i Hi Hk. destruct (Hall i) as (_ & Hf & _);
      [by apply list_elem_of_In|]. specialize (Hf Hk). lra.
Qed.

Lemma X9_validated_rule_allocates_witness :
  ((fixedTotal churchFootball <= toQ (NewFromInt 1000))%Q ->
   exists allocation,
     CalculateAllocation (NewFromInt 1000) churchFootball = Ok allocation
     /\ forall k, is_Some (allocation !! k)
          <-> In k (List.map SplitRuleItem.TargetBucketID churchFootball))
  /\ ((toQ (NewFromInt 1000) < fixedTotal churchFootball)%Q ->
      CalculateAllocation (NewFromInt 1000) churchFootball = Err ErrFixedExceeds).
Proof.
  apply (X9_validated_rule_allocates
           (SplitRule.Make 100 "Salary" 1 churchFootball) (NewFromInt 1000)).
  - vm_compute. reflexivity.
  - apply (bool_decide_unpack _). vm_compute. reflexivity.
  - vm_compute. reflexivity.
Defined.

End rule_facts.

(** ** The system seeder *)

Module seeder_facts.
Import seeder.

(** What [Seed] creates for one entry of its list. *)
Lemma seedBuckets_present db todo :
  (forall sb, In sb todo -> is_Some (buckets db !! ID sb)) ->
  seedBuckets db todo = (Ok tt, db).
Proof.
  induction todo as [|sb rest IH]; intros H; simpl; [done|].
  destruct (H sb) as [row Hrow]; [by left|].
  unfold BucketRepo_GetByID. rewrite Hrow.
  apply IH. intros sb' Hin. apply H. by right.
Qed.

Lemma seedBuckets_spec todo :
  (forall sb, In sb todo ->
     Name sb <> EmptyString /\ BucketType sb <> BucketTypeVirtual) ->
  forall db, exists db',
    seedBuckets db todo = (Ok tt, db')
    /\ split_rules db' = split_rules db
    /\ transactions db' = transactions db
    /\ market_value_history db' = market_value_history db
    /\ (forall id row, buckets db !! id = Some row ->
                       buckets db' !! id = Some row)
    /\ (forall sb, In sb todo -> is_Some (buckets db' !! ID sb))
    /\ (forall id row, buckets db' !! id = Some row ->
          buckets db !! id = Some row
          \/ exists sb, In sb todo /\ ID sb = id
               /\ row = MakeBucketRow (Name sb) (BucketType sb) None Zero).
Proof.
  induction todo as [|sb rest IH]; intros Hok db; simpl.
  - exists db. do 5 (split; [done|]). split; [by intros ? []|].
    intros id row H. by left.
  - assert (Hrest : forall sb', In sb' rest ->
              Name sb' <> EmptyString /\ BucketType sb' <> BucketTypeVirtual)
      by (intros sb' Hin; apply Hok; by right).
    unfold BucketRepo_GetByID.
    destruct (buckets db !! ID sb) as [row0|] eqn:Hsb.
    + destruct (IH Hrest db) as (db' & Hrun & Hs & Ht & Hm & Hkeep & Hall & Hnew).
      exists db'. do 5 (split; [done|]). split.
      * intros sb' [<-|Hin]; [|by apply Hall].
        exists row0. by apply Hkeep.
      * intros id row H. destruct (Hnew id row H) as [?|(sb' & ? & ? & ?)];
          [by left|right]. exists sb'. split; [by right|done].
    + destruct (Hok sb) as [Hname Htype]; [by left|].
      unfold Bucket_Validate. cbn [Bucket.Name Bucket.BucketType].
      destruct (String.eqb_spec (Name sb) EmptyString) as [?|_]; [done|].
      destruct (String.eqb_spec (BucketType sb) BucketTypeVirtual) as [?|_];
        [done|].
      unfold BucketRepo_Create.
      cbn [Bucket.ID Bucket.ParentPhysicalBucketID Bucket.Name
           Bucket.BucketType Bucket.CurrentBalance].
      rewrite Hsb.
      set (db1 := MakeDB _ _ _ _).
      destruct (IH Hrest db1) as (db' & Hrun & Hs & Ht & Hm & Hkeep & Hall & Hnew).
      exists db'. do 4 (split; [done|]). split; [|split].
      * intros id row H. apply Hkeep. unfold db1. cbn [buckets].
        rewrite lookup_insert_ne; [done|]. intros <-. congruence.
      * intros sb' [<-|Hin]; [|by apply Hall].
        eexists. apply Hkeep. unfold db1. cbn [buckets].
        apply lookup_insert_eq.
      * intros id row H. destruct (Hnew id row H) as [H1|(sb' & ? & ? & ?)].
        -- unfold db1 in H1. cbn [buckets] in H1.
           destruct (decide (ID sb = id)) as [<-|Hne].
           ++ rewrite lookup_insert_eq in H1. injection H1 as <-.
              right. exists sb. split; [by left|done].
           ++ rewrite lookup_insert_ne in H1 by done. by left.
        -- right. exists sb'. split; [by right|done].
Qed.

(** X10.  [Seed] succeeds on every database and afterwards the three
    reserved buckets exist; a bucket that existed before, a reserved one
    of another type or name included, is left as it was; a bucket that
    did not exist is a reserved one, created with type SYSTEM, balance
    zero and no parent; split rules, transactions and market values are
    untouched; and a second [Seed] changes nothing. *)
Theorem X10_seed_idempotent (db : DB) :
  exists db',
    Seed db = (Ok tt, db')
    /\ (forall id, In id [SYS_VIRTUAL_CLEARING; SYS_LOST_MISC; SYS_EXTRA_INCOME] ->
                   is_Some (buckets db' !! id))
    /\ (forall id row, buckets db !! id = Some row ->
                       buckets db' !! id = Some row)
    /\ (forall id row, buckets db !! id = None ->
                       buckets db' !! id = Some row ->
          In id [SYS_VIRTUAL_CLEARING; SYS_LOST_MISC; SYS_EXTRA_INCOME]
          /\ bucket_type row = BucketTypeSystem
          /\ parent_physical_bucket_id row = None
          /\ (toQ (current_balance row) == 0)%Q)
    /\ split_rules db' = split_rules db
    /\ transactions db' = transactions db
    /\ market_value_history db' = market_value_history db
    /\ Seed db' = (Ok tt, db').
Proof.
  unfold Seed.
  destruct (seedBuckets_spec systemBuckets) with (db := db)
    as (db' & Hrun & Hs & Ht & Hm & Hkeep & Hall & Hnew).
  { intros sb [<-|[<-|[<-|[]]]]; by split. }
  exists db'. split; [done|]. split; [|split; [done|split]].
  - intros id [<-|[<-|[<-|[]]]].
    + apply (Hall (MakeSystemBucket SYS_VIRTUAL_CLEARING
                     "System Virtual Clearing" BucketTypeSystem)).
      by left.
    + apply (Hall (MakeSystemBucket SYS_LOST_MISC "System Lost/Misc"
                     BucketTypeSystem)).
      right. by left.
    + apply (Hall (MakeSystemBucket SYS_EXTRA_INCOME "System Extra Income"
                     BucketTypeSystem)).
      right. right. by left.
  - intros id row Hnone Hsome.
    destruct (Hnew id row Hsome) as [?|(sb & Hin & <- & ->)]; [congruence|].
    destruct Hin as [<-|[<-|[<-|[]]]]; simpl;
      (split; [tauto|]; split; [done|]; split; [done|reflexivity]).
  - repeat (split; [done|]). by apply seedBuckets_present.
Qed.

End seeder_facts.

(** ** What a recorded inflow guarantees *)

Module inflow_facts.
Import decimal_facts storage_facts validate_claims generator_facts
       ledger_facts allocation_facts.
Import inflow.

Lemma checkTargets_inv db parent (targets : list (N * Decimal)) :
  checkTargets db parent targets = Ok tt ->
  forall k a, In (k, a) targets ->
    typeOf db k = Some BucketTypeVirtual /\ parentOf db k = Some parent.
Proof.
  induction targets as [|[k a] targets IH]; simpl; [by intros _ ? ? []|].
  unfold BucketRepo_GetByID at 1.
  destruct (buckets db !! k) as [row|] eqn:Hrow; simpl; [|discriminate].
  destruct (String.eqb_spec (bucket_type row) BucketTypeVirtual) as [Ht|];
    simpl; [|discriminate].
  destruct (parent_physical_bucket_id row) as [p|] eqn:Hp; [|discriminate].
  destruct (N.eqb_spec p parent) as [->|]; simpl; [|discriminate].
  intros H k' a' [[= <- <-]|Hin].
  - unfold typeOf, parentOf. rewrite Hrow. simpl. by rewrite Ht, Hp.
  - exact (IH H k' a' Hin).
Qed.

Lemma virtualDebits_inv env txID i (targets : list (N * Decimal)) e :
  In e (virtualDebits env txID i targets) ->
  TransactionEntry.Type_ e = EntryTypeDebit
  /\ TransactionEntry.Layer e = LayerVirtual
  /\ In (TransactionEntry.BucketID e, TransactionEntry.Amount e) targets.
Proof.
  revert i. induction targets as [|[k a] targets IH]; intros i; simpl; [done|].
  intros [<-|Hin].
  - repeat split; try done. by left.
  - destruct (IH _ Hin) as (? & ? & ?). repeat split; try done. by right.
Qed.

(** The checks a candidate inflow transaction has gone through. *)
Lemma buildInflow_inv env db input tx :
  buildInflow env db input = Ok tx ->
  LessThanOrEqual (Amount input) Zero = false
  /\ typeOf db (SourceBucketID input) = Some BucketTypeIncome
  /\ IsExternal input = true
  /\ exists rule allocation parent,
       SplitRuleRepo_GetBySourceBucketID db (SourceBucketID input) = Ok rule
       /\ CalculateAllocation (Amount input) (SplitRule.Items rule)
          = Ok allocation
       /\ (forall k a, allocation !! k = Some a ->
             typeOf db k = Some BucketTypeVirtual
             /\ parentOf db k = Some parent)
       /\ tx = Transaction.Make (newUUID env 0) (Description input) (now env)
                 false true (inflowEntries env input parent allocation)
       /\ Validate tx = Ok tt.
Proof.
  unfold buildInflow.
  destruct (LessThanOrEqual (Amount input) Zero); [discriminate|].
  unfold BucketRepo_GetByID at 1.
  destruct (buckets db !! SourceBucketID input) as [srow|] eqn:Hsrc; simpl;
    [|discriminate].
  destruct (String.eqb_spec (bucket_type srow) BucketTypeIncome) as [Hinc|];
    simpl; [|discriminate].
  destruct (IsExternal input); [|discriminate].
  unfold buildExternalInflow.
  destruct (SplitRuleRepo_GetBySourceBucketID db (SourceBucketID input))
    as [rule|] eqn:Hrule; simpl; [|discriminate].
  destruct (CalculateAllocation (Amount input) (SplitRule.Items rule))
    as [allocation|] eqn:Halloc; simpl; [|discriminate].
  destruct (SplitRule.Items rule) as [|first rest] eqn:Hitems; [discriminate|].
  destruct (BucketRepo_GetByID db (SplitRuleItem.TargetBucketID first))
    as [fb|]; simpl; [|discriminate].
  destruct (negb _); [discriminate|].
  destruct (Bucket.ParentPhysicalBucketID fb) as [parent|]; [|discriminate].
  destruct (checkTargets db parent (map_to_list allocation)) as [[]|] eqn:Hchk;
    simpl; [|discriminate].
  match goal with
  | |- context [Validate ?t] => destruct (Validate t) as [[]|] eqn:Hval
  end; simpl; [|discriminate].
  intros [= <-].
  split; [done|]. split; [unfold typeOf; rewrite Hsrc; simpl; by rewrite Hinc|].
  split; [done|].
  exists rule, allocation, parent.
  split; [done|]. split; [by rewrite Hitems|].
  split; [|split; [reflexivity|exact Hval]].
  intros k a Hk. apply (checkTargets_inv _ _ _ Hchk k a).
  by apply list_elem_of_In, elem_of_map_to_list.
Qed.

Lemma RecordInflow_inv env db input tx db' :
  RecordInflow env db input = (Ok tx, db') ->
  buildInflow env db input = Ok tx
  /\ TransactionRepo_Create db tx = (Ok tt, db').
Proof.
  unfold RecordInflow.
  destruct (buildInflow env db input) as [tx0|] eqn:Hb; [|discriminate].
  destruct (TransactionRepo_Create db tx0) as [[[]|] db0] eqn:Hc; [|discriminate].
  intros [= -> ->]. done.
Qed.

(** The same, for every order the runtime can show. *)
Lemma virtualDebits_postings env txID i (targets : list (N * Decimal)) :
  List.map posting (virtualDebits env txID i targets)
  = List.map virtualDebit targets.
Proof.
  revert i. induction targets as [|[k a] targets IH]; intros i; simpl; [done|].
  by rewrite IH.
Qed.

Lemma virtualDebits_transaction env txID i (targets : list (N * Decimal)) e :
  In e (virtualDebits env txID i targets) ->
  TransactionEntry.TransactionID e = txID.
Proof.
  revert i. induction targets as [|[k a] targets IH]; intros i; simpl; [done|].
  intros [<-|Hin]; [done|]. exact (IH _ Hin).
Qed.

Lemma possible_model : possible modelOrders.
Proof.
  split; [apply allocator_facts.sortSlice_outcome|].
  split; intros m; reflexivity.
Qed.

Lemma RecordInflowIn_model env db input :
  RecordInflowIn modelOrders env db input = RecordInflow env db input.
Proof. reflexivity. Qed.

Lemma buildInflowIn_inv orders env db input tx :
  buildInflowIn orders env db input = Ok tx ->
  LessThanOrEqual (Amount input) Zero = false
  /\ typeOf db (SourceBucketID input) = Some BucketTypeIncome
  /\ IsExternal input = true
  /\ exists rule allocation parent,
       SplitRuleRepo_GetBySourceBucketID db (SourceBucketID input) = Ok rule
       /\ CalculateAllocationWith (sortedAs orders (SplitRule.Items rule))
                                  (Amount input) (SplitRule.Items rule)
          = Ok allocation
       /\ checkTargets db parent (checkedAs orders allocation) = Ok tt
       /\ Transaction.ID tx = newUUID env 0
       /\ Transaction.IsExternalInflow tx = true
       /\ Transaction.IsInternalTransfer tx = false
       /\ (exists i1 i2 i3,
             Transaction.Entries tx
             = [ TransactionEntry.Make i1 (newUUID env 0) parent (Amount input)
                                       EntryTypeDebit LayerPhysical;
                 TransactionEntry.Make i2 (newUUID env 0) (SourceBucketID input)
                                       (Amount input) EntryTypeCredit
                                       LayerPhysical ]
               ++ virtualDebits env (newUUID env 0) 3
                                (appendedAs orders allocation)
               ++ [ TransactionEntry.Make i3 (newUUID env 0)
                                          (SourceBucketID input) (Amount input)
                                          EntryTypeCredit LayerVirtual ])
       /\ Validate tx = Ok tt.
Proof.
  unfold buildInflowIn.
  destruct (LessThanOrEqual (Amount input) Zero); [discriminate|].
  unfold BucketRepo_GetByID at 1.
  destruct (buckets db !! SourceBucketID input) as [srow|] eqn:Hsrc; simpl;
    [|discriminate].
  destruct (String.eqb_spec (bucket_type srow) BucketTypeIncome) as [Hinc|];
    simpl; [|discriminate].
  destruct (IsExternal input); [|discriminate].
  unfold buildExternalInflowIn.
  destruct (SplitRuleRepo_GetBySourceBucketID db (SourceBucketID input))
    as [rule|] eqn:Hrule; simpl; [|discriminate].
  destruct (CalculateAllocationWith (sortedAs orders (SplitRule.Items rule))
              (Amount input) (SplitRule.Items rule))
    as [allocation|] eqn:Halloc; simpl; [|discriminate].
  destruct (SplitRule.Items rule) as [|first rest] eqn:Hitems; [discriminate|].
  destruct (BucketRepo_GetByID db (SplitRuleItem.TargetBucketID first))
    as [fb|]; simpl; [|discriminate].
  destruct (negb _); [discriminate|].
  destruct (Bucket.ParentPhysicalBucketID fb) as [parent|]; [|discriminate].
  destruct (checkTargets db parent (checkedAs orders allocation)) as [[]|]
    eqn:Hchk; simpl; [|discriminate].
  match goal with
  | |- context [Validate ?t] => destruct (Validate t) as [[]|] eqn:Hval
  end; simpl; [|discriminate].
  intros [= <-].
  split; [done|]. split; [unfold typeOf; rewrite Hsrc; simpl; by rewrite Hinc|].
  split; [done|].
  exists rule, allocation, parent.
  split; [done|]. split; [by rewrite Hitems|]. split; [done|].
  do 3 (split; [reflexivity|]).
  split; [|exact Hval].
  eexists _, _, _. reflexivity.
Qed.

Lemma RecordInflowIn_inv orders env db input tx db' :
  RecordInflowIn orders env db input = (Ok tx, db') ->
  buildInflowIn orders env db input = Ok tx
  /\ TransactionRepo_Create db tx = (Ok tt, db').
Proof.
  unfold RecordInflowIn.
  destruct (buildInflowIn orders env db input) as [tx0|] eqn:Hb; [|discriminate].
  destruct (TransactionRepo_Create db tx0) as [[[]|] db0] eqn:Hc; [|discriminate].
  intros [= -> ->]. done.
Qed.

(** X11.  In whatever order [sort.Slice] leaves items of equal priority
    and the two loops range over the allocation: when [RecordInflow]
    returns a transaction, the amount was positive, the source an INCOME
    bucket and the inflow external; the source had a split rule that the
    allocator accepted; every bucket of the allocation is a VIRTUAL bucket
    under one and the same parent and received a strictly positive share;
    and the stored transaction, marked as external inflow, has as
    entries, all under its own identifier, the PHYSICAL DEBIT of the
    amount on the parent and the PHYSICAL CREDIT of the amount on the
    source, then one VIRTUAL DEBIT of its share per allocated bucket, in
    any order, then the VIRTUAL CREDIT of the amount on the source. *)
Theorem X11_inflow_success (orders : Orders) (env : Env) (db db' : DB)
                           (input : RecordInflowInput) (tx : Transaction.t) :
  possible orders ->
  RecordInflowIn orders env db input = (Ok tx, db') ->
  GreaterThan (Amount input) Zero = true
  /\ typeOf db (SourceBucketID input) = Some BucketTypeIncome
  /\ IsExternal input = true
  /\ Transaction.IsExternalInflow tx = true
  /\ Transaction.IsInternalTransfer tx = false
  /\ transactions db' = transactions db ++ [tx]
  /\ (forall e, In e (Transaction.Entries tx) ->
                TransactionEntry.TransactionID e = Transaction.ID tx)
  /\ exists rule allocation parent,
       SplitRuleRepo_GetBySourceBucketID db (SourceBucketID input) = Ok rule
       /\ CalculateAllocationWith (sortedAs orders (SplitRule.Items rule))
                                  (Amount input) (SplitRule.Items rule)
          = Ok allocation
       /\ (exists debits,
             List.map posting (Transaction.Entries tx)
             = [ (parent, Amount input, EntryTypeDebit, LayerPhysical);
                 (SourceBucketID input, Amount input, EntryTypeCredit,
                  LayerPhysical) ]
               ++ debits
               ++ [ (SourceBucketID input, Amount input, EntryTypeCredit,
                     LayerVirtual) ]
             /\ debits ≡ₚ List.map virtualDebit (map_to_list allocation))
       /\ forall k share, allocation !! k = Some share ->
            GreaterThan share Zero = true
            /\ typeOf db k = Some BucketTypeVirtual
            /\ parentOf db k = Some parent.
Proof.
  intros (_ & Hchecked & Happended) [Hbuild Hcreate]%RecordInflowIn_inv.
  apply buildInflowIn_inv in Hbuild
    as (Hpos & Hsrc & Hext & rule & allocation & parent & Hrule & Halloc
        & Hchk & Hid & Hflag & Hint & (i1 & i2 & i3 & Hentries) & Hval).
  split; [by rewrite GreaterThan_LessThanOrEqual, Hpos|].
  do 4 (split; [done|]).
  split.
  { apply TransactionRepo_Create_ok in Hcreate as (bs & _ & ->). reflexivity. }
  split.
  { intros e He. rewrite Hid. rewrite Hentries in He.
    apply in_app_or in He as [[<-|[<-|[]]]|He]; [done|done|].
    apply in_app_or in He as [He|[<-|[]]]; [|done].
    by apply virtualDebits_transaction in He. }
  exists rule, allocation, parent. do 2 (split; [done|]).
  split.
  { exists (List.map virtualDebit (appendedAs orders allocation)). split.
    - rewrite Hentries, !List.map_app, virtualDebits_postings. reflexivity.
    - apply Permutation_map, Happended. }
  intros k share Hk.
  assert (Hin : (k, share) ∈ map_to_list allocation)
    by (by apply elem_of_map_to_list).
  split.
  - apply Validate_ok_inv in Hval as [Hwf _].
    rewrite Forall_forall in Hwf.
    destruct (inflow_claims.virtualDebits_In env (newUUID env 0) 3
                (appendedAs orders allocation) k share)
      as (e & He & _ & Ha & _).
    { apply list_elem_of_In. by rewrite (Happended allocation). }
    destruct (Hwf e) as [Hgt _].
    { apply list_elem_of_In. rewrite Hentries.
      apply in_or_app. right. apply in_or_app. by left. }
    by rewrite Ha in Hgt.
  - apply (checkTargets_inv _ _ _ Hchk k share).
    apply list_elem_of_In. by rewrite (Hchecked allocation).
Qed.

Lemma X11_inflow_success_witness :
  possible reversedOrders
  /\ exists tx db',
       RecordInflowIn reversedOrders testEnv salaryDB salaryInflow = (Ok tx, db')
       /\ Transaction.IsExternalInflow tx = true
       /\ (forall e, In e (Transaction.Entries tx) ->
                     TransactionEntry.TransactionID e = Transaction.ID tx).
Proof.
  assert (Hp : possible reversedOrders).
  { split; [apply allocator_facts.sortSlice_outcome|].
    split; intros m; symmetry; apply Permutation_rev. }
  split; [exact Hp|].
  destruct (RecordInflowIn reversedOrders testEnv salaryDB salaryInflow)
    as [[tx|msg] db'] eqn:H; [|vm_compute in H; discriminate].
  destruct (X11_inflow_success reversedOrders testEnv salaryDB db' salaryInflow
              tx Hp H)
    as (_ & _ & _ & Hflag & _ & _ & Hids & _).
  exists tx, db'. split; [reflexivity|]. split; [exact Hflag|exact Hids].
Defined.

(** The anchors of an inflow transaction: the allocated buckets sit under
    the parent, the INCOME source has none. *)
Lemma inflow_anchors env db input parent (allocation : gmap N Decimal) e :
  typeOf db (SourceBucketID input) = Some BucketTypeIncome ->
  (forall k a, allocation !! k = Some a ->
     typeOf db k = Some BucketTypeVirtual /\ parentOf db k = Some parent) ->
  In e (inflowEntries env input parent allocation) ->
  TransactionEntry.Layer e = LayerVirtual ->
  (anchorOf db (TransactionEntry.BucketID e) = Some parent
   \/ anchorOf db (TransactionEntry.BucketID e) = None)
  /\ exists row,
       buckets db !! TransactionEntry.BucketID e = Some row
       /\ (bucket_type row = BucketTypeVirtual ->
           is_Some (parent_physical_bucket_id row)).
Proof.
  intros Hsrc Htargets Hin Hlayer. unfold inflowEntries in Hin.
  apply in_app_or in Hin as [[<-|[<-|[]]]|Hin]; [discriminate|discriminate|].
  apply in_app_or in Hin as [Hin|[<-|[]]].
  - apply virtualDebits_inv in Hin as (_ & _ & Hin).
    apply list_elem_of_In, elem_of_map_to_list in Hin.
    destruct (Htargets _ _ Hin) as [Ht Hp].
    unfold typeOf, parentOf, anchorOf in *.
    destruct (buckets db !! TransactionEntry.BucketID e) as [row|];
      [|discriminate].
    simpl in Ht, Hp. injection Ht as Ht. rewrite Ht, Hp. split; [by left|].
    exists row. split; [done|]. intros _. by rewrite Hp.
  - cbn [TransactionEntry.BucketID].
    unfold typeOf, anchorOf in *.
    destruct (buckets db !! SourceBucketID input) as [row|]; [|discriminate].
    simpl in Hsrc. injection Hsrc as Hsrc. rewrite Hsrc. split; [by right|].
    exists row. split; [done|]. rewrite Hsrc. discriminate.
Qed.

(** X12.  The transaction of a recorded inflow never gives rise to a
    transfer task: run on it, against the database after (or before) the
    posting, [GenerateTasks] succeeds with the empty list. *)
Theorem X12_inflow_no_tasks (env env' : Env) (db db' : DB)
                            (input : RecordInflowInput) (tx : Transaction.t) :
  RecordInflow env db input = (Ok tx, db') ->
  task_generator.GenerateTasks env' db' tx = Ok []
  /\ task_generator.GenerateTasks env' db tx = Ok [].
Proof.
  intros [Hbuild Hcreate]%RecordInflow_inv.
  apply buildInflow_inv in Hbuild
    as (_ & Hsrc & _ & rule & allocation & parent & _ & _ & Htargets & -> & _).
  set (tx := Transaction.Make _ _ _ _ _ _) in *.
  assert (Hshape : forall id,
            shape <$> buckets db' !! id = shape <$> buckets db !! id).
  { intros id. apply TransactionRepo_Create_ok in Hcreate as (bs & Hins & ->).
    apply (insertEntries_shape _ _ _ id Hins). }
  assert (Hdb : forall e, In e (Transaction.Entries tx) ->
            TransactionEntry.Layer e = LayerVirtual ->
            (anchorOf db (TransactionEntry.BucketID e) = Some parent
             \/ anchorOf db (TransactionEntry.BucketID e) = None)
            /\ exists row,
                 buckets db !! TransactionEntry.BucketID e = Some row
                 /\ (bucket_type row = BucketTypeVirtual ->
                     is_Some (parent_physical_bucket_id row))).
  { intros e He Hl. by apply (inflow_anchors env db input parent allocation). }
  split.
  - destruct (GenerateTasks_total env' db' tx) as [tasks Htasks].
    { intros e He Hl. destruct (Hdb e He Hl) as [_ (row & Hrow & Hpar)].
      specialize (Hshape (TransactionEntry.BucketID e)).
      rewrite Hrow in Hshape.
      destruct (buckets db' !! TransactionEntry.BucketID e) as [row'|];
        [|discriminate].
      exists row'. split; [done|]. unfold shape in Hshape. simpl in Hshape.
      injection Hshape as -> ->. exact Hpar. }
    rewrite Htasks. f_equal.
    apply (single_anchor_no_tasks env' db' tx parent tasks Htasks).
    intros e He Hl.
    rewrite (generator_claims.anchorOf_shape db db' _ (Hshape _)).
    by apply Hdb.
  - destruct (GenerateTasks_total env' db tx) as [tasks Htasks].
    { intros e He Hl. by apply Hdb. }
    rewrite Htasks. f_equal.
    apply (single_anchor_no_tasks env' db tx parent tasks Htasks).
    intros e He Hl. by apply Hdb.
Qed.

Lemma X12_inflow_no_tasks_witness :
  exists tx db',
    RecordInflow testEnv salaryDB salaryInflow = (Ok tx, db')
    /\ task_generator.GenerateTasks testEnv db' tx = Ok []
    /\ task_generator.GenerateTasks testEnv salaryDB tx = Ok [].
Proof.
  destruct (RecordInflow testEnv salaryDB salaryInflow) as [[tx|msg] db'] eqn:H;
    [|vm_compute in H; discriminate].
  exists tx, db'. split; [reflexivity|].
  exact (X12_inflow_no_tasks testEnv testEnv salaryDB db' salaryInflow tx H).
Defined.

End inflow_facts.

(** ** The services: failures and profit *)

Module service_facts.
Import decimal_facts storage_facts networth_claims.
Import investment.

(** X13.  A call of [RecordInflow], [LogExpense] or [UpdateMarketValue]
    that returns an error leaves the database exactly as it was: no
    transaction, no entry, no balance change and no market-value point
    survives a failed call. *)
Theorem X13_errors_leave_database (env : Env) (db : DB) :
  (forall input msg db',
     inflow.RecordInflow env db input = (Err msg, db') -> db' = db)
  /\ (forall input msg db',
        expense.LogExpense env db input = (Err msg, db') -> db' = db)
  /\ (forall bucketID amount msg db',
        UpdateMarketValue env db bucketID amount = (Err msg, db') -> db' = db).
Proof.
  assert (Hcreate : forall tx msg db',
            TransactionRepo_Create db tx = (Err msg, db') -> db' = db).
  { intros tx msg db'. unfold TransactionRepo_Create.
    destruct (insertEntries _ _); [discriminate|]. by intros [= _ <-]. }
  split; [|split].
  - intros input msg db'. unfold inflow.RecordInflow.
    destruct (inflow.buildInflow env db input) as [tx|]; [|by intros [= _ <-]].
    destruct (TransactionRepo_Create db tx) as [[[]|msg0] db0] eqn:Hc;
      [discriminate|].
    intros [= _ <-]. by apply (Hcreate tx msg0).
  - intros input msg db'. unfold expense.LogExpense.
    destruct (expense.buildExpense env db input) as [tx|]; [|by intros [= _ <-]].
    destruct (TransactionRepo_Create db tx) as [[[]|msg0] db0] eqn:Hc;
      [discriminate|].
    intros [= _ <-]. by apply (Hcreate tx msg0).
  - intros bucketID amount msg db'. unfold UpdateMarketValue, MarketValueRepo_Add.
    destruct (LessThanOrEqual amount Zero); [by intros [= _ <-]|].
    destruct (BucketRepo_GetByID db bucketID); [|by intros [= _ <-]].
    cbn [MarketValueHistory.BucketID].
    destruct (buckets db !! bucketID); [discriminate|by intros [= _ <-]].
Qed.

(** X14.  [CalculateProfit] fails only for a bucket that does not exist.
    For an existing bucket without any market-value point it answers
    zero, whatever the book value; otherwise it answers the value of a
    latest point minus the bucket's running balance. *)
Theorem X14_profit (db : DB) (bucketID : UUID) :
  (buckets db !! bucketID = None ->
   CalculateProfit db bucketID = Err ErrBucketNotFound)
  /\ (forall book,
        balanceOf db bucketID = Some book ->
        (hasNoPoint db bucketID -> CalculateProfit db bucketID = Ok Zero)
        /\ (forall point,
              In point (market_value_history db) ->
              MarketValueHistory.BucketID point = bucketID ->
              exists latest profit,
                isLatest db bucketID latest
                /\ CalculateProfit db bucketID = Ok profit
                /\ (toQ profit
                    == toQ (MarketValueHistory.MarketValue latest) - toQ book)%Q)).
Proof.
  unfold CalculateProfit, BucketRepo_GetByID, balanceOf. split.
  - by intros ->.
  - intros book Hbook.
    destruct (buckets db !! bucketID) as [row|]; [|discriminate].
    injection Hbook as <-. simpl.
    pose proof (GetLatest_spec db bucketID) as Hlatest.
    destruct (MarketValueRepo_GetLatest db bucketID) as [latest|]; split.
    + intros Hno. destruct Hlatest as (Hin & Hb & _). by destruct (Hno latest).
    + intros _ _ _. exists latest, (Sub (MarketValueHistory.MarketValue latest)
                                       (current_balance row)).
      split; [done|]. split; [done|]. apply toQ_Sub.
    + done.
    + intros point Hin Hb. by destruct (Hlatest point).
Qed.

(** X15.  After a successful [UpdateMarketValue] made when the clock is
    ahead of the bucket's older points, [CalculateProfit] answers the new
    value minus the bucket's running balance, which the update has not
    touched. *)
Theorem X15_profit_after_update (env : Env) (db db' : DB) (bucketID : UUID)
                                (amount book : Decimal)
                                (entry : MarketValueHistory.t) :
  UpdateMarketValue env db bucketID amount = (Ok entry, db') ->
  balanceOf db bucketID = Some book ->
  (forall row, In row (market_value_history db) ->
               MarketValueHistory.BucketID row = bucketID ->
               MarketValueHistory.Date row < now env) ->
  (exists profit,
     CalculateProfit db' bucketID = Ok profit
     /\ (toQ profit == toQ amount - toQ book)%Q)
  /\ balanceOf db' bucketID = Some book.
Proof.
  unfold UpdateMarketValue, MarketValueRepo_Add, BucketRepo_GetByID, balanceOf.
  destruct (LessThanOrEqual amount Zero); [discriminate|].
  destruct (buckets db !! bucketID) as [row|] eqn:Hrow; [|discriminate].
  cbn [MarketValueHistory.BucketID]. rewrite Hrow.
  intros [= <- <-] [= <-] Hclock.
  split; [|cbn [buckets]; by rewrite Hrow].
  unfold CalculateProfit, BucketRepo_GetByID. cbn [buckets]. rewrite Hrow. simpl.
  set (entry := MarketValueHistory.Make _ _ _ _).
  set (db' := MakeDB _ _ _ _).
  pose proof (GetLatest_spec db' bucketID) as Hlatest.
  destruct (MarketValueRepo_GetLatest db' bucketID) as [latest|].
  - destruct Hlatest as (Hin & Hb & Hmax).
    assert (latest = entry) as ->;
      [|eexists; split; [reflexivity|apply toQ_Sub]].
    unfold db' in Hin. cbn [market_value_history] in Hin.
    apply in_app_or in Hin as [Hin|[<-|[]]]; [|done].
    exfalso. specialize (Hclock latest Hin Hb).
    assert (MarketValueHistory.Date entry <= MarketValueHistory.Date latest);
      [|unfold entry in *; simpl in *; lia].
    apply Hmax; [|done]. unfold db'. cbn [market_value_history].
    apply in_or_app. right. by left.
  - exfalso. apply (Hlatest entry); [|done].
    unfold db'. cbn [market_value_history]. apply in_or_app. right. by left.
Qed.

Lemma X15_profit_after_update_witness :
  exists entry db',
    UpdateMarketValue testEnv portfolioDB 5 (NewFromInt 700) = (Ok entry, db')
    /\ (exists profit,
          CalculateProfit db' 5%N = Ok profit
          /\ (toQ profit == toQ (NewFromInt 700) - toQ (NewFromInt 500))%Q)
    /\ balanceOf db' 5%N = Some (NewFromInt 500).
Proof.
  destruct (UpdateMarketValue testEnv portfolioDB 5 (NewFromInt 700))
    as [[entry|msg] db'] eqn:H; [|vm_compute in H; discriminate].
  exists entry, db'. split; [reflexivity|].
  apply (X15_profit_after_update testEnv portfolioDB db' 5%N (NewFromInt 700)
           (NewFromInt 500) entry H).
  - reflexivity.
  - intros row [<-|[<-|[]]] _; vm_compute; reflexivity.
Defined.

End service_facts.

(** ** The tasks the generator emits *)

Module task_facts.
Import decimal_facts allocator_facts storage_facts generator_facts allocation_facts.
Import task_generator.

Lemma toQ_Min a b :
  (toQ (Min a b) <= toQ a)%Q /\ (toQ (Min a b) <= toQ b)%Q.
Proof.
  unfold Min. destruct (LessThan b a) eqn:E.
  - apply LessThan_toQ in E. split; lra.
  - apply not_LessThan_toQ in E. split; lra.
Qed.

Lemma toQ_Abs_negative d :
  LessThan d Zero = true -> (toQ (Abs d) == - toQ d)%Q.
Proof.
  intros H%LessThan_Zero. unfold toQ, Abs. cbn [value exp].
  replace (Z.abs (value d)) with (- value d) by lia.
  rewrite inject_Z_opp. ring.
Qed.

(** The inner loop: the receivers' flows only go down, nothing else
    moves, and every task it appends is within the flows it started
    from. *)
Lemma matchReceivers_inv env txID from F0 receiving :
  forall fromAmount flows tasks,
    (forall k, (toQ (flowOf flows k) <= F0 k)%Q) ->
    (toQ fromAmount <= - F0 from)%Q ->
    Forall (taskWithin txID F0) tasks ->
    (forall k, (toQ (flowOf
                       (fst (matchReceivers env txID from fromAmount receiving
                               flows tasks)) k)
                <= F0 k)%Q)
    /\ (forall k, ~ In k receiving ->
          flowOf (fst (matchReceivers env txID from fromAmount receiving
                         flows tasks)) k
          = flowOf flows k)
    /\ Forall (taskWithin txID F0)
              (snd (matchReceivers env txID from fromAmount receiving flows
                      tasks)).
Proof.
  induction receiving as [|to rest IH]; intros fromAmount flows tasks
    Hflows Hfrom Htasks; simpl; [done|].
  set (transfer := Min fromAmount (flowOf flows to)).
  destruct (toQ_Min fromAmount (flowOf flows to)) as [Hm1 Hm2].
  fold transfer in Hm1, Hm2.
  destruct (GreaterThan transfer Zero) eqn:Hpos.
  - apply toQ_positive in Hpos.
    set (task := newTask env (length tasks) txID from to transfer).
    set (flows1 := <[to := Sub (flowOf flows to) transfer]> flows).
    assert (Hflows1 : forall k, (toQ (flowOf flows1 k) <= F0 k)%Q).
    { intros k. unfold flows1. rewrite flowOf_insert.
      destruct (N.eqb_spec to k) as [<-|_]; [|apply Hflows].
      rewrite toQ_Sub. specialize (Hflows to). lra. }
    assert (Hout : forall k, ~ In k (to :: rest) -> flowOf flows1 k = flowOf flows k).
    { intros k Hk. unfold flows1. rewrite flowOf_insert.
      destruct (N.eqb_spec to k) as [<-|_]; [|done].
      exfalso. apply Hk. by left. }
    assert (Htasks1 : Forall (taskWithin txID F0) (tasks ++ [task])).
    { apply Forall_app. split; [done|]. constructor; [|constructor].
      unfold taskWithin, task, newTask. simpl.
      repeat (split; [done|]). specialize (Hflows to). split; lra. }
    destruct (LessThanOrEqual (Sub fromAmount transfer) Zero).
    + simpl. split; [done|]. split; [done|done].
    + destruct (IH (Sub fromAmount transfer) flows1 (tasks ++ [task]))
        as (H1 & H2 & H3); [done| |done|].
      { rewrite toQ_Sub. lra. }
      split; [done|]. split; [|done].
      intros k Hk. rewrite H2 by (intros ?; apply Hk; by right).
      by apply Hout.
  - destruct (IH fromAmount flows tasks) as (H1 & H2 & H3); [done..|].
    split; [done|]. split; [|done].
    intros k Hk. apply H2. intros ?. apply Hk. by right.
Qed.

(** The outer loop. *)
Lemma matchSenders_inv env txID F0 receiving sending :
  forall flows tasks,
    (forall k, (toQ (flowOf flows k) <= F0 k)%Q) ->
    (forall s, In s sending ->
       LessThan (flowOf flows s) Zero = true
       /\ (toQ (flowOf flows s) == F0 s)%Q
       /\ ~ In s receiving) ->
    Forall (taskWithin txID F0) tasks ->
    Forall (taskWithin txID F0)
           (matchSenders env txID sending receiving flows tasks).
Proof.
  induction sending as [|from rest IH]; intros flows tasks Hflows Hsend Htasks;
    simpl; [done|].
  destruct (Hsend from) as (Hneg & Heq & Hnr); [by left|].
  destruct (matchReceivers_inv env txID from F0 receiving
              (Abs (flowOf flows from)) flows tasks) as (H1 & H2 & H3);
    [done| |done|].
  { rewrite (toQ_Abs_negative _ Hneg), Heq. lra. }
  destruct (matchReceivers env txID from (Abs (flowOf flows from)) receiving
              flows tasks) as [flows' tasks'].
  simpl in H1, H2, H3. apply IH; [done| |done].
  intros s Hs. destruct (Hsend s) as (Hn & He & Hr); [by right|].
  rewrite (H2 s Hr). done.
Qed.

(** Which anchors are receivers and which are senders does not depend on
    the order the map is ranged over. *)
Lemma classified_perm (f : N * Decimal -> bool) (l l' : list (N * Decimal)) k :
  l ≡ₚ l' ->
  In k (List.map fst (List.filter f l)) <-> In k (List.map fst (List.filter f l')).
Proof.
  intros Hp.
  pose proof (Permutation_map fst (List_filter_perm f _ _ Hp)) as Hm.
  rewrite <- !list_elem_of_In. by rewrite Hm.
Qed.

Lemma GenerateTasksIn_within enumerate env db tx tasks :
  rangeOrder enumerate ->
  GenerateTasksIn enumerate env db tx = Ok tasks ->
  Forall (taskWithin (Transaction.ID tx) (netFlow db tx)) tasks.
Proof.
  intros Henum. unfold GenerateTasksIn.
  destruct (virtualEntriesOf tx) as [|e0 rest] eqn:Hve; [by intros [= <-]|].
  rewrite <- Hve.
  destruct (netFlows db (virtualEntriesOf tx) ∅) as [flows|] eqn:Hflows;
    [|discriminate].
  simpl. rewrite classify_spec. intros [= <-].
  pose proof (netFlow_of_flows _ _ _ Hflows) as Hnet.
  apply matchSenders_inv.
  - intros k. rewrite Hnet. lra.
  - intros s Hs.
    apply (classified_perm _ _ _ _ (Henum flows)), sender_flow in Hs.
    split; [done|]. split; [apply Hnet|].
    intros Hr.
    apply (classified_perm _ _ _ _ (Henum flows)), receiver_flow in Hr.
    apply toQ_negative in Hs. apply toQ_positive in Hr. lra.
  - constructor.
Qed.

(** X16.  In whatever order the loop of [GenerateTasks] ranges over the
    net flows, every task it returns is open (not completed, no completing
    transaction), refers to the analysed transaction, and moves a strictly
    positive amount from a physical anchor whose net flow over the VIRTUAL
    entries is negative to a different anchor whose net flow is positive;
    the amount is at most what the sender loses and at most what the
    receiver gains. *)
Theorem X16_task_invariants (enumerate : gmap N Decimal -> list (N * Decimal))
                            (env : Env) (db : DB) (tx : Transaction.t)
                            (tasks : list TransferTask.t) :
  rangeOrder enumerate ->
  GenerateTasksIn enumerate env db tx = Ok tasks ->
  forall task, In task tasks ->
    TransferTask.RelatedTransactionID task = Transaction.ID tx
    /\ TransferTask.CompletedTransactionID task = None
    /\ TransferTask.IsCompleted task = false
    /\ GreaterThan (TransferTask.Amount task) Zero = true
    /\ (netFlow db tx (TransferTask.FromPhysicalBucketID task) < 0)%Q
    /\ (0 < netFlow db tx (TransferTask.ToPhysicalBucketID task))%Q
    /\ TransferTask.FromPhysicalBucketID task
       <> TransferTask.ToPhysicalBucketID task
    /\ (toQ (TransferTask.Amount task)
        <= - netFlow db tx (TransferTask.FromPhysicalBucketID task))%Q
    /\ (toQ (TransferTask.Amount task)
        <= netFlow db tx (TransferTask.ToPhysicalBucketID task))%Q.
Proof.
  intros Henum Hgen task Hin.
  pose proof (GenerateTasksIn_within enumerate env db tx tasks Henum Hgen)
    as Hall.
  rewrite Forall_forall in Hall.
  destruct (Hall task) as (H1 & H2 & H3 & H4 & H5 & H6);
    [by apply list_elem_of_In|].
  do 3 (split; [done|]). split; [by apply toQ_positive|].
  split; [lra|]. split; [lra|]. split; [|done].
  intros E. rewrite E in H5. lra.
Qed.

Lemma X16_task_invariants_witness :
  rangeOrder (fun flows : gmap N Decimal => rev (map_to_list flows))
  /\ exists tasks task,
       GenerateTasksIn (fun flows => rev (map_to_list flows))
                       testEnv interBankDB interBankTransfer = Ok tasks
       /\ In task tasks
       /\ TransferTask.IsCompleted task = false
       /\ TransferTask.FromPhysicalBucketID task
          <> TransferTask.ToPhysicalBucketID task.
Proof.
  assert (Henum : rangeOrder (fun flows : gmap N Decimal =>
                                rev (map_to_list flows)))
    by (intros m; symmetry; apply Permutation_rev).
  split; [exact Henum|].
  destruct (GenerateTasksIn (fun flows => rev (map_to_list flows))
                            testEnv interBankDB interBankTransfer)
    as [tasks|msg] eqn:H; [|vm_compute in H; discriminate].
  destruct tasks as [|task rest]; [vm_compute in H; discriminate|].
  destruct (X16_task_invariants _ testEnv interBankDB interBankTransfer
              (task :: rest) Henum H task (or_introl eq_refl))
    as (_ & _ & Hc & _ & _ & _ & Hne & _).
  exists (task :: rest), task.
  split; [reflexivity|]. split; [by left|]. split; [exact Hc|exact Hne].
Defined.

End task_facts.

(** ** The gRPC adapter *)

Module grpc_facts.
Import decimal_facts storage_facts validate_claims expense_claims ledger_facts.
Import grpc.

(** X17.  [protoBucketTypeToDomain] sends PHYSICAL, VIRTUAL, INCOME,
    EXPENSE and EQUITY to the domain type of the same name and every other
    enum value, UNSPECIFIED and the values without a name, to the empty
    string, never to SYSTEM; [domainBucketTypeToProto] sends the five
    domain types back and every other string, SYSTEM and the empty string
    included, to UNSPECIFIED.  So an enum value survives the round trip
    exactly when it has a name, a value without a name comes back as
    UNSPECIFIED, and a domain type survives it exactly when it is one of
    the five or empty. *)
Theorem X17_bucket_type_round_trip :
  (protoBucketTypeToDomain BUCKET_TYPE_PHYSICAL = BucketTypePhysical
   /\ protoBucketTypeToDomain BUCKET_TYPE_VIRTUAL = BucketTypeVirtual
   /\ protoBucketTypeToDomain BUCKET_TYPE_INCOME = BucketTypeIncome
   /\ protoBucketTypeToDomain BUCKET_TYPE_EXPENSE = BucketTypeExpense
   /\ protoBucketTypeToDomain BUCKET_TYPE_EQUITY = BucketTypeEquity)
  /\ (forall p,
        protoBucketTypeToDomain p = EmptyString
        <-> p = BUCKET_TYPE_UNSPECIFIED \/ exists n, p = BUCKET_TYPE_unnamed n)
  /\ (forall p, protoBucketTypeToDomain p <> BucketTypeSystem)
  /\ (forall p,
        domainBucketTypeToProto (protoBucketTypeToDomain p) = p
        <-> forall n, p <> BUCKET_TYPE_unnamed n)
  /\ (forall p,
        domainBucketTypeToProto (protoBucketTypeToDomain p)
        = match p with BUCKET_TYPE_unnamed _ => BUCKET_TYPE_UNSPECIFIED | _ => p end)
  /\ (forall s,
        protoBucketTypeToDomain (domainBucketTypeToProto s) = s
        <-> In s [BucketTypePhysical; BucketTypeVirtual; BucketTypeIncome;
                  BucketTypeExpense; BucketTypeEquity; EmptyString])
  /\ (forall s,
        domainBucketTypeToProto s = BUCKET_TYPE_UNSPECIFIED
        <-> ~ In s [BucketTypePhysical; BucketTypeVirtual; BucketTypeIncome;
                    BucketTypeExpense; BucketTypeEquity])
  /\ domainBucketTypeToProto BucketTypeSystem = BUCKET_TYPE_UNSPECIFIED.
Proof.
  split; [by repeat split|].
  split.
  { intros p. split.
    - destruct p as [| | | | | |n]; try discriminate; [by left|].
      intros _. right. by exists n.
    - by intros [->|[n ->]]. }
  split; [by intros []|].
  split.
  { intros p. split.
    - intros H n ->. discriminate.
    - intros H. destruct p as [| | | | | |n]; try reflexivity.
      by destruct (H n). }
  split; [|split; [|split]].
  - by intros [].
  - intros s. unfold domainBucketTypeToProto.
    destruct (String.eqb_spec s BucketTypePhysical) as [->|H1];
      [split; [intros _; by left|done]|].
    destruct (String.eqb_spec s BucketTypeVirtual) as [->|H2];
      [split; [intros _; right; by left|done]|].
    destruct (String.eqb_spec s BucketTypeIncome) as [->|H3];
      [split; [intros _; do 2 right; by left|done]|].
    destruct (String.eqb_spec s BucketTypeExpense) as [->|H4];
      [split; [intros _; do 3 right; by left|done]|].
    destruct (String.eqb_spec s BucketTypeEquity) as [->|H5];
      [split; [intros _; do 4 right; by left|done]|].
    simpl. split.
    + intros <-. do 5 right. by left.
    + intros [?|[?|[?|[?|[?|[?|[]]]]]]]; congruence.
  - intros s. unfold domainBucketTypeToProto.
    destruct (String.eqb_spec s BucketTypePhysical) as [->|H1];
      [split; [done|intros H; exfalso; apply H; by left]|].
    destruct (String.eqb_spec s BucketTypeVirtual) as [->|H2];
      [split; [done|intros H; exfalso; apply H; right; by left]|].
    destruct (String.eqb_spec s BucketTypeIncome) as [->|H3];
      [split; [done|intros H; exfalso; apply H; do 2 right; by left]|].
    destruct (String.eqb_spec s BucketTypeExpense) as [->|H4];
      [split; [done|intros H; exfalso; apply H; do 3 right; by left]|].
    destruct (String.eqb_spec s BucketTypeEquity) as [->|H5];
      [split; [done|intros H; exfalso; apply H; do 4 right; by left]|].
    split; [|done]. intros _ [?|[?|[?|[?|[?|[]]]]]]; congruence.
  - reflexivity.
Qed.

Lemma Equal_refl d : Equal d d = true.
Proof. unfold Equal, Cmp. by rewrite Z.compare_refl. Qed.

(** The four entries of an expense of a positive amount validate. *)
Lemma Validate_expense env amount description source virtualID categoryID :
  LessThanOrEqual amount Zero = false ->
  Validate (Transaction.Make (newUUID env 0) description (now env) false false
              (expenseEntries env amount source virtualID categoryID))
  = Ok tt.
Proof.
  intros Hpos. unfold Validate, expenseEntries.
  cbn [rbind Transaction.Entries separateEntries TransactionEntry.Layer
       TransactionEntry.Amount TransactionEntry.Type_].
  rewrite Hpos.
  change (String.eqb LayerPhysical LayerPhysical) with true.
  change (String.eqb LayerVirtual LayerPhysical) with false.
  change (String.eqb LayerVirtual LayerVirtual) with true.
  change (String.eqb EntryTypeCredit EntryTypeDebit) with false.
  change (String.eqb EntryTypeCredit EntryTypeCredit) with true.
  change (String.eqb EntryTypeDebit EntryTypeDebit) with true.
  cbn [negb andb fst snd app].
  unfold validateLayerBalance, layerTotals.
  cbn [rbind foldl TransactionEntry.Type_ TransactionEntry.Amount
       fst snd app].
  change (String.eqb EntryTypeCredit EntryTypeDebit) with false.
  change (String.eqb EntryTypeDebit EntryTypeDebit) with true.
  cbn [fst snd]. by rewrite Equal_refl.
Qed.

(** X18.  Every way [LogExpense] can fail before it writes, with the
    status code the handler answers through [mapError]: a non-positive
    amount, a virtual bucket that is not VIRTUAL, a category that is not
    an EXPENSE bucket and a VIRTUAL bucket without parent give
    InvalidArgument; a missing bucket gives NotFound; an override that is
    not a PHYSICAL bucket gives Internal.  The candidate transaction
    itself is never rejected. *)
Theorem X18_expense_rejections (env : Env) (db : DB)
                               (input : expense.LogExpenseInput) (msg : string) :
  expense.buildExpense env db input = Err msg ->
  (LessThanOrEqual (expense.Amount input) Zero = true
   /\ msg = expense.ErrAmount /\ mapError msg = InvalidArgument)
  \/ (LessThanOrEqual (expense.Amount input) Zero = false
      /\ ((msg = ErrBucketNotFound /\ mapError msg = NotFound
           /\ (typeOf db (expense.VirtualBucketID input) = None
               \/ typeOf db (expense.CategoryBucketID input) = None
               \/ exists o, expense.PhysicalOverrideID input = Some o
                            /\ typeOf db o = None))
          \/ (msg = expense.ErrVirtualType /\ mapError msg = InvalidArgument
              /\ exists t, typeOf db (expense.VirtualBucketID input) = Some t
                           /\ t <> BucketTypeVirtual)
          \/ (msg = expense.ErrCategoryType /\ mapError msg = InvalidArgument
              /\ exists t, typeOf db (expense.CategoryBucketID input) = Some t
                           /\ t <> BucketTypeExpense)
          \/ (msg = expense.ErrOverrideType /\ mapError msg = Internal
              /\ exists o t, expense.PhysicalOverrideID input = Some o
                             /\ typeOf db o = Some t
                             /\ t <> BucketTypePhysical)
          \/ (msg = expense.ErrNoParent /\ mapError msg = InvalidArgument
              /\ expense.PhysicalOverrideID input = None
              /\ parentOf db (expense.VirtualBucketID input) = None))).
Proof.
  unfold expense.buildExpense, typeOf, parentOf, BucketRepo_GetByID.
  destruct (LessThanOrEqual (expense.Amount input) Zero) eqn:Hpos.
  { intros [= <-]. left. by repeat split. }
  intros H. right. split; [done|].
  destruct (buckets db !! expense.VirtualBucketID input) as [vrow|];
    cbn [rbind toBucket Bucket.BucketType Bucket.ParentPhysicalBucketID
         fmap option_fmap option_map mbind option_bind] in H |- *;
    [|injection H as <-; left; split; [done|]; split; [reflexivity|by left]].
  destruct (String.eqb_spec (bucket_type vrow) BucketTypeVirtual) as [Hvt|Hvt];
    cbn [negb] in H;
    [|injection H as <-; right; left; split; [done|]; split; [reflexivity|];
      by exists (bucket_type vrow)].
  destruct (buckets db !! expense.CategoryBucketID input) as [crow|];
    cbn [rbind toBucket Bucket.BucketType Bucket.ParentPhysicalBucketID
         fmap option_fmap option_map] in H |- *;
    [|injection H as <-; left; split; [done|]; split; [reflexivity|];
      right; by left].
  destruct (String.eqb_spec (bucket_type crow) BucketTypeExpense) as [Hct|Hct];
    cbn [negb] in H;
    [|injection H as <-; do 2 right; left; split; [done|];
      split; [reflexivity|]; by exists (bucket_type crow)].
  unfold expense.sourcePhysicalBucket, BucketRepo_GetByID in H.
  destruct (expense.PhysicalOverrideID input) as [o|].
  - destruct (buckets db !! o) as [orow|] eqn:Ho;
      cbn [rbind toBucket Bucket.BucketType] in H.
    + destruct (String.eqb_spec (bucket_type orow) BucketTypePhysical)
        as [Hot|Hot]; cbn [negb rbind] in H.
      * pose proof (Validate_expense env (expense.Amount input)
                      (expense.Description input) o
                      (expense.VirtualBucketID input)
                      (expense.CategoryBucketID input) Hpos) as Hv.
        unfold expenseEntries in Hv. rewrite Hv in H. discriminate.
      * injection H as <-. do 3 right. left. split; [done|].
        split; [reflexivity|]. exists o, (bucket_type orow).
        rewrite Ho. by repeat split.
    + injection H as <-. left. split; [done|]. split; [reflexivity|].
      do 2 right. exists o. by rewrite Ho.
  - cbn [toBucket Bucket.ParentPhysicalBucketID] in H.
    destruct (parent_physical_bucket_id vrow) as [parent|];
      cbn [rbind] in H.
    + pose proof (Validate_expense env (expense.Amount input)
                    (expense.Description input) parent
                    (expense.VirtualBucketID input)
                    (expense.CategoryBucketID input) Hpos) as Hv.
      unfold expenseEntries in Hv. rewrite Hv in H. discriminate.
    + injection H as <-. do 4 right. split; [done|]. split; [reflexivity|].
      by split.
Qed.

Lemma X18_expense_rejections_witness :
  exists msg,
    expense.buildExpense testEnv standardDB
      (expense.MakeInput (NewFromInt 50) "Groceries" 2 3 (Some 2%N)) = Err msg
    /\ msg = expense.ErrOverrideType /\ mapError msg = Internal.
Proof.
  exists expense.ErrOverrideType.
  assert (H : expense.buildExpense testEnv standardDB
                (expense.MakeInput (NewFromInt 50) "Groceries" 2 3 (Some 2%N))
              = Err expense.ErrOverrideType) by (vm_compute; reflexivity).
  split; [exact H|].
  destruct (X18_expense_rejections _ _ _ _ H)
    as [(_ & _ & Hc)|(_ & [(_ & Hc & _)|[(_ & Hc & _)|[(_ & Hc & _)
        |[(_ & Hc & _)|(_ & Hc & _)]]]])]; split; try reflexivity; exact Hc.
Defined.

(** The amount [ListTransactions] shows. *)
Lemma toQ_shownAmount_acc entries acc :
  (toQ (foldl (fun amount entry =>
                 if String.eqb (TransactionEntry.Layer entry) LayerPhysical
                    && String.eqb (TransactionEntry.Type_ entry) EntryTypeCredit
                 then Add amount (TransactionEntry.Amount entry)
                 else amount)
              acc entries)
   == toQ acc
      + Qsum (List.map (fun e => toQ (TransactionEntry.Amount e))
                (List.filter (fun e => inLayer LayerPhysical e
                                       && hasType EntryTypeCredit e)
                             entries)))%Q.
Proof.
  revert acc. induction entries as [|e entries IH]; intros acc; simpl; [ring|].
  rewrite IH. unfold inLayer, hasType.
  destruct (String.eqb (TransactionEntry.Layer e) LayerPhysical
            && String.eqb (TransactionEntry.Type_ e) EntryTypeCredit); simpl;
    rewrite ?toQ_Add; ring.
Qed.

Lemma toQ_shownAmount tx :
  (toQ (shownAmount tx)
   == toQ (layerSum LayerPhysical EntryTypeCredit (Transaction.Entries tx)))%Q.
Proof.
  unfold shownAmount. rewrite toQ_shownAmount_acc, toQ_layerSum, toQ_zeroValue.
  ring.
Qed.

Lemma readBack_refl entries : readBack entries entries.
Proof.
  exists entries. split; [done|].
  induction entries as [|e l IH]; constructor; [|done].
  repeat split; reflexivity.
Qed.

(** Reading back changes no sum over the entries of a layer and
    direction. *)
Lemma readBack_sum layer type stored listed :
  readBack stored listed ->
  (Qsum (List.map (fun e => toQ (TransactionEntry.Amount e))
           (List.filter (fun e => inLayer layer e && hasType type e) listed))
   == Qsum (List.map (fun e => toQ (TransactionEntry.Amount e))
              (List.filter (fun e => inLayer layer e && hasType type e) stored)))%Q.
Proof.
  intros (l & Hperm & Hsame).
  rewrite <- (Qsum_perm _ _ (Permutation_map _
                (allocator_facts.List_filter_perm _ _ _ Hperm))).
  clear Hperm. induction Hsame as [|a b l l' (_ & Ht & Hl & Ha) _ IH];
    [reflexivity|].
  rewrite !filtered_sum_cons, IH. unfold inLayer, hasType.
  rewrite Ht, Hl.
  destruct (String.eqb (TransactionEntry.Layer b) layer
            && String.eqb (TransactionEntry.Type_ b) type); [|reflexivity].
  by rewrite Ha.
Qed.

Lemma readBack_shownAmount stored listed :
  readBack (Transaction.Entries stored) (Transaction.Entries listed) ->
  (toQ (shownAmount listed)
   == toQ (layerSum LayerPhysical EntryTypeCredit (Transaction.Entries stored)))%Q.
Proof.
  intros H. rewrite toQ_shownAmount, !toQ_layerSum. by apply readBack_sum.
Qed.

(** X19.  For a stored transaction that [Validate] accepted, the amount
    the [ListTransactions] handler shows, computed from the entries as
    they are read back (in another order, amounts parsed again), is the
    total of the PHYSICAL-layer CREDIT amounts and equals the total of the
    PHYSICAL-layer DEBIT amounts; a transaction without PHYSICAL-layer
    entries, a move between virtual buckets for one, is shown with
    amount 0. *)
Theorem X19_shown_amount (tx listed : Transaction.t) :
  Validate tx = Ok tt ->
  readBack (Transaction.Entries tx) (Transaction.Entries listed) ->
  (toQ (shownAmount listed)
   == toQ (layerSum LayerPhysical EntryTypeCredit (Transaction.Entries tx)))%Q
  /\ (toQ (shownAmount listed)
      == toQ (layerSum LayerPhysical EntryTypeDebit (Transaction.Entries tx)))%Q
  /\ ((forall e, In e (Transaction.Entries tx) ->
                 TransactionEntry.Layer e <> LayerPhysical) ->
      (toQ (shownAmount listed) == 0)%Q).
Proof.
  intros Hval Hread. apply Validate_ok_inv in Hval as (_ & Hphys & _).
  pose proof (readBack_shownAmount tx listed Hread) as Hshown.
  split; [done|]. split.
  - rewrite Hshown. symmetry. by apply Equal_toQ.
  - intros Hnone. rewrite Hshown, toQ_layerSum.
    assert (Hnil : List.filter (fun e => inLayer LayerPhysical e
                                         && hasType EntryTypeCredit e)
                     (Transaction.Entries tx) = []).
    { revert Hnone. generalize (Transaction.Entries tx). intros l.
      induction l as [|e l IH]; intros Hnone; simpl; [done|].
      unfold inLayer at 1.
      destruct (String.eqb_spec (TransactionEntry.Layer e) LayerPhysical)
        as [E|_].
      - by destruct (Hnone e (or_introl eq_refl)).
      - simpl. apply IH. intros e' He'. apply Hnone. by right. }
    rewrite Hnil. reflexivity.
Qed.

Lemma X19_shown_amount_witness :
  (toQ (shownAmount physicalOnly)
   == toQ (layerSum LayerPhysical EntryTypeCredit
             (Transaction.Entries physicalOnly)))%Q
  /\ (toQ (shownAmount physicalOnly)
      == toQ (layerSum LayerPhysical EntryTypeDebit
                (Transaction.Entries physicalOnly)))%Q
  /\ ((forall e, In e (Transaction.Entries physicalOnly) ->
                 TransactionEntry.Layer e <> LayerPhysical) ->
      (toQ (shownAmount physicalOnly) == 0)%Q).
Proof.
  apply (X19_shown_amount physicalOnly physicalOnly).
  - vm_compute. reflexivity.
  - apply readBack_refl.
Defined.

(** X20.  What the handlers report for a logged expense: the
    [LogExpense] handler names the physical source as the credited
    bucket, and [ListTransactions], reading the transaction back, shows
    the expense with its amount and as an internal transfer, although the
    stored transaction has [IsInternalTransfer] false. *)
Theorem X20_expense_as_listed (env : Env) (db db' : DB)
                              (input : expense.LogExpenseInput)
                              (tx : Transaction.t) :
  expense.LogExpense env db input = (Ok tx, db') ->
  (exists source,
     physicalSource db input source
     /\ creditedPhysicalBucket (Transaction.Entries tx) = Some source)
  /\ Transaction.IsInternalTransfer tx = false
  /\ forall listed,
       readBack (Transaction.Entries tx) (Transaction.Entries listed) ->
       Transaction.IsExternalInflow listed = Transaction.IsExternalInflow tx ->
       (toQ (shownAmount listed) == toQ (expense.Amount input))%Q
       /\ shownInternalTransfer listed = true.
Proof.
  intros [Hbuild _]%LogExpense_ok.
  apply buildExpense_ok in Hbuild as (source & _ & _ & _ & Hsrc & ->).
  split; [by exists source|]. split; [done|].
  intros listed Hread Hflag. split.
  - rewrite (readBack_shownAmount _ _ Hread), toQ_layerSum.
    unfold expenseEntries. simpl. ring.
  - unfold shownInternalTransfer. by rewrite Hflag.
Qed.

Lemma X20_expense_as_listed_witness :
  exists tx db',
    expense.LogExpense testEnv standardDB standardExpense = (Ok tx, db')
    /\ creditedPhysicalBucket (Transaction.Entries tx) = Some 1%N
    /\ (toQ (shownAmount tx) == toQ (expense.Amount standardExpense))%Q
    /\ shownInternalTransfer tx = true
    /\ Transaction.IsInternalTransfer tx = false.
Proof.
  destruct (expense.LogExpense testEnv standardDB standardExpense)
    as [[tx|msg] db'] eqn:H; [|vm_compute in H; discriminate].
  destruct (X20_expense_as_listed testEnv standardDB db' standardExpense tx H)
    as ((source & Hsrc & Hcred) & Hflag & Hlisted).
  destruct (Hlisted tx (readBack_refl _) eq_refl) as [Hamount Hshown].
  exists tx, db'. split; [reflexivity|].
  assert (source = 1%N) as ->.
  { vm_compute in Hsrc. by injection Hsrc as <-. }
  split; [exact Hcred|]. split; [exact Hamount|].
  split; [exact Hshown|exact Hflag].
Defined.

End grpc_facts.

(** ** Net worth after a posting *)

Module dashboard_facts.
Import decimal_facts allocator_facts storage_facts networth_claims ledger_facts.
Import dashboard.

Lemma typedSum_alter type w (bs : gmap N BucketRow) f id row :
  bs !! id = Some row ->
  bucket_type (f row) = bucket_type row ->
  (typedSum type w (alter f id bs)
   == typedSum type w bs
      + (if String.eqb (bucket_type row) type
         then w id (f row) - w id row else 0))%Q.
Proof.
  intros H Ht. unfold typedSum.
  rewrite (alter_as_insert _ _ _ _ H).
  rewrite (Qsum_perm _ _ (Permutation_map _ (List_filter_perm _ _ _
             (map_to_list_insert (delete id bs) id (f row)
                (lookup_delete_eq bs id))))).
  rewrite <- (Qsum_perm _ _ (Permutation_map _ (List_filter_perm _ _ _
                (map_to_list_delete bs id row H)))).
  simpl. rewrite Ht.
  destruct (String.eqb (bucket_type row) type); simpl; ring.
Qed.

(** One firing of the trigger moves the balances of a type by the entry's
    signed amount if the entry's bucket is of that type, and moves no sum
    that does not look at balances. *)
Lemma typedSum_update type bs entry row :
  bs !! TransactionEntry.BucketID entry = Some row ->
  (typedSum type (fun _ r => toQ (current_balance r))
            (update_bucket_balance bs entry)
   == typedSum type (fun _ r => toQ (current_balance r)) bs
      + (if String.eqb (bucket_type row) type then signedAmount entry else 0))%Q.
Proof.
  intros H. unfold update_bucket_balance, signedAmount, hasType.
  change "DEBIT"%string with EntryTypeDebit.
  change "CREDIT"%string with EntryTypeCredit.
  destruct (String.eqb (TransactionEntry.Type_ entry) EntryTypeDebit);
    [|destruct (String.eqb (TransactionEntry.Type_ entry) EntryTypeCredit)];
    rewrite ?(typedSum_alter _ _ _ _ _ _ H) by done; simpl;
    destruct (String.eqb (bucket_type row) type);
    rewrite ?toQ_Add, ?toQ_Sub; ring.
Qed.

Lemma typedSum_update_keys type (w : N -> Q) bs entry row :
  bs !! TransactionEntry.BucketID entry = Some row ->
  (typedSum type (fun id _ => w id) (update_bucket_balance bs entry)
   == typedSum type (fun id _ => w id) bs)%Q.
Proof.
  intros H. unfold update_bucket_balance.
  destruct (String.eqb (TransactionEntry.Type_ entry) "DEBIT");
    [|destruct (String.eqb (TransactionEntry.Type_ entry) "CREDIT")];
    rewrite ?(typedSum_alter _ _ _ _ _ _ H) by done; simpl;
    destruct (String.eqb (bucket_type row) type); ring.
Qed.

Lemma postsOnType_update bs entry type e :
  postsOnType (update_bucket_balance bs entry) type e = postsOnType bs type e.
Proof.
  unfold postsOnType.
  pose proof (update_shape bs entry (TransactionEntry.BucketID e)) as H.
  destruct (update_bucket_balance bs entry !! TransactionEntry.BucketID e)
    as [r'|], (bs !! TransactionEntry.BucketID e) as [r|]; try done.
  unfold shape in H. simpl in H. by injection H as -> _.
Qed.

Lemma typedSum_insertEntries type entries bs bs' :
  insertEntries bs entries = Ok bs' ->
  (typedSum type (fun _ r => toQ (current_balance r)) bs'
   == typedSum type (fun _ r => toQ (current_balance r)) bs
      + Qsum (List.map signedAmount
                (List.filter (postsOnType bs type) entries)))%Q
  /\ forall w : N -> Q,
       (typedSum type (fun id _ => w id) bs'
        == typedSum type (fun id _ => w id) bs)%Q.
Proof.
  revert bs. induction entries as [|e entries IH]; intros bs; simpl.
  - intros [= <-]. split; [ring|reflexivity].
  - unfold insertEntry.
    destruct (bs !! TransactionEntry.BucketID e) as [row|] eqn:He; [|done].
    simpl. intros H. destruct (IH _ H) as [IH1 IH2]. split.
    + assert (He' : postsOnType bs type e = String.eqb (bucket_type row) type)
        by (unfold postsOnType; by rewrite He).
      rewrite IH1, (typedSum_update _ _ _ _ He).
      rewrite (List.filter_ext _ _ (postsOnType_update bs e type)).
      rewrite He'.
      destruct (String.eqb (bucket_type row) type); simpl; ring.
    + intros w. by rewrite IH2, (typedSum_update_keys _ _ _ _ _ He).
Qed.

Lemma latestValue_history db db' id :
  market_value_history db' = market_value_history db ->
  latestValue db' id = latestValue db id.
Proof.
  intros H. unfold latestValue, MarketValueRepo_GetLatest. by rewrite H.
Qed.

Lemma GetNetWorth_sums db r :
  GetNetWorth db = Ok r ->
  (toQ (Liquidity r)
   == typedSum BucketTypePhysical (fun _ r => toQ (current_balance r))
               (buckets db))%Q
  /\ (toQ (Equity r)
      == typedSum BucketTypeEquity (fun id _ => latestValue db id)
                  (buckets db))%Q
  /\ (toQ (Total r) == toQ (Liquidity r) + toQ (Equity r))%Q.
Proof.
  unfold GetNetWorth. intros [= <-]. cbn [Total Liquidity Equity].
  split; [|split; [|apply toQ_Add]].
  - unfold sumBalances. rewrite BucketRepo_List_spec by done.
    rewrite toQ_sumBalances_acc, toQ_Zero. unfold typedSum, bucketsOfType. ring.
  - unfold sumMarketValues. rewrite BucketRepo_List_spec by done.
    rewrite toQ_sumMarketValues_acc, toQ_Zero. unfold typedSum, bucketsOfType.
    ring.
Qed.

(** The three sums of [GetNetWorth] across a stored transaction. *)
Lemma posting_moves_net_worth (db db' : DB) (tx : Transaction.t)
                        (r r' : NetWorthResult) :
  TransactionRepo_Create db tx = (Ok tt, db') ->
  GetNetWorth db = Ok r ->
  GetNetWorth db' = Ok r' ->
  (toQ (Liquidity r')
   == toQ (Liquidity r)
      + postedOnType db BucketTypePhysical (Transaction.Entries tx))%Q
  /\ (toQ (Equity r') == toQ (Equity r))%Q
  /\ (toQ (Total r')
      == toQ (Total r)
         + postedOnType db BucketTypePhysical (Transaction.Entries tx))%Q.
Proof.
  intros Hc Hr Hr'.
  apply TransactionRepo_Create_ok in Hc as (bs & Hins & ->).
  apply GetNetWorth_sums in Hr as (HL & HE & HT).
  apply GetNetWorth_sums in Hr' as (HL' & HE' & HT').
  cbn [buckets] in HL', HE'.
  destruct (typedSum_insertEntries BucketTypePhysical _ _ _ Hins) as [Hliq _].
  destruct (typedSum_insertEntries BucketTypeEquity _ _ _ Hins) as [_ Heq].
  assert (HL2 : (toQ (Liquidity r')
                 == toQ (Liquidity r)
                    + postedOnType db BucketTypePhysical
                        (Transaction.Entries tx))%Q).
  { rewrite HL', Hliq, HL. reflexivity. }
  assert (HE2 : (toQ (Equity r') == toQ (Equity r))%Q).
  { rewrite HE', HE.
    rewrite <- (Heq (latestValue db)).
    unfold typedSum. apply Qsum_perm. apply Permutation_refl'.
    apply List.map_ext. intros kv. by apply latestValue_history. }
  split; [done|]. split; [done|].
  rewrite HT', HT, HL2, HE2. ring.
Qed.


(** X21.  A stored transaction moves the liquidity [GetNetWorth] reports
    by exactly what its entries post on PHYSICAL buckets (DEBIT amounts
    minus CREDIT amounts, over both layers), leaves the reported equity
    as it was, and so moves the total by the same amount; entries on
    VIRTUAL, INCOME, EXPENSE, EQUITY and SYSTEM buckets do not count. *)
Theorem X21_net_worth_after_posting (db db' : DB) (tx : Transaction.t)
                                    (r r' : NetWorthResult) :
  TransactionRepo_Create db tx = (Ok tt, db') ->
  GetNetWorth db = Ok r ->
  GetNetWorth db' = Ok r' ->
  (toQ (Liquidity r')
   == toQ (Liquidity r)
      + postedOnType db BucketTypePhysical (Transaction.Entries tx))%Q
  /\ (toQ (Equity r') == toQ (Equity r))%Q
  /\ (toQ (Total r')
      == toQ (Total r)
         + postedOnType db BucketTypePhysical (Transaction.Entries tx))%Q.
Proof. apply posting_moves_net_worth. Qed.

Lemma X21_net_worth_after_posting_witness :
  exists tx db' r r',
    expense.LogExpense testEnv standardDB standardExpense = (Ok tx, db')
    /\ GetNetWorth standardDB = Ok r
    /\ GetNetWorth db' = Ok r'
    /\ (toQ (Liquidity r')
        == toQ (Liquidity r)
           + postedOnType standardDB BucketTypePhysical
               (Transaction.Entries tx))%Q
    /\ (toQ (Equity r') == toQ (Equity r))%Q.
Proof.
  destruct (expense.LogExpense testEnv standardDB standardExpense)
    as [[tx|msg] db'] eqn:H; [|vm_compute in H; discriminate].
  destruct (expense_claims.LogExpense_ok _ _ _ _ _ H) as [_ Hc].
  destruct (GetNetWorth standardDB) as [r|] eqn:Hr; [|discriminate].
  destruct (GetNetWorth db') as [r'|] eqn:Hr'; [|discriminate].
  destruct (X21_net_worth_after_posting standardDB db' tx r r' Hc Hr Hr')
    as (HL & HE & _).
  exists tx, db', r, r'. do 2 (split; [reflexivity|]).
  split; [exact Hr'|]. split; [exact HL|exact HE].
Defined.

End dashboard_facts.

(** ** Net worth after an inflow and after an expense *)

Module flow_facts.
Import decimal_facts storage_facts expense_claims ledger_facts inflow_facts
       dashboard_facts.
Import dashboard.

Lemma postsOnType_typeOf db type t e :
  typeOf db (TransactionEntry.BucketID e) = Some t ->
  postsOnType (buckets db) type e = String.eqb t type.
Proof.
  unfold typeOf, postsOnType.
  destruct (buckets db !! TransactionEntry.BucketID e) as [row|]; [|done].
  simpl. by intros [= ->].
Qed.

Lemma postsOnType_Make db type t id :
  typeOf db id = Some t ->
  forall i txID amount direction layer,
    postsOnType (buckets db) type
      (TransactionEntry.Make i txID id amount direction layer)
    = String.eqb t type.
Proof. intros H i txID amount direction layer. by apply postsOnType_typeOf. Qed.

Lemma filter_none {A} (f : A -> bool) (l : list A) :
  (forall x, In x l -> f x = false) -> List.filter f l = [].
Proof.
  induction l as [|x l IH]; intros H; simpl; [done|].
  rewrite (H x) by (by left). apply IH. intros y Hy. apply H. by right.
Qed.

(** What an expense posts on PHYSICAL buckets: the credit of its source. *)
Lemma expense_posted env db amount source virtualID categoryID :
  typeOf db source = Some BucketTypePhysical ->
  typeOf db virtualID = Some BucketTypeVirtual ->
  typeOf db categoryID = Some BucketTypeExpense ->
  (postedOnType db BucketTypePhysical
     (expenseEntries env amount source virtualID categoryID)
   == - toQ amount)%Q.
Proof.
  intros Hs Hv Hc. unfold postedOnType, expenseEntries.
  cbn [List.filter].
  rewrite !(postsOnType_Make db BucketTypePhysical _ source Hs).
  rewrite !(postsOnType_Make db BucketTypePhysical _ categoryID Hc).
  rewrite !(postsOnType_Make db BucketTypePhysical _ virtualID Hv).
  change (String.eqb BucketTypePhysical BucketTypePhysical) with true.
  change (String.eqb BucketTypeExpense BucketTypePhysical) with false.
  change (String.eqb BucketTypeVirtual BucketTypePhysical) with false.
  cbn [List.map Qsum foldr]. rewrite generator_claims.signedAmount_credit. ring.
Qed.

(** What an inflow posts on PHYSICAL buckets: the debit of the parent. *)
Lemma inflow_posted env db input parent (allocation : gmap N Decimal) :
  typeOf db parent = Some BucketTypePhysical ->
  typeOf db (inflow.SourceBucketID input) = Some BucketTypeIncome ->
  (forall k a, allocation !! k = Some a ->
               typeOf db k = Some BucketTypeVirtual) ->
  (postedOnType db BucketTypePhysical
     (inflowEntries env input parent allocation)
   == toQ (inflow.Amount input))%Q.
Proof.
  intros Hp Hs Ht. unfold postedOnType, inflowEntries.
  rewrite !List.filter_app.
  rewrite (filter_none _ (inflow.virtualDebits _ _ _ _)).
  - cbn [List.filter app].
    rewrite !(postsOnType_Make db BucketTypePhysical _ parent Hp).
    rewrite !(postsOnType_Make db BucketTypePhysical _ _ Hs).
    change (String.eqb BucketTypePhysical BucketTypePhysical) with true.
    change (String.eqb BucketTypeIncome BucketTypePhysical) with false.
    cbn [List.map Qsum foldr app]. unfold signedAmount, hasType. simpl. ring.
  - intros e (_ & _ & Hin)%virtualDebits_inv.
    apply list_elem_of_In, elem_of_map_to_list in Hin.
    by rewrite (postsOnType_typeOf db _ BucketTypeVirtual) by (by eapply Ht).
Qed.

(** X22.  In a database whose parents are PHYSICAL buckets, a recorded
    inflow raises the liquidity and the total that [GetNetWorth] reports
    by exactly the inflow's amount, and a logged expense lowers them by
    exactly the expense's amount; neither changes the reported equity. *)
Theorem X22_net_worth_after_services (env : Env) (db db' : DB)
                                     (tx : Transaction.t)
                                     (r r' : NetWorthResult) :
  parentsPhysical db ->
  GetNetWorth db = Ok r ->
  GetNetWorth db' = Ok r' ->
  (forall input,
     inflow.RecordInflow env db input = (Ok tx, db') ->
     (toQ (Liquidity r') == toQ (Liquidity r) + toQ (inflow.Amount input))%Q
     /\ (toQ (Equity r') == toQ (Equity r))%Q
     /\ (toQ (Total r') == toQ (Total r) + toQ (inflow.Amount input))%Q)
  /\ (forall input,
        expense.LogExpense env db input = (Ok tx, db') ->
        (toQ (Liquidity r') == toQ (Liquidity r) - toQ (expense.Amount input))%Q
        /\ (toQ (Equity r') == toQ (Equity r))%Q
        /\ (toQ (Total r') == toQ (Total r) - toQ (expense.Amount input))%Q).
Proof.
  intros Hparents Hr Hr'. split.
  - intros input [Hbuild Hcreate]%RecordInflow_inv.
    destruct (posting_moves_net_worth _ _ _ _ _ Hcreate Hr Hr') as (HL & HE & HT).
    apply buildInflow_inv in Hbuild
      as (_ & Hsrc & _ & rule & allocation & parent & _ & Halloc & Htargets
          & -> & _).
    cbn [Transaction.Entries] in HL, HT.
    assert (Hposted : (postedOnType db BucketTypePhysical
                         (inflowEntries env input parent allocation)
                       == toQ (inflow.Amount input))%Q).
    { apply allocation_facts.CalculateAllocation_Ok in Halloc
        as (_ & _ & _ & r0 & _ & Hm).
      assert (Hkey : is_Some (allocation !! SplitRuleItem.TargetBucketID r0)).
      { rewrite Hm. unfold withRemainder. rewrite lookup_insert_eq. by eexists. }
      destruct Hkey as [a Ha]. destruct (Htargets _ _ Ha) as [_ Hpar].
      apply inflow_posted; [by apply (Hparents _ _ Hpar)|done|].
      intros k a' Hk. by destruct (Htargets _ _ Hk). }
    rewrite Hposted in HL, HT. by repeat split.
  - intros input [Hbuild Hcreate]%LogExpense_ok.
    destruct (posting_moves_net_worth _ _ _ _ _ Hcreate Hr Hr') as (HL & HE & HT).
    apply buildExpense_ok in Hbuild as (source & _ & Hvt & Hct & Hsrc & ->).
    cbn [Transaction.Entries] in HL, HT.
    assert (Hst : typeOf db source = Some BucketTypePhysical).
    { unfold physicalSource in Hsrc.
      destruct (expense.PhysicalOverrideID input) as [o|].
      - by destruct Hsrc as [-> ?].
      - by apply (Hparents _ _ Hsrc). }
    rewrite (expense_posted env db _ _ _ _ Hst Hvt Hct) in HL, HT.
    split; [rewrite HL; ring|]. split; [done|]. rewrite HT. ring.
Qed.

Lemma X22_net_worth_after_services_witness :
  exists tx db' r r',
    inflow.RecordInflow testEnv salaryDB salaryInflow = (Ok tx, db')
    /\ GetNetWorth salaryDB = Ok r
    /\ GetNetWorth db' = Ok r'
    /\ (toQ (Liquidity r')
        == toQ (Liquidity r) + toQ (inflow.Amount salaryInflow))%Q.
Proof.
  assert (Hpar : parentsPhysical salaryDB).
  { intros k p Hk. unfold parentOf in Hk.
    destruct (buckets salaryDB !! k) as [row|] eqn:E; [|discriminate].
    apply elem_of_map_to_list, list_elem_of_In in E. vm_compute in E.
    repeat (destruct E as [E|E];
            [injection E as <- <-; try discriminate;
             injection Hk as <-; vm_compute; reflexivity|]).
    destruct E. }
  destruct (inflow.RecordInflow testEnv salaryDB salaryInflow)
    as [[tx|msg] db'] eqn:H; [|vm_compute in H; discriminate].
  destruct (GetNetWorth salaryDB) as [r|] eqn:Hr; [|discriminate].
  destruct (GetNetWorth db') as [r'|] eqn:Hr'; [|discriminate].
  destruct (X22_net_worth_after_services testEnv salaryDB db' tx r r'
              Hpar Hr Hr') as [Hin _].
  destruct (Hin salaryInflow H) as (HL & _).
  exists tx, db', r, r'. do 2 (split; [reflexivity|]).
  split; [exact Hr'|exact HL].
Defined.

End flow_facts.

(** ** The validation of an inflow *)

Module inflow_validation.
Import decimal_facts allocator_facts storage_facts validate_claims
       inflow_claims ledger_facts allocation_facts inflow_facts.
Import inflow.

Lemma Validate_intro (t : Transaction.t) :
  Transaction.Entries t <> [] ->
  Forall entryWellFormed (Transaction.Entries t) ->
  layerBalanced LayerPhysical (Transaction.Entries t) ->
  layerBalanced LayerVirtual (Transaction.Entries t) ->
  Validate t = Ok tt.
Proof.
  intros Hne Hwf HP HV. unfold Validate.
  destruct (Transaction.Entries t) as [|e0 rest] eqn:E; [done|].
  rewrite <- E in *.
  rewrite (separateEntries_wf _ _ _ Hwf). simpl.
  assert (HP' := proj2 (validateLayerBalance_layer _ LayerPhysical Hwf)
                       (fun _ => HP)).
  assert (HV' := proj2 (validateLayerBalance_layer _ LayerVirtual Hwf)
                       (fun _ => HV)).
  by rewrite HP', HV'.
Qed.

Lemma CalculateAllocation_balanced total items (allocation : gmap N Decimal) :
  CalculateAllocation total items = Ok allocation ->
  (Qsum (List.map (fun kv => toQ (snd kv)) (map_to_list allocation))
   == toQ total)%Q.
Proof.
  unfold CalculateAllocation.
  destruct (LessThanOrEqual total Zero); [discriminate|].
  destruct items as [|i items]; [discriminate|].
  rewrite allocateSorted_spec.
  destruct (fixedFit _ _); [|discriminate].
  destruct (findRemainderItem _) as [r|]; [|discriminate].
  destruct (Equal _ total) eqn:E; [|discriminate].
  intros [= <-]. rewrite <- toQ_sumAmounts. by apply Equal_toQ.
Qed.

(** The sums of the VIRTUAL debits of an inflow. *)
Lemma virtualDebits_sum env txID i (targets : list (N * Decimal)) layer type :
  (Qsum (List.map (fun e => toQ (TransactionEntry.Amount e))
           (List.filter (fun e => inLayer layer e && hasType type e)
                        (virtualDebits env txID i targets)))
   == if String.eqb LayerVirtual layer && String.eqb EntryTypeDebit type
      then Qsum (List.map (fun kv => toQ (snd kv)) targets)
      else 0)%Q.
Proof.
  revert i. induction targets as [|[k a] targets IH]; intros i.
  - simpl. by destruct (_ && _).
  - cbn [virtualDebits]. rewrite filtered_sum_cons, IH.
    unfold inLayer, hasType.
    cbn [TransactionEntry.Layer TransactionEntry.Type_ TransactionEntry.Amount
         List.map Qsum foldr snd].
    unfold Qsum.
    destruct (String.eqb LayerVirtual layer && String.eqb EntryTypeDebit type);
      ring.
Qed.

Lemma inflow_layerSum env input parent (allocation : gmap N Decimal) layer type :
  (toQ (layerSum layer type (inflowEntries env input parent allocation))
   == (if String.eqb LayerPhysical layer && String.eqb EntryTypeDebit type
       then toQ (Amount input) else 0)
      + (if String.eqb LayerPhysical layer && String.eqb EntryTypeCredit type
         then toQ (Amount input) else 0)
      + (if String.eqb LayerVirtual layer && String.eqb EntryTypeDebit type
         then Qsum (List.map (fun kv => toQ (snd kv)) (map_to_list allocation))
         else 0)
      + (if String.eqb LayerVirtual layer && String.eqb EntryTypeCredit type
         then toQ (Amount input) else 0))%Q.
Proof.
  rewrite toQ_layerSum. unfold inflowEntries.
  rewrite !List.filter_app, !List.map_app, !Qsum_app, virtualDebits_sum.
  rewrite !filtered_sum_cons. unfold inLayer, hasType.
  cbn [TransactionEntry.Layer TransactionEntry.Type_ TransactionEntry.Amount
       List.filter List.map Qsum foldr].
  ring.
Qed.

Lemma inflowEntries_shape env input parent (allocation : gmap N Decimal) e :
  In e (inflowEntries env input parent allocation) ->
  (TransactionEntry.Type_ e = EntryTypeDebit
   \/ TransactionEntry.Type_ e = EntryTypeCredit)
  /\ (TransactionEntry.Layer e = LayerPhysical
      \/ TransactionEntry.Layer e = LayerVirtual)
  /\ (TransactionEntry.Amount e = Amount input
      \/ exists k, allocation !! k = Some (TransactionEntry.Amount e)).
Proof.
  unfold inflowEntries. intros Hin.
  apply in_app_or in Hin as [[<-|[<-|[]]]|Hin];
    [split; [by left|split; [by left|by left]]
    |split; [by right|split; [by left|by left]]|].
  apply in_app_or in Hin as [Hin|[<-|[]]];
    [|split; [by right|split; [by right|by left]]].
  apply virtualDebits_inv in Hin as (Ht & Hl & Hin).
  split; [by left|]. split; [by right|]. right.
  exists (TransactionEntry.BucketID e).
  by apply elem_of_map_to_list, list_elem_of_In.
Qed.

(** The candidate transaction of an inflow validates exactly when every
    share is strictly positive. *)
Lemma Validate_inflow env input items parent (allocation : gmap N Decimal) :
  LessThanOrEqual (Amount input) Zero = false ->
  CalculateAllocation (Amount input) items = Ok allocation ->
  ((forall k a, allocation !! k = Some a -> GreaterThan a Zero = true) ->
   Validate (Transaction.Make (newUUID env 0) (Description input) (now env)
               false true (inflowEntries env input parent allocation))
   = Ok tt)
  /\ (forall k a, allocation !! k = Some a -> LessThanOrEqual a Zero = true ->
      Validate (Transaction.Make (newUUID env 0) (Description input) (now env)
                  false true (inflowEntries env input parent allocation))
      = Err ErrEntryAmount).
Proof.
  intros Hpos Halloc.
  pose proof (CalculateAllocation_balanced _ _ _ Halloc) as Hsum.
  split.
  - intros Hshares. apply Validate_intro; cbn [Transaction.Entries].
    + unfold inflowEntries. discriminate.
    + apply List.Forall_forall. intros e He.
      apply inflowEntries_shape in He as (Ht & Hl & Ha).
      split; [|by split].
      destruct Ha as [->|[k Hk]].
      * by rewrite GreaterThan_LessThanOrEqual, Hpos.
      * by apply (Hshares k).
    + apply Equal_toQ. rewrite !inflow_layerSum. simpl. ring.
    + apply Equal_toQ. rewrite !inflow_layerSum. simpl. rewrite Hsum. ring.
  - intros k a Hk Ha. apply Validate_amount; cbn [Transaction.Entries].
    + apply List.Forall_forall. intros e He.
      apply inflowEntries_shape in He as (Ht & Hl & _). split; tauto.
    + apply List.Exists_exists.
      destruct (virtualDebits_In env (newUUID env 0) 3 (map_to_list allocation)
                  k a) as (e & He & _ & Hamount & _).
      { by apply list_elem_of_In, elem_of_map_to_list. }
      exists e. split.
      * unfold inflowEntries. apply in_or_app. right. apply in_or_app. by left.
      * unfold notPositive. by rewrite Hamount.
Qed.

(** X23.  Once the lookups of an external inflow have passed (a positive
    amount, an INCOME source, a split rule the allocator accepts, VIRTUAL
    targets under one parent), the outcome hangs on the shares alone: if
    every share is strictly positive the transaction is built and
    validates; if some share is zero or negative, a negative REMAINDER
    included, [Validate] rejects it on the amount, nothing is stored, and
    [mapError] answers InvalidArgument. *)
Theorem X23_inflow_hangs_on_shares (env : Env) (db : DB)
                                   (input : RecordInflowInput)
                                   (rule : SplitRule.t)
                                   (allocation : gmap N Decimal)
                                   (parent : UUID) :
  LessThanOrEqual (Amount input) Zero = false ->
  typeOf db (SourceBucketID input) = Some BucketTypeIncome ->
  IsExternal input = true ->
  SplitRuleRepo_GetBySourceBucketID db (SourceBucketID input) = Ok rule ->
  CalculateAllocation (Amount input) (SplitRule.Items rule) = Ok allocation ->
  targetsIn db parent rule allocation ->
  ((forall k a, allocation !! k = Some a -> GreaterThan a Zero = true) ->
   buildInflow env db input
   = Ok (Transaction.Make (newUUID env 0) (Description input) (now env)
           false true (inflowEntries env input parent allocation)))
  /\ (forall k a, allocation !! k = Some a -> LessThanOrEqual a Zero = true ->
      RecordInflow env db input = (Err ErrEntryAmount, db)
      /\ grpc.mapError ErrEntryAmount = grpc.InvalidArgument).
Proof.
  intros Hpos Hsrc Hext Hrule Halloc Htargets.
  destruct (Validate_inflow env input _ parent allocation Hpos Halloc)
    as [Hgood Hbad].
  assert (Hbuild : buildInflow env db input
                   = (_ <- Validate
                             (Transaction.Make (newUUID env 0) (Description input)
                                (now env) false true
                                (inflowEntries env input parent allocation)) ;;
                      Ok (Transaction.Make (newUUID env 0) (Description input)
                            (now env) false true
                            (inflowEntries env input parent allocation)))).
  { unfold buildInflow. rewrite Hpos.
    unfold typeOf in Hsrc. unfold BucketRepo_GetByID at 1.
    destruct (buckets db !! SourceBucketID input) as [srow|]; [|discriminate].
    simpl in Hsrc. injection Hsrc as Hsrc.
    cbn [rbind toBucket Bucket.BucketType]. rewrite Hsrc, Hext.
    change (negb (String.eqb BucketTypeIncome BucketTypeIncome)) with false.
    cbn iota.
    unfold buildExternalInflow. rewrite Hrule. cbn [rbind]. rewrite Halloc.
    cbn [rbind].
    destruct (SplitRule.Items rule) as [|first rest] eqn:Hitems.
    { unfold CalculateAllocation in Halloc.
      destruct (LessThanOrEqual _ _); discriminate. }
    destruct (Htargets (SplitRuleItem.TargetBucketID first)) as [Ht Hp].
    { right. by exists first, rest. }
    unfold typeOf, parentOf in Ht, Hp. unfold BucketRepo_GetByID at 1.
    destruct (buckets db !! SplitRuleItem.TargetBucketID first) as [row|];
      [|discriminate].
    simpl in Ht, Hp. injection Ht as Ht.
    cbn [rbind toBucket Bucket.BucketType Bucket.ParentPhysicalBucketID].
    rewrite Ht, Hp.
    change (negb (String.eqb BucketTypeVirtual BucketTypeVirtual)) with false.
    cbn iota.
    rewrite checkTargets_ok; [reflexivity|].
    intros k a Hin. apply Htargets. left.
    apply list_elem_of_In, elem_of_map_to_list in Hin. by rewrite Hin. }
  split.
  - intros Hshares. rewrite Hbuild, (Hgood Hshares). reflexivity.
  - intros k a Hk Ha. split; [|vm_compute; reflexivity].
    unfold RecordInflow. rewrite Hbuild, (Hbad k a Hk Ha). reflexivity.
Qed.

Lemma X23_inflow_hangs_on_shares_witness :
  RecordInflow testEnv zeroPercentDB salaryInflow
  = (Err ErrEntryAmount, zeroPercentDB)
  /\ grpc.mapError ErrEntryAmount = grpc.InvalidArgument.
Proof.
  destruct (SplitRuleRepo_GetBySourceBucketID zeroPercentDB
              (SourceBucketID salaryInflow)) as [rule|] eqn:H1;
    [|vm_compute in H1; discriminate].
  assert (Hrule : SplitRule.Items rule
                  = SplitRule.Items
                      (SplitRule.Make 400 "Salary" 10
                         [ SplitRuleItem.Make 401 400 11 SplitRuleItemTypeFixed
                                              (NewFromInt 500) 1;
                           SplitRuleItem.Make 402 400 12 SplitRuleItemTypePercent
                                              (NewFromInt 0) 2;
                           SplitRuleItem.Make 403 400 13
                                              SplitRuleItemTypeRemainder Zero 3 ])).
  { pose proof H1 as H1'. vm_compute in H1'. by injection H1' as <-. }
  destruct (CalculateAllocation (Amount salaryInflow) (SplitRule.Items rule))
    as [allocation|] eqn:H2; [|rewrite Hrule in H2; vm_compute in H2; discriminate].
  assert (Hnf : Ok allocation
                = CalculateAllocation (Amount salaryInflow)
                    (SplitRule.Items
                       (SplitRule.Make 400 "Salary" 10
                          [ SplitRuleItem.Make 401 400 11 SplitRuleItemTypeFixed
                                               (NewFromInt 500) 1;
                            SplitRuleItem.Make 402 400 12 SplitRuleItemTypePercent
                                               (NewFromInt 0) 2;
                            SplitRuleItem.Make 403 400 13
                                               SplitRuleItemTypeRemainder Zero 3 ])))
    by (by rewrite <- Hrule, H2).
  vm_compute in Hnf. injection Hnf as Hnf.
  assert (Hkeys : forall target (a : Decimal),
            allocation !! target = Some a ->
            target = 11%N \/ target = 12%N \/ target = 13%N).
  { intros target a Ha. rewrite Hnf in Ha.
    apply elem_of_map_to_list, list_elem_of_In in Ha. vm_compute in Ha.
    destruct Ha as [Ha|[Ha|[Ha|Ha]]]; [| | |destruct Ha];
      inversion Ha; subst; auto. }
  assert (Hzero : allocation !! 12%N = Some (New 0 (-16)))
    by (rewrite Hnf; vm_compute; reflexivity).
  refine (proj2 (X23_inflow_hangs_on_shares testEnv zeroPercentDB salaryInflow
                   rule allocation 1%N _ _ _ H1 H2 _) 12%N (New 0 (-16)) Hzero _);
    try (vm_compute; reflexivity).
  intros target Htarget.
  assert (Hin : target = 11%N \/ target = 12%N \/ target = 13%N).
  { destruct Htarget as [[a Ha]|(first & rest & Hitems & ->)].
    - by apply (Hkeys target a).
    - rewrite Hrule in Hitems. injection Hitems as <- _. by left. }
  destruct Hin as [-> | [-> | ->]]; split; reflexivity.
Defined.

End inflow_validation.

(** ** The allocation passes, for every outcome of the sort *)

Module allocation_order.
Import decimal_facts allocator_facts ledger_facts allocation_facts
       allocation_claims.

Lemma CalculateAllocationWith_sorted total items sorted :
  GreaterThan total Zero = true -> items <> [] ->
  CalculateAllocationWith sorted total items = allocateSorted total sorted.
Proof.
  intros Hpos Hne. unfold CalculateAllocationWith.
  rewrite (positive_not_le _ Hpos). by destruct items.
Qed.

Lemma toQ_percentShare base p :
  (toQ (snd (percentShare base p)) - toQ base * toQ (SplitRuleItem.Value p) / inject_Z 100
   == toQ (Div100 (Mul base (SplitRuleItem.Value p)))
      - toQ (Mul base (SplitRuleItem.Value p)) / inject_Z 100)%Q.
Proof. unfold percentShare. cbn [snd]. rewrite toQ_Mul. reflexivity. Qed.

(** C1, as stated, fails: a PERCENT share is kept to sixteen fractional
    digits.  12.345678 percent of 100.000000001 is 12.34567800012345678;
    the allocation assigns 12.3456780001234568. *)
Lemma C1_percent_share_rounded :
  GreaterThan preciseTotal Zero = true
  /\ List.filter (isKind SplitRuleItemTypeRemainder) preciseRule
     = [SplitRuleItem.Make 402 400 43 SplitRuleItemTypeRemainder Zero 2]
  /\ exists allocation share,
       CalculateAllocation preciseTotal preciseRule = Ok allocation
       /\ allocation !! 42%N = Some share
       /\ share = New 123456780001234568 (-16)
       /\ ~ (toQ share
             == toQ preciseTotal * toQ (New 12345678 (-6)) / inject_Z 100)%Q.
Proof.
  split; [reflexivity|]. split; [reflexivity|].
  exists (withRemainder preciseTotal (sortSlice preciseRule)
            (SplitRuleItem.Make 402 400 43 SplitRuleItemTypeRemainder Zero 2)),
         (New 123456780001234568 (-16)).
  split; [vm_compute; reflexivity|].
  split; [vm_compute; reflexivity|].
  split; [reflexivity|].
  vm_compute. discriminate.
Qed.

(** C1, amended.  With [total > 0] and exactly one REMAINDER item [r],
    whatever order [sort.Slice] leaves items of equal priority in: the
    items are processed in ascending priority; the FIXED items are checked
    one after the other against what remains and the call fails with the
    overflow error at the first that does not fit; otherwise every FIXED
    item is assigned its value, every PERCENT item is assigned
    [base * value / 100] rounded to sixteen fractional digits, for the one
    [base = total - sum of FIXED values], and the REMAINDER item is
    assigned the total minus everything assigned so far.  The PERCENT
    share is exact when base and value have at most fourteen fractional
    digits together, and within half a unit of the sixteenth digit
    otherwise.  With distinct priorities the sort has one outcome.  The
    Church/Football rule on 1000 yields 50, 95 and 855. *)
Theorem C1_allocation_passes (total : Decimal)
                             (items sorted : list SplitRuleItem.t)
                             (r : SplitRuleItem.t) :
  GreaterThan total Zero = true ->
  List.filter (isKind SplitRuleItemTypeRemainder) items = [r] ->
  sortSliceOutcome items sorted ->
  (fixedFit total (fixedOf sorted) = false ->
   CalculateAllocationWith sorted total items = Err ErrFixedExceeds)
  /\ (fixedFit total (fixedOf sorted) = true ->
      (toQ (baseForPercent total (fixedOf sorted))
       == toQ total - fixedTotal items)%Q
      /\ CalculateAllocationWith sorted total items =
         (if Equal (sumAllocation (withRemainder total sorted r)) total
          then Ok (withRemainder total sorted r)
          else Err ErrImbalance)
      /\ (assignedSoFar total sorted !! SplitRuleItem.TargetBucketID r = None ->
          CalculateAllocationWith sorted total items
          = Ok (withRemainder total sorted r)))
  /\ (forall p, In p (percentOf sorted) ->
      (Qabs (toQ (snd (percentShare (baseForPercent total (fixedOf sorted)) p))
             - toQ (baseForPercent total (fixedOf sorted))
               * toQ (SplitRuleItem.Value p) / inject_Z 100)
       <= 5 * (10 # 1) ^ (-17))%Q
      /\ (-14 <= exp (baseForPercent total (fixedOf sorted))
                 + exp (SplitRuleItem.Value p) ->
          (toQ (snd (percentShare (baseForPercent total (fixedOf sorted)) p))
           == toQ (baseForPercent total (fixedOf sorted))
              * toQ (SplitRuleItem.Value p) / inject_Z 100)%Q))
  /\ (NoDup (List.map SplitRuleItem.Priority items) ->
      CalculateAllocationWith sorted total items
      = CalculateAllocation total items)
  /\ (forall churchSorted, sortSliceOutcome churchFootball churchSorted ->
      exists coffee missions catchAll,
        CalculateAllocationWith churchSorted (NewFromInt 1000) churchFootball
        = Ok ({[ 11%N := coffee; 12%N := missions; 13%N := catchAll ]})
        /\ Equal coffee (NewFromInt 50) = true
        /\ Equal missions (NewFromInt 95) = true
        /\ Equal catchAll (NewFromInt 855) = true).
Proof.
  intros Hpos Hrem Hout.
  assert (Hne : items <> []) by (intros ->; discriminate).
  assert (Hfind : findRemainderItem sorted = Some r)
    by (by apply (outcome_remainder items)).
  assert (Hcalc := CalculateAllocationWith_sorted total items sorted Hpos Hne).
  rewrite allocateSorted_spec, Hfind in Hcalc.
  split; [intros Hfit; by rewrite Hcalc, Hfit|].
  split.
  { intros Hfit. rewrite Hfit in Hcalc.
    split.
    { rewrite toQ_baseForPercent, <- (fixedTotal_outcome items sorted Hout).
      reflexivity. }
    split; [exact Hcalc|].
    intros Hfresh. rewrite Hcalc.
    unfold withRemainder at 1, remainderShare.
    by rewrite balanced_fresh_remainder. }
  split.
  { intros p _. split.
    - rewrite toQ_percentShare. apply Div100_rounds.
    - intros Hexp. unfold percentShare. cbn [snd].
      rewrite Div100_exact by exact Hexp. rewrite toQ_Mul. reflexivity. }
  split.
  { intros Hnd. rewrite (sortSliceOutcome_unique items sorted Hnd Hout).
    reflexivity. }
  intros churchSorted Hchurch.
  rewrite (sortSliceOutcome_unique churchFootball churchSorted);
    [|apply (bool_decide_unpack _); vm_compute; reflexivity|exact Hchurch].
  exists (New 50 0), (New 950000000000000000 (-16)),
         (New 8550000000000000000 (-16)).
  split; [vm_compute; reflexivity|].
  repeat split; vm_compute; reflexivity.
Qed.

Lemma C1_allocation_passes_witness :
  GreaterThan (NewFromInt 1000) Zero = true
  /\ List.filter (isKind SplitRuleItemTypeRemainder) churchFootball
     = [SplitRuleItem.Make 103 100 13 SplitRuleItemTypeRemainder Zero 3]
  /\ sortSliceOutcome churchFootball (sortSlice churchFootball)
  /\ CalculateAllocationWith (sortSlice churchFootball) (NewFromInt 1000)
                             churchFootball
     = Ok (withRemainder (NewFromInt 1000) (sortSlice churchFootball)
             (SplitRuleItem.Make 103 100 13 SplitRuleItemTypeRemainder Zero 3)).
Proof.
  assert (H1 : GreaterThan (NewFromInt 1000) Zero = true) by reflexivity.
  assert (H2 : List.filter (isKind SplitRuleItemTypeRemainder) churchFootball
               = [SplitRuleItem.Make 103 100 13 SplitRuleItemTypeRemainder Zero 3])
    by reflexivity.
  assert (H3 := sortSlice_outcome churchFootball).
  split; [exact H1|]. split; [exact H2|]. split; [exact H3|].
  destruct (C1_allocation_passes _ _ _ _ H1 H2 H3) as (_ & H4 & _).
  destruct H4 as (_ & _ & H5); [vm_compute; reflexivity|].
  apply H5. vm_compute. reflexivity.
Defined.

(** C3, amended.  The REMAINDER item receives the total minus the sum of
    the FIXED and PERCENT assignments whatever its sign: when no other
    item names its target and the FIXED items fit, the allocation succeeds
    with that share, be it negative, zero or positive, and leaves the
    other assignments as they are.  This holds for every order
    [sort.Slice] leaves items of equal priority in, and the sum is the
    same in whatever order the map is ranged over. *)
Theorem C3_remainder_unchecked (total : Decimal)
                               (items sorted : list SplitRuleItem.t)
                               (r : SplitRuleItem.t) :
  GreaterThan total Zero = true ->
  sortSliceOutcome items sorted ->
  findRemainderItem sorted = Some r ->
  fixedFit total (fixedOf sorted) = true ->
  assignedSoFar total sorted !! SplitRuleItem.TargetBucketID r = None ->
  exists allocation,
    CalculateAllocationWith sorted total items = Ok allocation
    /\ allocation !! SplitRuleItem.TargetBucketID r
       = Some (remainderShare total sorted)
    /\ (forall k, k <> SplitRuleItem.TargetBucketID r ->
                  allocation !! k = assignedSoFar total sorted !! k)
    /\ (forall enumeration : list (N * Decimal),
          enumeration ≡ₚ map_to_list (assignedSoFar total sorted) ->
          remainderShare total sorted = Sub total (sumAmounts enumeration)
          /\ (toQ (remainderShare total sorted)
              == toQ total
                 - Qsum (List.map (fun kv => toQ (snd kv)) enumeration))%Q).
Proof.
  intros Hpos [Hperm _] Hfind Hfit Hfresh.
  assert (Hne : items <> []).
  { intros ->. apply Permutation_nil_r in Hperm. subst sorted. discriminate. }
  exists (withRemainder total sorted r).
  split; [|split; [|split]].
  - rewrite (CalculateAllocationWith_sorted _ _ _ Hpos Hne), allocateSorted_spec,
      Hfit, Hfind.
    unfold withRemainder at 1, remainderShare.
    by rewrite balanced_fresh_remainder.
  - unfold withRemainder. apply lookup_insert_eq.
  - intros k Hk. unfold withRemainder. by apply lookup_insert_ne.
  - intros enumeration Henum.
    assert (E : remainderShare total sorted = Sub total (sumAmounts enumeration)).
    { unfold remainderShare, sumAllocation.
      by rewrite (sumAmounts_perm _ _ Henum). }
    split; [exact E|].
    rewrite E, toQ_Sub, toQ_sumAmounts. reflexivity.
Qed.

Lemma C3_remainder_unchecked_witness :
  exists allocation,
    CalculateAllocationWith (sortSlice twoEighties) (NewFromInt 100) twoEighties
    = Ok allocation
    /\ allocation !! 23%N
       = Some (remainderShare (NewFromInt 100) (sortSlice twoEighties)).
Proof.
  destruct (C3_remainder_unchecked (NewFromInt 100) twoEighties
              (sortSlice twoEighties)
              (SplitRuleItem.Make 203 200 23 SplitRuleItemTypeRemainder Zero 3))
    as [allocation [H1 [H2 _]]];
    [reflexivity|apply sortSlice_outcome|reflexivity|reflexivity|reflexivity|].
  exists allocation. split; assumption.
Defined.

End allocation_order.
